(** * Governance validation engine: RACI game validator and cooperative
      improvement validator

    Shallow embedding of
      - scripts/game_theory/raci_game_validator.py
      - scripts/game_theory/cooperative_improvement_validator.py
    together with the properties stated for them.

    Conventions of the embedding.
      - The code is embedded twice.  In the modules [RaciGame],
        [Cooperative], [Conflicts] and [ParetoSet] a Python [float] is an
        exact rational ([Q]) and [float('inf')] a constructor of [xfloat]:
        the ideal arithmetic, used for the properties that do not depend on
        rounding.  In the modules [RaciGame64] and [Cooperative64] a
        [float] is a binary64 number ([PrimFloat.float]) with the IEEE 754
        operations and comparisons Python uses: the arithmetic of the code
        itself, used wherever a result depends on it.
      - A Python exception is a constructor of [exn]; a function that can
        raise returns a [result].
      - An f-string is the concatenation of its pieces ([fstr]); [:.Nf] is
        [format_f N] on a rational and [format_float N] on a binary64
        number (its exact value, correctly rounded to [N] places).
      - A [dict] keyed by dataclass instances is an association list in
        insertion order, searched with the dataclass [__eq__].
      - [print] calls are not modelled (no value depends on them). *)

From Stdlib Require Import QArith Qabs Qminmax Lqa Lia ZArith List String Ascii Bool.
From Stdlib Require Import DecimalString Permutation Sorted.
From Stdlib Require Import Floats.
Import ListNotations.

Set Warnings "-inexact-float".

Open Scope Q_scope.

(* ================================================================= *)
(** ** Python runtime fragments *)

Module Py.

Inductive exn : Type :=
| AttributeError
| ZeroDivisionError.

Inductive result (A : Type) : Type :=
| Ok (a : A)
| Raise (e : exn).
Arguments Ok {A} a.
Arguments Raise {A} e.

Definition bind {A B : Type} (m : result A) (k : A -> result B) : result B :=
  match m with
  | Ok a => k a
  | Raise e => Raise e
  end.

Definition returns {A : Type} (m : result A) : Prop :=
  exists a, m = Ok a.

(** [x < y] on floats. *)
Definition Qltb (x y : Q) : bool := negb (Qle_bool y x).

(** [x / y] on floats: raises on a zero divisor. *)
Definition truediv (x y : Q) : result Q :=
  if Qeq_bool y 0 then Raise ZeroDivisionError else Ok (x / y).

(** Floats extended with the value of [float('inf')]. *)
Inductive xfloat : Type :=
| Fin (q : Q)
| PInf.

Definition xltb (x : xfloat) (y : Q) : bool :=
  match x with
  | Fin q => Qltb q y
  | PInf => false
  end.

(** [max(score, 0.0)] and [min(a, b)] on floats: Python returns the first
    argument unless the second is strictly better. *)
Definition fmax (a b : Q) : Q := if Qltb a b then b else a.
Definition fmin (a b : Q) : Q := if Qltb b a then b else a.

(** [len(xs)] as a float operand. *)
Definition flen {A : Type} (xs : list A) : Q := inject_Z (Z.of_nat (List.length xs)).

(** An f-string. *)
Definition fstr (parts : list string) : string := String.concat "" parts.

(** [str(n)] for an [int]. *)
Definition str_int (n : Z) : string := NilZero.string_of_int (Z.to_int n).

Definition round_half_even (x : Q) : Z :=
  let n := Qnum x in
  let d := Z.pos (Qden x) in
  let f := (n / d)%Z in
  match (2 * (n mod d) ?= d)%Z with
  | Lt => f
  | Gt => (f + 1)%Z
  | Eq => if Z.even f then f else (f + 1)%Z
  end.

Fixpoint zeros (n : nat) : string :=
  match n with
  | O => EmptyString
  | S k => String "0" (zeros k)
  end.

(** [format(x, '.<prec>f')]: correctly rounded (half to even) fixed point. *)
Definition format_f (prec : nat) (x : Q) : string :=
  let p := (10 ^ Z.of_nat prec)%Z in
  let scaled := round_half_even (Qabs x * inject_Z p) in
  let frac := str_int (scaled mod p) in
  fstr [ if Qltb x 0 then "-"%string else ""%string;
         str_int (scaled / p);
         match prec with
         | O => ""%string
         | _ => fstr ["."%string; zeros (prec - String.length frac); frac]
         end ].

Definition format_xf (prec : nat) (x : xfloat) : string :=
  match x with
  | Fin q => format_f prec q
  | PInf => "inf"%string
  end.

(** [==] on lists: same length and pairwise equal. *)
Fixpoint list_eqb {A : Type} (eqb : A -> A -> bool) (xs ys : list A) : bool :=
  match xs, ys with
  | [], [] => true
  | x :: xs', y :: ys' => eqb x y && list_eqb eqb xs' ys'
  | _, _ => false
  end.

(** [max(xs, key=key)] on a non-empty list [x :: xs]: the first maximal
    element is kept. *)
Definition max_by {A : Type} (key : A -> Q) (x : A) (xs : list A) : A :=
  fold_left (fun best p => if Qltb (key best) (key p) then p else best) xs x.

(** [sorted(xs, key=key, reverse=True)] with integer keys: descending and
    stable (equal keys keep their original order). *)
Fixpoint insert_desc {A : Type} (key : A -> Z) (x : A) (l : list A) : list A :=
  match l with
  | [] => [x]
  | y :: ys => if (key x <? key y)%Z then y :: insert_desc key x ys
               else x :: y :: ys
  end.

Fixpoint sorted_desc {A : Type} (key : A -> Z) (l : list A) : list A :=
  match l with
  | [] => []
  | x :: xs => insert_desc key x (sorted_desc key xs)
  end.

(** A [dict] as an association list in insertion order. *)
Section Dict.
Context {K V : Type} (keq : K -> K -> bool).

Fixpoint dict_get (d : list (K * V)) (k : K) : option V :=
  match d with
  | [] => None
  | (k', v) :: d' => if keq k' k then Some v else dict_get d' k
  end.

(** [d[k] = v] *)
Fixpoint dict_set (d : list (K * V)) (k : K) (v : V) : list (K * V) :=
  match d with
  | [] => [(k, v)]
  | (k', v') :: d' => if keq k' k then (k', v) :: d'
                      else (k', v') :: dict_set d' k v
  end.

End Dict.

End Py.

Import Py.
Notation "x <- m ;; k" := (Py.bind m (fun x => k))
  (at level 61, m at next level, right associativity).

(* ================================================================= *)
(** ** raci_game_validator.py *)

Module RaciGame.

(** Exact arithmetic: a [float] is a rational.  The payoff comparisons of
    [find_best_response] and [check_nash_equilibrium] ([improves]) are made
    here on exact payoffs; their double-precision form is in
    [RaciGame64]. *)

Inductive AgentTier : Type :=
| TIER1_OBSERVER
| TIER2_DEVELOPER
| TIER3_OPERATIONS
| TIER4_ARCHITECT.

(** [tier.value] *)
Definition value (t : AgentTier) : Z :=
  match t with
  | TIER1_OBSERVER => 1
  | TIER2_DEVELOPER => 2
  | TIER3_OPERATIONS => 3
  | TIER4_ARCHITECT => 4
  end.

Definition AgentTier_eqb (s t : AgentTier) : bool := (value s =? value t)%Z.

Record Agent : Type := {
  agent_id : string;
  tier : AgentTier;
  controls : list string;
  cost_per_action : Q;
  risk_tolerance : Q
}.

(** The dataclass [__eq__]: field by field. *)
Definition Agent_eqb (a b : Agent) : bool :=
  String.eqb (agent_id a) (agent_id b)
  && AgentTier_eqb (tier a) (tier b)
  && list_eqb String.eqb (controls a) (controls b)
  && Qeq_bool (cost_per_action a) (cost_per_action b)
  && Qeq_bool (risk_tolerance a) (risk_tolerance b).

Record Action : Type := {
  action_id : string;
  control_id : string;
  description : string;
  cost : Q;
  risk : Q;
  compliance_value : Q;
  requires_approval : bool
}.

Definition Action_eqb (a b : Action) : bool :=
  String.eqb (action_id a) (action_id b)
  && String.eqb (control_id a) (control_id b)
  && String.eqb (description a) (description b)
  && Qeq_bool (cost a) (cost b)
  && Qeq_bool (risk a) (risk b)
  && Qeq_bool (compliance_value a) (compliance_value b)
  && Bool.eqb (requires_approval a) (requires_approval b).

(** [responsible] and [accountable] are annotated [Agent], but the
    validator tests them for truth, so [None] is a value they can hold. *)
Record RACIAssignment : Type := {
  raci_control_id : string;
  responsible : option Agent;
  accountable : option Agent;
  consulted : list Agent;
  informed : list Agent
}.

(** [x == y] where either side may be [None]. *)
Definition opt_Agent_eqb (x y : option Agent) : bool :=
  match x, y with
  | Some a, Some b => Agent_eqb a b
  | None, None => true
  | _, _ => false
  end.

Record GameState : Type := {
  agents : list Agent;
  raci_assignments : list RACIAssignment;
  actions_taken : list (Agent * Action);
  compliance_score : Q;
  total_cost : Q;
  total_risk : Q
}.

(** [GameState(agents=..., raci_assignments=...)] *)
Definition new_GameState (ags : list Agent) (ras : list RACIAssignment) : GameState :=
  {| agents := ags; raci_assignments := ras; actions_taken := [];
     compliance_score := 0.0; total_cost := 0.0; total_risk := 0.0 |}.

Record PayoffMatrix : Type := {
  pm_agent : Agent;
  pm_action : Action;
  payoff : Q;
  breakdown : list (string * Q)
}.

(** The validator object: [self.agents], [self.raci_assignments]. *)
Record RACIGameValidator : Type := {
  self_agents : list Agent;
  self_raci_assignments : list RACIAssignment
}.

(** [_organize_by_tier] *)
Definition _organize_by_tier (self : RACIGameValidator)
  : list (AgentTier * list Agent) :=
  map (fun t => (t, filter (fun a => AgentTier_eqb (tier a) t) (self_agents self)))
      [TIER1_OBSERVER; TIER2_DEVELOPER; TIER3_OPERATIONS; TIER4_ARCHITECT].

(** *** validate_raci_constraints *)

Definition msg_no_accountable (control : string) : string :=
  fstr [control; ": No Accountable agent assigned"]%string.

Definition msg_no_responsible (control : string) : string :=
  fstr [control; ": No Responsible agent assigned"]%string.

Definition msg_both (control : string) (r : Agent) : string :=
  fstr [control; ": Agent "; agent_id r;
        " cannot be both Responsible and Accountable"]%string.

Definition msg_tier (control : string) (acc : Agent) : string :=
  fstr [control; ": Accountable agent "; agent_id acc; " is Tier ";
        str_int (value (tier acc)); ", requires Tier 3+"]%string.

(** One iteration of the loop over [self.raci_assignments]; [violations]
    is the list accumulated so far. *)
Definition check_assignment (violations : list string) (assignment : RACIAssignment)
  : result (list string) :=
  let control := raci_control_id assignment in
  (* Rule 1: Exactly one Accountable *)
  let violations :=
    match accountable assignment with
    | None => violations ++ [msg_no_accountable control]
    | Some _ => violations
    end in
  (* Rule 2: At least one Responsible *)
  let violations :=
    match responsible assignment with
    | None => violations ++ [msg_no_responsible control]
    | Some _ => violations
    end in
  (* Rule 3: R != A for same agent *)
  violations <-
    (if opt_Agent_eqb (responsible assignment) (accountable assignment)
     then match responsible assignment with
          | Some r => Ok (violations ++ [msg_both control r])
          | None => Raise AttributeError   (* None.agent_id *)
          end
     else Ok violations) ;;
  (* Rule 4: Tier constraints *)
  let violations :=
    match accountable assignment with
    | Some acc =>
        if (value (tier acc) <? 3)%Z
        then violations ++ [msg_tier control acc]
        else violations
    | None => violations
    end in
  Ok violations.

Fixpoint check_assignments (violations : list string) (l : list RACIAssignment)
  : result (list string) :=
  match l with
  | [] => Ok violations
  | assignment :: l' =>
      violations <- check_assignment violations assignment ;;
      check_assignments violations l'
  end.

Definition validate_raci_constraints (self : RACIGameValidator)
  : result (bool * list string) :=
  violations <- check_assignments [] (self_raci_assignments self) ;;
  Ok ((List.length violations =? 0)%nat, violations).


(** *** calculate_payoff *)

(** One iteration of the loop that accumulates [cooperation_bonus]. *)
Definition bonus_step (agent : Agent) (action : Action)
  (cooperation_bonus : Q) (assignment : RACIAssignment) : Q :=
  if String.eqb (raci_control_id assignment) (control_id action) then
    if opt_Agent_eqb (Some agent) (responsible assignment) then
      cooperation_bonus + 2.0
    else if existsb (fun c => Agent_eqb c agent) (consulted assignment) then
      cooperation_bonus + 0.5
    else cooperation_bonus
  else cooperation_bonus.

Definition cooperation_bonus (self : RACIGameValidator) (agent : Agent)
  (action : Action) : Q :=
  fold_left (bonus_step agent action) (self_raci_assignments self) 0.0.

Definition calculate_payoff (self : RACIGameValidator) (agent : Agent)
  (action : Action) (game_state : GameState) : PayoffMatrix :=
  let compliance_value := compliance_value action in
  let cost := cost action * cost_per_action agent in
  let risk_penalty := risk action * (1 - risk_tolerance agent) in
  let cooperation_bonus := cooperation_bonus self agent action in
  let payoff := compliance_value - cost - risk_penalty + cooperation_bonus in
  {| pm_agent := agent;
     pm_action := action;
     payoff := payoff;
     breakdown := [ ("compliance_value", compliance_value);
                    ("cost", - cost);
                    ("risk_penalty", - risk_penalty);
                    ("cooperation_bonus", cooperation_bonus);
                    ("total", payoff) ]%string |}.

(** *** find_best_response *)

Definition find_best_response (self : RACIGameValidator) (agent : Agent)
  (actions : list Action) (game_state : GameState) : option Action :=
  match map (fun action => calculate_payoff self agent action game_state) actions with
  | [] => None
  | p :: payoffs =>
      let best := max_by payoff p payoffs in
      if Qltb 0 (payoff best) then Some (pm_action best) else None
  end.

(** *** _get_agent_actions *)

Definition sample_action (agent : Agent) (control : string) : Action :=
  {| action_id := fstr [agent_id agent; "_"; control; "_execute"]%string;
     control_id := control;
     description := fstr ["Execute "; control]%string;
     cost := 1.0;
     risk := 0.3;
     compliance_value := 5.0;
     requires_approval := (3 <=? value (tier agent))%Z |}.

Definition _get_agent_actions (self : RACIGameValidator) (agent : Agent)
  : list Action :=
  map (sample_action agent) (controls agent).

(** *** check_nash_equilibrium *)

Definition msg_deviation (agent : Agent) (current_payoff alt_payoff : PayoffMatrix)
  : string :=
  fstr [ "Agent "; agent_id agent; " can improve from ";
         action_id (pm_action current_payoff);
         " (payoff="; format_f 2 (payoff current_payoff); ") to ";
         action_id (pm_action alt_payoff);
         " (payoff="; format_f 2 (payoff alt_payoff); ")" ]%string.

(** The test guarding [violations.append] in the inner loop. *)
Definition improves (self : RACIGameValidator) (game_state : GameState)
  (agent : Agent) (current_action alt_action : Action) : bool :=
  negb (Action_eqb alt_action current_action)
  && Qltb (payoff (calculate_payoff self agent current_action game_state) + 0.01)
          (payoff (calculate_payoff self agent alt_action game_state)).

(** The inner loop, for one item of [action_profile]. *)
Definition check_agent (self : RACIGameValidator) (game_state : GameState)
  (violations : list string) (item : Agent * Action) : list string :=
  let (agent, current_action) := item in
  let current_payoff := calculate_payoff self agent current_action game_state in
  let possible_actions := _get_agent_actions self agent in
  fold_left
    (fun violations alt_action =>
       if improves self game_state agent current_action alt_action
       then violations
            ++ [msg_deviation agent current_payoff
                  (calculate_payoff self agent alt_action game_state)]
       else violations)
    possible_actions violations.

Definition check_nash_equilibrium (self : RACIGameValidator)
  (game_state : GameState) (action_profile : list (Agent * Action))
  : bool * list string :=
  let violations := fold_left (check_agent self game_state) action_profile [] in
  let is_equilibrium := (List.length violations =? 0)%nat in
  (is_equilibrium, violations).

(** *** stackelberg_equilibrium *)

(** [game_state] after the four updates that follow a chosen action. *)
Definition record_action (game_state : GameState) (agent : Agent)
  (best_action : Action) : GameState :=
  {| agents := agents game_state;
     raci_assignments := raci_assignments game_state;
     actions_taken := actions_taken game_state ++ [(agent, best_action)];
     compliance_score := compliance_score game_state + compliance_value best_action;
     total_cost := total_cost game_state + cost best_action;
     total_risk := total_risk game_state + risk best_action |}.

(** One iteration of the loop over [sorted_agents], on the pair of the
    locals [action_profile] and [game_state]. *)
Definition stackelberg_step (self : RACIGameValidator)
  (actions_by_agent : list (Agent * list Action))
  (st : list (Agent * Action) * GameState) (agent : Agent)
  : list (Agent * Action) * GameState :=
  let (action_profile, game_state) := st in
  let available_actions :=
    match dict_get Agent_eqb actions_by_agent agent with
    | Some l => l
    | None => []
    end in
  match find_best_response self agent available_actions game_state with
  | Some best_action =>
      (dict_set Agent_eqb action_profile agent best_action,
       record_action game_state agent best_action)
  | None => (action_profile, game_state)
  end.

Definition sorted_agents (self : RACIGameValidator) : list Agent :=
  sorted_desc (fun a => value (tier a)) (self_agents self).

Definition stackelberg_run (self : RACIGameValidator)
  (actions_by_agent : list (Agent * list Action))
  : list (Agent * Action) * GameState :=
  fold_left (stackelberg_step self actions_by_agent) (sorted_agents self)
    ([], new_GameState (self_agents self) (self_raci_assignments self)).

Definition stackelberg_equilibrium (self : RACIGameValidator)
  (actions_by_agent : list (Agent * list Action)) : list (Agent * Action) :=
  fst (stackelberg_run self actions_by_agent).

End RaciGame.

(* ================================================================= *)
(** ** cooperative_improvement_validator.py *)

Module Cooperative.

(** Exact arithmetic: a [float] is a rational.  The threshold tests of
    [validate_pareto_improvement], [validate_review_diligence]
    ([too_short], [too_long]) and the penalties of
    [validate_truthful_reporting] are computed here exactly; their
    double-precision form is in [Cooperative64]. *)

Inductive ProposalType : Type :=
| COST_REDUCTION
| EFFICIENCY_GAIN
| WORKFLOW_OPTIMIZATION
| RISK_MITIGATION
| COMPLIANCE_ENHANCEMENT.

Inductive ReviewStatus : Type :=
| PENDING
| IN_REVIEW
| APPROVED
| REJECTED
| INSUFFICIENT_REVIEW.

Definition ReviewStatus_eqb (s t : ReviewStatus) : bool :=
  match s, t with
  | PENDING, PENDING
  | IN_REVIEW, IN_REVIEW
  | APPROVED, APPROVED
  | REJECTED, REJECTED
  | INSUFFICIENT_REVIEW, INSUFFICIENT_REVIEW => true
  | _, _ => false
  end.

Record ImprovementMetrics : Type := {
  cost_savings_usd : Q;
  time_savings_hours : Q;
  quality_improvement_pct : Q;
  risk_reduction_pct : Q;
  compliance_score_delta : Q
}.

Definition is_pareto_improvement (self : ImprovementMetrics) : bool :=
  let metrics := [ cost_savings_usd self;
                   time_savings_hours self;
                   quality_improvement_pct self;
                   risk_reduction_pct self;
                   compliance_score_delta self ] in
  forallb (fun m => Qle_bool 0 m) metrics && existsb (fun m => Qltb 0 m) metrics.

Definition total_value (self : ImprovementMetrics) : Q :=
  cost_savings_usd self
  + time_savings_hours self * 75.0
  + quality_improvement_pct self * 100.0
  + risk_reduction_pct self * 500.0
  + compliance_score_delta self * 1000.0.

(** Timestamps ([datetime]) are seconds since the epoch. *)
Record Proposal : Type := {
  proposal_id : string;
  agent_id : string;
  agent_tier : Z;
  proposal_type : ProposalType;
  title : string;
  description : string;
  current_state : string;
  proposed_state : string;
  metrics : ImprovementMetrics;
  affected_controls : list string;
  implementation_cost_usd : Q;
  implementation_time_hours : Q;
  risk_assessment : string;
  submitted_at : Q;
  jira_cr_id : option string
}.

Definition net_benefit (self : Proposal) : Q :=
  total_value (metrics self) - implementation_cost_usd self.

Definition roi (self : Proposal) : result xfloat :=
  if Qeq_bool (implementation_cost_usd self) 0 then
    Ok (if Qltb 0 (total_value (metrics self)) then PInf else Fin 0.0)
  else
    q <- truediv (total_value (metrics self)) (implementation_cost_usd self) ;;
    Ok (Fin q).

(** The divisions of [complexity_score] are by the literal [100.0]. *)
Definition complexity_score (self : Proposal) : Q :=
  let score := 0.0 in
  let score := score + flen (affected_controls self) * 5.0 in
  let score := score + fmin (implementation_time_hours self) 40.0 in
  let score := score + fmin (implementation_cost_usd self / 100.0) 20.0 in
  let score :=
    score + fmin (inject_Z (Z.of_nat (String.length (description self))) / 100.0) 15.0 in
  fmin score 100.0.

Record HumanReview : Type := {
  review_id : string;
  reviewer_id : string;
  reviewer_role : string;
  review_proposal_id : string;
  status : ReviewStatus;
  review_start_time : Q;
  review_end_time : option Q;
  review_duration_minutes : Q;
  comments : string;
  approval_signature : option string;
  concerns_raised : list string;
  questions_asked : Z;
  documents_reviewed : list string
}.

Definition MIN_REVIEW_MINUTES_PER_COMPLEXITY : Q := 0.5.
Definition MAX_REVIEW_MINUTES_PER_COMPLEXITY : Q := 3.0.

(** *** validate_pareto_improvement *)

Definition msg_not_pareto : string :=
  fstr [ "Not a Pareto improvement: Some metrics are negative. ";
         "All improvements must be non-negative." ]%string.

Definition msg_net_benefit (proposal : Proposal) (net_benefit : Q) : string :=
  fstr [ "Negative net benefit: $"; format_f 2 net_benefit; ". ";
         "Benefits ($"; format_f 2 (total_value (metrics proposal)); ") must exceed ";
         "costs ($"; format_f 2 (implementation_cost_usd proposal); ")." ]%string.

Definition msg_roi (roi : xfloat) : string :=
  fstr [ "ROI too low: "; format_xf 2 roi;
         "x. Minimum required: 1.2x (20% return). ";
         "Proposal must demonstrate clear value." ]%string.

Definition validate_pareto_improvement (proposal : Proposal)
  : result (bool * list string) :=
  let issues := [] in
  (* Check Pareto improvement *)
  let issues :=
    if negb (is_pareto_improvement (metrics proposal))
    then issues ++ [msg_not_pareto] else issues in
  (* Check net benefit *)
  let net_benefit := net_benefit proposal in
  let issues :=
    if Qle_bool net_benefit 0
    then issues ++ [msg_net_benefit proposal net_benefit] else issues in
  (* Check ROI threshold *)
  roi <- roi proposal ;;
  let issues :=
    if xltb roi 1.2 then issues ++ [msg_roi roi] else issues in
  Ok ((List.length issues =? 0)%nat, issues).

(** *** validate_truthful_reporting *)

Definition msg_new_agent : string :=
  "New agent - limited history for truthfulness assessment"%string.

Definition msg_cost_pattern (n_errors n_history : nat) : string :=
  fstr [ "Pattern detected: Agent consistently underestimates costs ";
         "("; str_int (Z.of_nat n_errors); "/"; str_int (Z.of_nat n_history);
         " proposals)" ]%string.

Definition msg_time_pattern (n_errors n_history : nat) : string :=
  fstr [ "Pattern detected: Agent consistently overestimates benefits ";
         "("; str_int (Z.of_nat n_errors); "/"; str_int (Z.of_nat n_history);
         " proposals)" ]%string.

Definition msg_red_flag (proposal : Proposal) : string :=
  fstr [ "Red flag: Claimed benefits ($";
         format_f 2 (total_value (metrics proposal));
         ") seem disproportionate to costs ($";
         format_f 2 (implementation_cost_usd proposal); ")" ]%string.

(** The two tests of the loop over [agent_history]. *)
Definition is_cost_error (past_proposal : Proposal) : bool :=
  Qltb 10000 (total_value (metrics past_proposal))
  && Qltb (implementation_cost_usd past_proposal) 100.

Definition is_time_error (past_proposal : Proposal) : bool :=
  Qltb (implementation_time_hours past_proposal) 1
  && Qltb 100 (time_savings_hours (metrics past_proposal)).

(** The test on the current proposal. *)
Definition is_red_flag (proposal : Proposal) : bool :=
  Qltb 50000 (total_value (metrics proposal))
  && Qltb (implementation_cost_usd proposal) 500.

Definition validate_truthful_reporting (proposal : Proposal)
  (agent_history : list Proposal) : Q * list string :=
  let warnings := [] in
  let score := 1.0 in
  match agent_history with
  | [] =>
      (* New agent, give benefit of doubt with slight penalty *)
      let score := 0.9 in
      (score, warnings ++ [msg_new_agent])
  | _ :: _ =>
      let cost_errors := map proposal_id (filter is_cost_error agent_history) in
      let time_errors := map proposal_id (filter is_time_error agent_history) in
      (* Penalize patterns of over-promising *)
      let '(score, warnings) :=
        if Qltb (flen agent_history * 0.3) (flen cost_errors)
        then (score - 0.2,
              warnings ++ [msg_cost_pattern (List.length cost_errors)
                             (List.length agent_history)])
        else (score, warnings) in
      let '(score, warnings) :=
        if Qltb (flen agent_history * 0.3) (flen time_errors)
        then (score - 0.2,
              warnings ++ [msg_time_pattern (List.length time_errors)
                             (List.length agent_history)])
        else (score, warnings) in
      (* Check current proposal for red flags *)
      let '(score, warnings) :=
        if is_red_flag proposal
        then (score - 0.1, warnings ++ [msg_red_flag proposal])
        else (score, warnings) in
      (fmax score 0.0, warnings)
  end.

(** *** validate_review_diligence *)

Definition msg_too_short (review_time complexity min_expected_minutes : Q) : string :=
  fstr [ "Review time too short: "; format_f 1 review_time;
         " minutes for complexity "; format_f 0 complexity; ". ";
         "Expected minimum: "; format_f 1 min_expected_minutes; " minutes. ";
         "Possible rubber-stamp approval without due diligence." ]%string.

Definition msg_too_long (review_time complexity max_expected_minutes : Q) : string :=
  fstr [ "Review time excessively long: "; format_f 1 review_time;
         " minutes for complexity "; format_f 0 complexity; ". ";
         "Expected maximum: "; format_f 1 max_expected_minutes; " minutes. ";
         "Possible review abandonment or lack of focus." ]%string.

Definition msg_comments (review : HumanReview) : string :=
  fstr [ "Insufficient review comments: ";
         str_int (Z.of_nat (String.length (comments review))); " characters. ";
         "Approvals require substantive explanation (minimum 50 characters)." ]%string.

Definition msg_no_concerns : string :=
  fstr [ "No concerns documented for rejection. ";
         "Rejections must specify reasons." ]%string.

Definition msg_engagement (engagement_score : Z) : string :=
  fstr [ "Low engagement score: "; str_int engagement_score; "/4. ";
         "Review shows insufficient due diligence markers ";
         "(questions, documents, comments, concerns)." ]%string.

(** Truth value of a list: non-empty. *)
Definition truthy {A : Type} (l : list A) : bool :=
  match l with
  | [] => false
  | _ :: _ => true
  end.

Definition engagement (review : HumanReview) : Z :=
  let engagement_score := 0%Z in
  let engagement_score :=
    if (0 <? questions_asked review)%Z
    then (engagement_score + 1)%Z else engagement_score in
  let engagement_score :=
    if (0 <? List.length (documents_reviewed review))%nat
    then (engagement_score + 1)%Z else engagement_score in
  let engagement_score :=
    if (100 <? String.length (comments review))%nat
    then (engagement_score + 1)%Z else engagement_score in
  let engagement_score :=
    if truthy (concerns_raised review)
    then (engagement_score + 1)%Z else engagement_score in
  engagement_score.

(** The five tests, in the order of the source. *)
Definition too_short (proposal : Proposal) (review : HumanReview) : bool :=
  Qltb (review_duration_minutes review)
       (complexity_score proposal * MIN_REVIEW_MINUTES_PER_COMPLEXITY).

Definition too_long (proposal : Proposal) (review : HumanReview) : bool :=
  Qltb (complexity_score proposal * MAX_REVIEW_MINUTES_PER_COMPLEXITY * 2)
       (review_duration_minutes review).

Definition thin_approval (review : HumanReview) : bool :=
  ReviewStatus_eqb (status review) APPROVED
  && (String.length (comments review) <? 50)%nat.

Definition bare_rejection (review : HumanReview) : bool :=
  ReviewStatus_eqb (status review) REJECTED
  && negb (truthy (concerns_raised review)).

Definition low_engagement (review : HumanReview) : bool :=
  (engagement review <? 2)%Z.

Definition validate_review_diligence (proposal : Proposal) (review : HumanReview)
  : bool * list string :=
  let issues := [] in
  let complexity := complexity_score proposal in
  let min_expected_minutes := complexity * MIN_REVIEW_MINUTES_PER_COMPLEXITY in
  let max_expected_minutes := complexity * MAX_REVIEW_MINUTES_PER_COMPLEXITY in
  let review_time := review_duration_minutes review in
  let issues :=
    if too_short proposal review
    then issues ++ [msg_too_short review_time complexity min_expected_minutes]
    else issues in
  let issues :=
    if too_long proposal review
    then issues ++ [msg_too_long review_time complexity max_expected_minutes]
    else issues in
  let issues :=
    if thin_approval review then issues ++ [msg_comments review] else issues in
  let issues :=
    if bare_rejection review then issues ++ [msg_no_concerns] else issues in
  let issues :=
    if low_engagement review
    then issues ++ [msg_engagement (engagement review)] else issues in
  ((List.length issues =? 0)%nat, issues).

End Cooperative.

(* ================================================================= *)
(** ** Reputation tracker (tit-for-tat) *)

Module Reputation.

(** Modelled from the spec: [AgentReputation], [get_agent_reputation] and
    [record_proposal_outcome] are imported by test_tit_for_tat.py from
    cooperative_improvement_validator.py, which does not define them.  The
    definitions below follow the specification's wording of the tracker. *)

Record AgentReputation : Type := {
  rep_agent_id : string;
  cooperation_score : Q
}.

(** "Per agent, cooperation_score starts at 1.0." *)
Definition new_reputation (agent_id : string) : AgentReputation :=
  {| rep_agent_id := agent_id; cooperation_score := 1.0 |}.

(** Modelled from the spec: "outcome_quality = 1 - min(|predicted_value -
    actual_value| / max(|predicted_value|, eps), 1)", for a positive eps. *)
Definition outcome_quality (eps predicted_value actual_value : Q) : Q :=
  1 - Qmin (Qabs (predicted_value - actual_value)
            / Qmax (Qabs predicted_value) eps) 1.

(** Modelled from the spec: "If outcome_quality >= 0.85, score = min(1.0,
    score + 0.05).  If outcome_quality < 0.5, score = max(0.0, score - 0.3).
    Intermediate quality leaves score unchanged." *)
Definition update_score (score quality : Q) : Q :=
  if Qle_bool 0.85 quality then Qmin 1.0 (score + 0.05)
  else if Qltb quality 0.5 then Qmax 0.0 (score - 0.3)
  else score.

Definition record_outcome (rep : AgentReputation) (quality : Q) : AgentReputation :=
  {| rep_agent_id := rep_agent_id rep;
     cooperation_score := update_score (cooperation_score rep) quality |}.

(** A sequence of resolved proposals, oldest first. *)
Definition record_outcomes (rep : AgentReputation) (qualities : list Q)
  : AgentReputation :=
  fold_left record_outcome qualities rep.

End Reputation.

(* ================================================================= *)
(** ** raci_game_validator.py: conflict detection and the driver *)

Module Conflicts.
Import RaciGame.

(** A value of a conflict record: a string or a list of strings. *)
Inductive pyval : Type :=
| PStr (s : string)
| PList (l : list string).

(** A conflict, a [dict] literal: its items in the order written. *)
Definition conflict : Type := list (string * pyval).

(** The first loop of [detect_raci_conflicts]: the body creates the entry
    of [control] when it is missing and appends [assignment.responsible]
    to it. *)
Definition add_responsible (control_responsible : list (string * list (option Agent)))
  (assignment : RACIAssignment) : list (string * list (option Agent)) :=
  let control := raci_control_id assignment in
  let responsibles :=
    match dict_get String.eqb control_responsible control with
    | Some l => l
    | None => []
    end in
  dict_set String.eqb control_responsible control
    (responsibles ++ [responsible assignment]).

Definition group_responsibles (l : list RACIAssignment)
  : list (string * list (option Agent)) :=
  fold_left add_responsible l [].

(** [[a.agent_id for a in responsibles]] *)
Fixpoint agent_ids (responsibles : list (option Agent)) : result (list string) :=
  match responsibles with
  | [] => Ok []
  | a :: rest =>
      match a with
      | Some agent => ids <- agent_ids rest ;; Ok (agent_id agent :: ids)
      | None => Raise AttributeError   (* None.agent_id *)
      end
  end.

Definition overlapping_conflict (control : string) (ids : list string) : conflict :=
  [ ("type", PStr "overlapping_responsible");
    ("control_id", PStr control);
    ("agents", PList ids);
    ("severity", PStr "high");
    ("description",
     PStr (fstr ["Multiple agents assigned Responsible for "; control])) ]%string.

(** The second loop, over [control_responsible.items()]. *)
Fixpoint check_overlaps (items : list (string * list (option Agent)))
  (conflicts : list conflict) : result (list conflict) :=
  match items with
  | [] => Ok conflicts
  | (control, responsibles) :: rest =>
      conflicts <-
        (if (1 <? List.length responsibles)%nat
         then ids <- agent_ids responsibles ;;
              Ok (conflicts ++ [overlapping_conflict control ids])
         else Ok conflicts) ;;
      check_overlaps rest conflicts
  end.

Definition tier_conflict (assignment : RACIAssignment) (acc r : Agent) : conflict :=
  [ ("type", PStr "tier_hierarchy_violation");
    ("control_id", PStr (raci_control_id assignment));
    ("accountable", PStr (agent_id acc));
    ("responsible", PStr (agent_id r));
    ("severity", PStr "critical");
    ("description",
     PStr (fstr [ "Accountable ("; agent_id acc; ", Tier ";
                  str_int (value (tier acc)); ") has lower tier than ";
                  "Responsible ("; agent_id r; ", Tier ";
                  str_int (value (tier r)); ")" ])) ]%string.

(** The third loop: one test per assignment. *)
Definition check_tier (conflicts : list conflict) (assignment : RACIAssignment)
  : list conflict :=
  match accountable assignment, responsible assignment with
  | Some acc, Some r =>
      if (value (tier acc) <? value (tier r))%Z
      then conflicts ++ [tier_conflict assignment acc r]
      else conflicts
  | _, _ => conflicts
  end.

Definition detect_raci_conflicts (self : RACIGameValidator)
  : result (list conflict) :=
  let conflicts := [] in
  let control_responsible := group_responsibles (self_raci_assignments self) in
  conflicts <- check_overlaps control_responsible conflicts ;;
  Ok (fold_left check_tier (self_raci_assignments self) conflicts).

(** [main]: [{agent: validator._get_agent_actions(agent) for agent in agents}],
    where [agents] is the list the validator was built from. *)
Definition sample_actions_by_agent (self : RACIGameValidator)
  : list (Agent * list Action) :=
  fold_left
    (fun d agent => dict_set Agent_eqb d agent (_get_agent_actions self agent))
    (self_agents self) [].

End Conflicts.

(* ================================================================= *)
(** ** cooperative_improvement_validator.py: selection *)

Module ParetoSet.
Import Cooperative.

(** Exact arithmetic: the remaining budget of [select_step] is kept
    exactly; the double-precision form of the selection is in
    [Cooperative64]. *)

(** [<] on the values [roi] returns. *)
Definition xf_ltb (x y : xfloat) : bool :=
  match x, y with
  | Fin a, Fin b => Qltb a b
  | Fin _, PInf => true
  | PInf, _ => false
  end.

(** [sorted(xs, key=..., reverse=True)] on items already paired with their
    key: descending and stable. *)
Fixpoint insert_by_roi (x : xfloat * Proposal) (l : list (xfloat * Proposal))
  : list (xfloat * Proposal) :=
  match l with
  | [] => [x]
  | y :: ys => if xf_ltb (fst x) (fst y) then y :: insert_by_roi x ys
               else x :: y :: ys
  end.

Fixpoint sorted_by_roi (l : list (xfloat * Proposal)) : list (xfloat * Proposal) :=
  match l with
  | [] => []
  | x :: xs => insert_by_roi x (sorted_by_roi xs)
  end.

(** The filter loop of [find_pareto_optimal_set]. *)
Fixpoint collect_valid (valid_proposals proposals : list Proposal)
  : result (list Proposal) :=
  match proposals with
  | [] => Ok valid_proposals
  | p :: rest =>
      r <- validate_pareto_improvement p ;;
      collect_valid (if fst r then valid_proposals ++ [p] else valid_proposals) rest
  end.

(** The keys of the sort: [p.roi()] for each element. *)
Fixpoint with_roi (proposals : list Proposal) : result (list (xfloat * Proposal)) :=
  match proposals with
  | [] => Ok []
  | p :: rest =>
      k <- roi p ;;
      keyed <- with_roi rest ;;
      Ok ((k, p) :: keyed)
  end.

(** One iteration of the selection loop, on the locals [selected] and
    [remaining_budget]. *)
Definition select_step (st : list Proposal * Q) (proposal : Proposal)
  : list Proposal * Q :=
  let (selected, remaining_budget) := st in
  if Qle_bool (implementation_cost_usd proposal) remaining_budget
  then (selected ++ [proposal],
        remaining_budget - implementation_cost_usd proposal)
  else (selected, remaining_budget).

Definition find_pareto_optimal_set (proposals : list Proposal)
  (budget_constraint : Q) : result (list Proposal) :=
  valid_proposals <- collect_valid [] proposals ;;
  keyed <- with_roi valid_proposals ;;
  let sorted_proposals := map snd (sorted_by_roi keyed) in
  Ok (fst (fold_left select_step sorted_proposals ([], budget_constraint))).

End ParetoSet.

(* ================================================================= *)
(** ** Python runtime fragments, binary64 *)

Module Py64.

(** [x / y] on floats: raises on a zero divisor (of either sign). *)
Definition truediv (x y : float) : result float :=
  if PrimFloat.eqb y 0%float then Raise ZeroDivisionError
  else Ok (PrimFloat.div x y).

(** [min(a, b)] and [max(a, b)]: the first argument unless the second is
    strictly better. *)
Definition fmin (a b : float) : float := if PrimFloat.ltb b a then b else a.
Definition fmax (a b : float) : float := if PrimFloat.ltb a b then b else a.

(** [float(n)] for a length; a Python sequence is shorter than 2^63. *)
Definition float_of_nat (n : nat) : float :=
  PrimFloat.of_uint63 (Uint63.of_Z (Z.of_nat n)).

(** The exact value of a finite float with mantissa [m] and exponent [e]. *)
Definition mantissa_value (m : positive) (e : Z) : Q :=
  match e with
  | Z0 => inject_Z (Z.pos m)
  | Z.pos k => inject_Z (Z.pos m * 2 ^ Z.pos k)
  | Z.neg k => Z.pos m # (2 ^ k)
  end.

(** [format(x, '.<prec>f')]: the exact binary value, correctly rounded. *)
Definition format_float (prec : nat) (x : float) : string :=
  let sign (s : bool) := if s then "-"%string else ""%string in
  match Prim2SF x with
  | S754_nan => "nan"%string
  | S754_infinity s => fstr [sign s; "inf"%string]
  | S754_zero s => fstr [sign s; format_f prec 0]
  | S754_finite s m e => fstr [sign s; format_f prec (mantissa_value m e)]
  end.

(** [max(xs, key=key)] on a non-empty list [x :: xs]. *)
Definition max_by {A : Type} (key : A -> float) (x : A) (xs : list A) : A :=
  fold_left (fun best p => if PrimFloat.ltb (key best) (key p) then p else best) xs x.

End Py64.

(* ================================================================= *)
(** ** raci_game_validator.py, binary64 *)

Module RaciGame64.
Import Py64.
Local Open Scope float_scope.

(** The tiers are those of [RaciGame]. *)
Record Agent : Type := {
  agent_id : string;
  tier : RaciGame.AgentTier;
  controls : list string;
  cost_per_action : float;
  risk_tolerance : float
}.

(** The dataclass [__eq__]: field by field, floats by [==].  (Python
    compares the tuples of fields and takes an object equal to itself, so
    two agents sharing one NaN object would compare equal there.) *)
Definition Agent_eqb (a b : Agent) : bool :=
  String.eqb (agent_id a) (agent_id b)
  && RaciGame.AgentTier_eqb (tier a) (tier b)
  && list_eqb String.eqb (controls a) (controls b)
  && (cost_per_action a =? cost_per_action b)
  && (risk_tolerance a =? risk_tolerance b).

Record Action : Type := {
  action_id : string;
  control_id : string;
  description : string;
  cost : float;
  risk : float;
  compliance_value : float;
  requires_approval : bool
}.

Definition Action_eqb (a b : Action) : bool :=
  String.eqb (action_id a) (action_id b)
  && String.eqb (control_id a) (control_id b)
  && String.eqb (description a) (description b)
  && (cost a =? cost b)
  && (risk a =? risk b)
  && (compliance_value a =? compliance_value b)
  && Bool.eqb (requires_approval a) (requires_approval b).

Record RACIAssignment : Type := {
  raci_control_id : string;
  responsible : option Agent;
  accountable : option Agent;
  consulted : list Agent;
  informed : list Agent
}.

Definition opt_Agent_eqb (x y : option Agent) : bool :=
  match x, y with
  | Some a, Some b => Agent_eqb a b
  | None, None => true
  | _, _ => false
  end.

Record GameState : Type := {
  agents : list Agent;
  raci_assignments : list RACIAssignment;
  actions_taken : list (Agent * Action);
  compliance_score : float;
  total_cost : float;
  total_risk : float
}.

Definition new_GameState (ags : list Agent) (ras : list RACIAssignment) : GameState :=
  {| agents := ags; raci_assignments := ras; actions_taken := [];
     compliance_score := 0.0; total_cost := 0.0; total_risk := 0.0 |}.

Record PayoffMatrix : Type := {
  pm_agent : Agent;
  pm_action : Action;
  payoff : float;
  breakdown : list (string * float)
}.

Record RACIGameValidator : Type := {
  self_agents : list Agent;
  self_raci_assignments : list RACIAssignment
}.

(** *** calculate_payoff *)

Definition bonus_step (agent : Agent) (action : Action)
  (cooperation_bonus : float) (assignment : RACIAssignment) : float :=
  if String.eqb (raci_control_id assignment) (control_id action) then
    if opt_Agent_eqb (Some agent) (responsible assignment) then
      cooperation_bonus + 2.0
    else if existsb (fun c => Agent_eqb c agent) (consulted assignment) then
      cooperation_bonus + 0.5
    else cooperation_bonus
  else cooperation_bonus.

Definition cooperation_bonus (self : RACIGameValidator) (agent : Agent)
  (action : Action) : float :=
  fold_left (bonus_step agent action) (self_raci_assignments self) 0.0.

Definition calculate_payoff (self : RACIGameValidator) (agent : Agent)
  (action : Action) (game_state : GameState) : PayoffMatrix :=
  let compliance_value := compliance_value action in
  let cost := cost action * cost_per_action agent in
  let risk_penalty := risk action * (1 - risk_tolerance agent) in
  let cooperation_bonus := cooperation_bonus self agent action in
  let payoff := compliance_value - cost - risk_penalty + cooperation_bonus in
  {| pm_agent := agent;
     pm_action := action;
     payoff := payoff;
     breakdown := [ ("compliance_value", compliance_value);
                    ("cost", - cost);
                    ("risk_penalty", - risk_penalty);
                    ("cooperation_bonus", cooperation_bonus);
                    ("total", payoff) ]%string |}.

(** *** find_best_response *)

Definition find_best_response (self : RACIGameValidator) (agent : Agent)
  (actions : list Action) (game_state : GameState) : option Action :=
  match map (fun action => calculate_payoff self agent action game_state) actions with
  | [] => None
  | p :: payoffs =>
      let best := max_by payoff p payoffs in
      if 0 <? payoff best then Some (pm_action best) else None
  end.

(** *** _get_agent_actions *)

Definition sample_action (agent : Agent) (control : string) : Action :=
  {| action_id := fstr [agent_id agent; "_"; control; "_execute"]%string;
     control_id := control;
     description := fstr ["Execute "; control]%string;
     cost := 1.0;
     risk := 0.3;
     compliance_value := 5.0;
     requires_approval := (3 <=? RaciGame.value (tier agent))%Z |}.

Definition _get_agent_actions (self : RACIGameValidator) (agent : Agent)
  : list Action :=
  map (sample_action agent) (controls agent).

(** *** check_nash_equilibrium *)

Definition msg_deviation (agent : Agent) (current_payoff alt_payoff : PayoffMatrix)
  : string :=
  fstr [ "Agent "; agent_id agent; " can improve from ";
         action_id (pm_action current_payoff);
         " (payoff="; format_float 2 (payoff current_payoff); ") to ";
         action_id (pm_action alt_payoff);
         " (payoff="; format_float 2 (payoff alt_payoff); ")" ]%string.

(** The test guarding [violations.append] in the inner loop:
    [alt_payoff.payoff > current_payoff.payoff + 0.01]. *)
Definition improves (self : RACIGameValidator) (game_state : GameState)
  (agent : Agent) (current_action alt_action : Action) : bool :=
  negb (Action_eqb alt_action current_action)
  && (payoff (calculate_payoff self agent current_action game_state) + 0.01
      <? payoff (calculate_payoff self agent alt_action game_state)).

Definition check_agent (self : RACIGameValidator) (game_state : GameState)
  (violations : list string) (item : Agent * Action) : list string :=
  let (agent, current_action) := item in
  let current_payoff := calculate_payoff self agent current_action game_state in
  let possible_actions := _get_agent_actions self agent in
  fold_left
    (fun violations alt_action =>
       if improves self game_state agent current_action alt_action
       then violations
            ++ [msg_deviation agent current_payoff
                  (calculate_payoff self agent alt_action game_state)]
       else violations)
    possible_actions violations.

Definition check_nash_equilibrium (self : RACIGameValidator)
  (game_state : GameState) (action_profile : list (Agent * Action))
  : bool * list string :=
  let violations := fold_left (check_agent self game_state) action_profile [] in
  let is_equilibrium := (List.length violations =? 0)%nat in
  (is_equilibrium, violations).

(** *** stackelberg_equilibrium *)

Definition record_action (game_state : GameState) (agent : Agent)
  (best_action : Action) : GameState :=
  {| agents := agents game_state;
     raci_assignments := raci_assignments game_state;
     actions_taken := actions_taken game_state ++ [(agent, best_action)];
     compliance_score := compliance_score game_state + compliance_value best_action;
     total_cost := total_cost game_state + cost best_action;
     total_risk := total_risk game_state + risk best_action |}.

Definition stackelberg_step (self : RACIGameValidator)
  (actions_by_agent : list (Agent * list Action))
  (st : list (Agent * Action) * GameState) (agent : Agent)
  : list (Agent * Action) * GameState :=
  let (action_profile, game_state) := st in
  let available_actions :=
    match dict_get Agent_eqb actions_by_agent agent with
    | Some l => l
    | None => []
    end in
  match find_best_response self agent available_actions game_state with
  | Some best_action =>
      (dict_set Agent_eqb action_profile agent best_action,
       record_action game_state agent best_action)
  | None => (action_profile, game_state)
  end.

Definition sorted_agents (self : RACIGameValidator) : list Agent :=
  sorted_desc (fun a => RaciGame.value (tier a)) (self_agents self).

Definition stackelberg_run (self : RACIGameValidator)
  (actions_by_agent : list (Agent * list Action))
  : list (Agent * Action) * GameState :=
  fold_left (stackelberg_step self actions_by_agent) (sorted_agents self)
    ([], new_GameState (self_agents self) (self_raci_assignments self)).

Definition stackelberg_equilibrium (self : RACIGameValidator)
  (actions_by_agent : list (Agent * list Action)) : list (Agent * Action) :=
  fst (stackelberg_run self actions_by_agent).

End RaciGame64.

(* ================================================================= *)
(** ** cooperative_improvement_validator.py, binary64 *)

Module Cooperative64.
Import Py64.
Local Open Scope float_scope.

Record ImprovementMetrics : Type := {
  cost_savings_usd : float;
  time_savings_hours : float;
  quality_improvement_pct : float;
  risk_reduction_pct : float;
  compliance_score_delta : float
}.

Definition is_pareto_improvement (self : ImprovementMetrics) : bool :=
  let metrics := [ cost_savings_usd self;
                   time_savings_hours self;
                   quality_improvement_pct self;
                   risk_reduction_pct self;
                   compliance_score_delta self ] in
  forallb (fun m => 0 <=? m) metrics && existsb (fun m => 0 <? m) metrics.

Definition total_value (self : ImprovementMetrics) : float :=
  cost_savings_usd self
  + time_savings_hours self * 75.0
  + quality_improvement_pct self * 100.0
  + risk_reduction_pct self * 500.0
  + compliance_score_delta self * 1000.0.

Record Proposal : Type := {
  proposal_id : string;
  agent_id : string;
  agent_tier : Z;
  proposal_type : Cooperative.ProposalType;
  title : string;
  description : string;
  current_state : string;
  proposed_state : string;
  metrics : ImprovementMetrics;
  affected_controls : list string;
  implementation_cost_usd : float;
  implementation_time_hours : float;
  risk_assessment : string;
  submitted_at : Z;
  jira_cr_id : option string
}.

Definition net_benefit (self : Proposal) : float :=
  total_value (metrics self) - implementation_cost_usd self.

Definition roi (self : Proposal) : result float :=
  if implementation_cost_usd self =? 0 then
    Ok (if 0 <? total_value (metrics self) then infinity else 0.0)
  else
    truediv (total_value (metrics self)) (implementation_cost_usd self).

Definition complexity_score (self : Proposal) : float :=
  let score := 0.0 in
  let score := score + float_of_nat (List.length (affected_controls self)) * 5.0 in
  let score := score + fmin (implementation_time_hours self) 40.0 in
  let score := score + fmin (implementation_cost_usd self / 100.0) 20.0 in
  let score :=
    score + fmin (float_of_nat (String.length (description self)) / 100.0) 15.0 in
  fmin score 100.0.

Record HumanReview : Type := {
  review_id : string;
  reviewer_id : string;
  reviewer_role : string;
  review_proposal_id : string;
  status : Cooperative.ReviewStatus;
  review_start_time : Z;
  review_end_time : option Z;
  review_duration_minutes : float;
  comments : string;
  approval_signature : option string;
  concerns_raised : list string;
  questions_asked : Z;
  documents_reviewed : list string
}.

Definition MIN_REVIEW_MINUTES_PER_COMPLEXITY : float := 0.5.
Definition MAX_REVIEW_MINUTES_PER_COMPLEXITY : float := 3.0.

(** *** validate_pareto_improvement *)

Definition msg_not_pareto : string := Cooperative.msg_not_pareto.

Definition msg_net_benefit (proposal : Proposal) (net_benefit : float) : string :=
  fstr [ "Negative net benefit: $"; format_float 2 net_benefit; ". ";
         "Benefits ($"; format_float 2 (total_value (metrics proposal));
         ") must exceed ";
         "costs ($"; format_float 2 (implementation_cost_usd proposal); ")." ]%string.

Definition msg_roi (roi : float) : string :=
  fstr [ "ROI too low: "; format_float 2 roi;
         "x. Minimum required: 1.2x (20% return). ";
         "Proposal must demonstrate clear value." ]%string.

Definition validate_pareto_improvement (proposal : Proposal)
  : result (bool * list string) :=
  let issues := [] in
  let issues :=
    if negb (is_pareto_improvement (metrics proposal))
    then issues ++ [msg_not_pareto] else issues in
  let net_benefit := net_benefit proposal in
  let issues :=
    if net_benefit <=? 0
    then issues ++ [msg_net_benefit proposal net_benefit] else issues in
  roi <- roi proposal ;;
  let issues :=
    if roi <? 1.2 then issues ++ [msg_roi roi] else issues in
  Ok ((List.length issues =? 0)%nat, issues).

(** *** validate_truthful_reporting *)

Definition msg_red_flag (proposal : Proposal) : string :=
  fstr [ "Red flag: Claimed benefits ($";
         format_float 2 (total_value (metrics proposal));
         ") seem disproportionate to costs ($";
         format_float 2 (implementation_cost_usd proposal); ")" ]%string.

Definition is_cost_error (past_proposal : Proposal) : bool :=
  (10000 <? total_value (metrics past_proposal))
  && (implementation_cost_usd past_proposal <? 100).

Definition is_time_error (past_proposal : Proposal) : bool :=
  (implementation_time_hours past_proposal <? 1)
  && (100 <? time_savings_hours (metrics past_proposal)).

Definition is_red_flag (proposal : Proposal) : bool :=
  (50000 <? total_value (metrics proposal))
  && (implementation_cost_usd proposal <? 500).

(** [len(errors) > len(agent_history) * 0.3] *)
Definition over_30_pct (n_errors n_history : nat) : bool :=
  float_of_nat n_history * 0.3 <? float_of_nat n_errors.

Definition validate_truthful_reporting (proposal : Proposal)
  (agent_history : list Proposal) : float * list string :=
  let warnings := [] in
  let score := 1.0 in
  match agent_history with
  | [] =>
      let score := 0.9 in
      (score, warnings ++ [Cooperative.msg_new_agent])
  | _ :: _ =>
      let cost_errors := map proposal_id (filter is_cost_error agent_history) in
      let time_errors := map proposal_id (filter is_time_error agent_history) in
      let '(score, warnings) :=
        if over_30_pct (List.length cost_errors) (List.length agent_history)
        then (score - 0.2,
              warnings ++ [Cooperative.msg_cost_pattern (List.length cost_errors)
                             (List.length agent_history)])
        else (score, warnings) in
      let '(score, warnings) :=
        if over_30_pct (List.length time_errors) (List.length agent_history)
        then (score - 0.2,
              warnings ++ [Cooperative.msg_time_pattern (List.length time_errors)
                             (List.length agent_history)])
        else (score, warnings) in
      let '(score, warnings) :=
        if is_red_flag proposal
        then (score - 0.1, warnings ++ [msg_red_flag proposal])
        else (score, warnings) in
      (fmax score 0.0, warnings)
  end.

(** *** validate_review_diligence *)

Definition msg_too_short (review_time complexity min_expected_minutes : float)
  : string :=
  fstr [ "Review time too short: "; format_float 1 review_time;
         " minutes for complexity "; format_float 0 complexity; ". ";
         "Expected minimum: "; format_float 1 min_expected_minutes; " minutes. ";
         "Possible rubber-stamp approval without due diligence." ]%string.

Definition msg_too_long (review_time complexity max_expected_minutes : float)
  : string :=
  fstr [ "Review time excessively long: "; format_float 1 review_time;
         " minutes for complexity "; format_float 0 complexity; ". ";
         "Expected maximum: "; format_float 1 max_expected_minutes; " minutes. ";
         "Possible review abandonment or lack of focus." ]%string.

Definition msg_comments (review : HumanReview) : string :=
  fstr [ "Insufficient review comments: ";
         str_int (Z.of_nat (String.length (comments review))); " characters. ";
         "Approvals require substantive explanation (minimum 50 characters)." ]%string.

Definition engagement (review : HumanReview) : Z :=
  let engagement_score := 0%Z in
  let engagement_score :=
    if (0 <? questions_asked review)%Z
    then (engagement_score + 1)%Z else engagement_score in
  let engagement_score :=
    if (0 <? List.length (documents_reviewed review))%nat
    then (engagement_score + 1)%Z else engagement_score in
  let engagement_score :=
    if (100 <? String.length (comments review))%nat
    then (engagement_score + 1)%Z else engagement_score in
  let engagement_score :=
    if Cooperative.truthy (concerns_raised review)
    then (engagement_score + 1)%Z else engagement_score in
  engagement_score.

Definition too_short (proposal : Proposal) (review : HumanReview) : bool :=
  review_duration_minutes review
  <? complexity_score proposal * MIN_REVIEW_MINUTES_PER_COMPLEXITY.

Definition too_long (proposal : Proposal) (review : HumanReview) : bool :=
  complexity_score proposal * MAX_REVIEW_MINUTES_PER_COMPLEXITY * 2
  <? review_duration_minutes review.

Definition thin_approval (review : HumanReview) : bool :=
  Cooperative.ReviewStatus_eqb (status review) Cooperative.APPROVED
  && (String.length (comments review) <? 50)%nat.

Definition bare_rejection (review : HumanReview) : bool :=
  Cooperative.ReviewStatus_eqb (status review) Cooperative.REJECTED
  && negb (Cooperative.truthy (concerns_raised review)).

Definition low_engagement (review : HumanReview) : bool :=
  (engagement review <? 2)%Z.

Definition validate_review_diligence (proposal : Proposal) (review : HumanReview)
  : bool * list string :=
  let issues := [] in
  let complexity := complexity_score proposal in
  let min_expected_minutes := complexity * MIN_REVIEW_MINUTES_PER_COMPLEXITY in
  let max_expected_minutes := complexity * MAX_REVIEW_MINUTES_PER_COMPLEXITY in
  let review_time := review_duration_minutes review in
  let issues :=
    if too_short proposal review
    then issues ++ [msg_too_short review_time complexity min_expected_minutes]
    else issues in
  let issues :=
    if too_long proposal review
    then issues ++ [msg_too_long review_time complexity max_expected_minutes]
    else issues in
  let issues :=
    if thin_approval review then issues ++ [msg_comments review] else issues in
  let issues :=
    if bare_rejection review
    then issues ++ [Cooperative.msg_no_concerns] else issues in
  let issues :=
    if low_engagement review
    then issues ++ [Cooperative.msg_engagement (engagement review)] else issues in
  ((List.length issues =? 0)%nat, issues).

(** *** find_pareto_optimal_set *)

(** [sorted(xs, key=..., reverse=True)] on items paired with their key:
    descending and stable (the order of [sorted] when no key is NaN). *)
Fixpoint insert_by_roi (x : float * Proposal) (l : list (float * Proposal))
  : list (float * Proposal) :=
  match l with
  | [] => [x]
  | y :: ys => if fst x <? fst y then y :: insert_by_roi x ys
               else x :: y :: ys
  end.

Fixpoint sorted_by_roi (l : list (float * Proposal)) : list (float * Proposal) :=
  match l with
  | [] => []
  | x :: xs => insert_by_roi x (sorted_by_roi xs)
  end.

Fixpoint collect_valid (valid_proposals proposals : list Proposal)
  : result (list Proposal) :=
  match proposals with
  | [] => Ok valid_proposals
  | p :: rest =>
      r <- validate_pareto_improvement p ;;
      collect_valid (if fst r then valid_proposals ++ [p] else valid_proposals) rest
  end.

Fixpoint with_roi (proposals : list Proposal) : result (list (float * Proposal)) :=
  match proposals with
  | [] => Ok []
  | p :: rest =>
      k <- roi p ;;
      keyed <- with_roi rest ;;
      Ok ((k, p) :: keyed)
  end.

Definition select_step (st : list Proposal * float) (proposal : Proposal)
  : list Proposal * float :=
  let (selected, remaining_budget) := st in
  if implementation_cost_usd proposal <=? remaining_budget
  then (selected ++ [proposal],
        remaining_budget - implementation_cost_usd proposal)
  else (selected, remaining_budget).

Definition find_pareto_optimal_set (proposals : list Proposal)
  (budget_constraint : float) : result (list Proposal) :=
  valid_proposals <- collect_valid [] proposals ;;
  keyed <- with_roi valid_proposals ;;
  let sorted_proposals := map snd (sorted_by_roi keyed) in
  Ok (fst (fold_left select_step sorted_proposals ([], budget_constraint))).

End Cooperative64.

(* ================================================================= *)
(** * Properties *)

(** ** Facts about the runtime fragments *)

Module PyFacts.

Lemma Qltb_lt (x y : Q) : Qltb x y = true <-> x < y.
Proof.
  unfold Qltb. rewrite negb_true_iff, <- not_true_iff_false, Qle_bool_iff.
  split; [apply Qnot_le_lt | apply Qlt_not_le].
Qed.

Lemma Qltb_ge (x y : Q) : Qltb x y = false <-> y <= x.
Proof.
  unfold Qltb. rewrite negb_false_iff. apply Qle_bool_iff.
Qed.

Lemma Qle_bool_gt (x y : Q) : Qle_bool x y = false <-> y < x.
Proof.
  rewrite <- not_true_iff_false, Qle_bool_iff.
  split; [apply Qnot_le_lt | apply Qlt_not_le].
Qed.

Lemma Qeq_bool_false (x y : Q) : Qeq_bool x y = false <-> ~ x == y.
Proof.
  rewrite <- not_true_iff_false, Qeq_bool_iff. reflexivity.
Qed.

Lemma fmin_spec (a b : Q) :
  fmin a b <= a /\ fmin a b <= b /\ (fmin a b = a \/ fmin a b = b).
Proof.
  unfold fmin. destruct (Qltb b a) eqn:E.
  - apply Qltb_lt in E. repeat split; try lra. now right.
  - apply Qltb_ge in E. repeat split; try lra. now left.
Qed.

Lemma fmin_glb (a b c : Q) : c <= a -> c <= b -> c <= fmin a b.
Proof.
  intros Ha Hb. unfold fmin. destruct (Qltb b a); assumption.
Qed.

Lemma fmin_mono_l (a a' b : Q) : a <= a' -> fmin a b <= fmin a' b.
Proof.
  intros H. apply fmin_glb.
  - destruct (fmin_spec a b) as (Ha & _ & _). lra.
  - destruct (fmin_spec a b) as (_ & Hb & _). exact Hb.
Qed.

Lemma fmax_spec (a b : Q) :
  a <= fmax a b /\ b <= fmax a b /\ (fmax a b = a \/ fmax a b = b).
Proof.
  unfold fmax. destruct (Qltb a b) eqn:E.
  - apply Qltb_lt in E. repeat split; try lra. now right.
  - apply Qltb_ge in E. repeat split; try lra. now left.
Qed.

Lemma div_100 (x : Q) : x / 100.0 == x * (1 # 100).
Proof.
  unfold Qdiv. apply Qmult_comp; reflexivity.
Qed.

Lemma flen_nonneg {A : Type} (l : list A) : 0 <= flen l.
Proof.
  unfold flen. change 0 with (inject_Z 0). rewrite <- Zle_Qle. lia.
Qed.

Lemma length_eqb_nil {A : Type} (l : list A) :
  (List.length l =? 0)%nat = true <-> l = [].
Proof.
  destruct l; simpl; split; intro H; try reflexivity; discriminate.
Qed.

Lemma bind_Ok {A B : Type} (m : result A) (k : A -> result B) (b : B) :
  bind m k = Ok b <-> exists a, m = Ok a /\ k a = Ok b.
Proof.
  destruct m as [a | e]; simpl; split.
  - intros H. now exists a.
  - intros (a' & Ha & Hk). now inversion Ha; subst.
  - discriminate.
  - intros (a' & Ha & _). discriminate.
Qed.

Example format_f_2 : format_f 2 (314159 # 100000) = "3.14"%string.
Proof. reflexivity. Qed.

Example format_f_half_even : format_f 0 2.5 = "2"%string.
Proof. reflexivity. Qed.

Example format_f_pad : format_f 2 (-(1 # 20)) = "-0.05"%string.
Proof. vm_compute. reflexivity. Qed.

End PyFacts.

(** ** Proposal evaluation *)

Module CooperativeProps.
Import PyFacts Cooperative.


Lemma roi_returns (p : Proposal) : exists r, roi p = Ok r.
Proof.
  unfold roi, truediv.
  destruct (Qeq_bool (implementation_cost_usd p) 0); simpl; eauto.
Qed.

Definition zero_metrics : ImprovementMetrics :=
  {| cost_savings_usd := 0.0; time_savings_hours := 0.0;
     quality_improvement_pct := 0.0; risk_reduction_pct := 0.0;
     compliance_score_delta := 0.0 |}.

(** The demonstration proposal of [main] (Scenario C): savings 125,
    risk reduction 5, implementation cost 50. *)
Definition demo_proposal : Proposal :=
  {| proposal_id := "PROP-2025-001"; agent_id := "ops-agent"; agent_tier := 3;
     proposal_type := COST_REDUCTION;
     title := "Optimize Lambda memory configuration";
     description := "Reduce Lambda memory from 3GB to 1GB";
     current_state := "Lambda functions: 3GB memory, $250/month";
     proposed_state := "Lambda functions: 1GB memory, $125/month";
     metrics := {| cost_savings_usd := 125.0; time_savings_hours := 0.0;
                   quality_improvement_pct := 0.0; risk_reduction_pct := 5.0;
                   compliance_score_delta := 0.0 |};
     affected_controls := ["MI-009"; "MI-021"]%string;
     implementation_cost_usd := 50.0;
     implementation_time_hours := 2.0;
     risk_assessment := "Low - tested in dev, gradual rollout planned";
     submitted_at := 0;
     jira_cr_id := None |}.

Example demo_proposal_pareto_ok :
  validate_pareto_improvement demo_proposal = Ok (true, []).
Proof. vm_compute. reflexivity. Qed.

(** C10.  With a zero implementation cost [roi] returns infinity when the
    total value is positive and 0.0 otherwise; the division is reached only
    with a non-zero divisor, so neither [roi] nor
    [validate_pareto_improvement] raises, for any proposal. *)
Theorem roi_never_divides_by_zero (p : Proposal) :
  (implementation_cost_usd p == 0 ->
     (0 < total_value (metrics p) -> roi p = Ok PInf)
     /\ (total_value (metrics p) <= 0 -> roi p = Ok (Fin 0.0)))
  /\ (~ implementation_cost_usd p == 0 ->
        roi p = Ok (Fin (total_value (metrics p) / implementation_cost_usd p)))
  /\ returns (roi p)
  /\ returns (validate_pareto_improvement p)
  /\ roi p <> Raise ZeroDivisionError
  /\ validate_pareto_improvement p <> Raise ZeroDivisionError.
Proof.
  assert (Hroi : returns (roi p)) by apply roi_returns.
  assert (Hval : returns (validate_pareto_improvement p)).
  { destruct Hroi as (r & Hr). unfold validate_pareto_improvement.
    rewrite Hr. cbn [bind]. eexists. reflexivity. }
  repeat split; try assumption.
  - intros Hpos. unfold roi.
    apply Qeq_bool_iff in H. rewrite H.
    apply Qltb_lt in Hpos. now rewrite Hpos.
  - intros Hneg. unfold roi.
    apply Qeq_bool_iff in H. rewrite H.
    apply Qltb_ge in Hneg. now rewrite Hneg.
  - intros Hnz. unfold roi, truediv.
    apply Qeq_bool_false in Hnz. now rewrite Hnz.
  - destruct Hroi as (r & Hr). rewrite Hr. discriminate.
  - destruct Hval as (r & Hr). rewrite Hr. discriminate.
Qed.

(** *** complexity_score *)

(** The sum that [complexity_score] caps. *)
Definition complexity_sum (n_controls : nat) (time cost : Q) (n_chars : nat) : Q :=
  5 * inject_Z (Z.of_nat n_controls)
  + fmin time 40.0 + fmin (cost / 100.0) 20.0
  + fmin (inject_Z (Z.of_nat n_chars) / 100.0) 15.0.

(** The score in the words of the specification: the sum clamped to
    [0, 100]. *)
Definition complexity_score_as_stated (p : Proposal) : Q :=
  Qmax 0 (Qmin 100
    (complexity_sum (List.length (affected_controls p))
       (implementation_time_hours p) (implementation_cost_usd p)
       (String.length (description p)))).

Lemma complexity_score_sum (p : Proposal) :
  complexity_score p ==
  fmin (complexity_sum (List.length (affected_controls p))
          (implementation_time_hours p) (implementation_cost_usd p)
          (String.length (description p))) 100.
Proof.
  unfold complexity_score, complexity_sum, flen.
  set (a := fmin (implementation_time_hours p) 40.0).
  set (b := fmin (implementation_cost_usd p / 100.0) 20.0).
  set (c := fmin (inject_Z (Z.of_nat (String.length (description p))) / 100.0) 15.0).
  set (n := inject_Z (Z.of_nat (List.length (affected_controls p)))).
  assert (E : 0.0 + n * 5.0 + a + b + c == 5 * n + a + b + c) by ring.
  unfold fmin.
  destruct (Qltb 100.0 (0.0 + n * 5.0 + a + b + c)) eqn:E1;
    destruct (Qltb 100 (5 * n + a + b + c)) eqn:E2;
    first [apply Qltb_lt in E1 | apply Qltb_ge in E1];
    first [apply Qltb_lt in E2 | apply Qltb_ge in E2]; lra.
Qed.

Lemma complexity_score_le_100 (p : Proposal) : complexity_score p <= 100.
Proof.
  rewrite complexity_score_sum.
  match goal with |- fmin ?a ?b <= _ => destruct (fmin_spec a b) as (_ & H & _) end.
  exact H.
Qed.

Lemma complexity_sum_nonneg (n : nat) (time cost : Q) (k : nat) :
  0 <= time -> 0 <= cost -> 0 <= complexity_sum n time cost k.
Proof.
  intros Ht Hc. unfold complexity_sum.
  assert (0 <= inject_Z (Z.of_nat n)).
  { change 0 with (inject_Z 0). rewrite <- Zle_Qle. lia. }
  assert (0 <= inject_Z (Z.of_nat k)).
  { change 0 with (inject_Z 0). rewrite <- Zle_Qle. lia. }
  pose proof (div_100 cost). pose proof (div_100 (inject_Z (Z.of_nat k))).
  assert (0 <= fmin time 40.0) by (apply fmin_glb; lra).
  assert (0 <= fmin (cost / 100.0) 20.0) by (apply fmin_glb; lra).
  assert (0 <= fmin (inject_Z (Z.of_nat k) / 100.0) 15.0) by (apply fmin_glb; lra).
  lra.
Qed.

(** For non-negative time and cost the score is the clamped sum and lies
    in [0, 100]. *)
Lemma complexity_score_nonneg_inputs (p : Proposal) :
  0 <= implementation_time_hours p ->
  0 <= implementation_cost_usd p ->
  complexity_score p == complexity_score_as_stated p
  /\ 0 <= complexity_score p <= 100.
Proof.
  intros Ht Hc.
  pose proof (complexity_sum_nonneg (List.length (affected_controls p)) _ _
                (String.length (description p)) Ht Hc) as Hs.
  pose proof (complexity_score_le_100 p) as H100.
  pose proof (complexity_score_sum p) as E.
  unfold complexity_score_as_stated.
  set (s := complexity_sum _ _ _ _) in *.
  destruct (fmin_spec s 100) as (H1 & H2 & H3).
  assert (Hge : 0 <= fmin s 100) by (apply fmin_glb; lra).
  split; [| lra].
  rewrite E.
  destruct (Q.min_spec 100 s) as [(Hlt & ->) | (Hle & ->)];
    destruct (Q.max_spec 0 (fmin s 100)) as [(Hlt' & E') | (Hle' & E')].
  all: unfold fmin in *; destruct (Qltb 100 s) eqn:Hb;
    [apply Qltb_lt in Hb | apply Qltb_ge in Hb].
  all: try (rewrite Q.max_r by lra); try reflexivity; try lra.
Qed.

(** The score does not decrease when the number of affected controls, the
    time, the cost or the description length grows. *)
Lemma complexity_sum_monotone (n n' : nat) (t t' c c' : Q) (k k' : nat) :
  (n <= n')%nat -> t <= t' -> c <= c' -> (k <= k')%nat ->
  fmin (complexity_sum n t c k) 100 <= fmin (complexity_sum n' t' c' k') 100.
Proof.
  intros Hn Ht Hc Hk. apply fmin_mono_l. unfold complexity_sum.
  assert (inject_Z (Z.of_nat n) <= inject_Z (Z.of_nat n')) by (rewrite <- Zle_Qle; lia).
  assert (inject_Z (Z.of_nat k) <= inject_Z (Z.of_nat k')) by (rewrite <- Zle_Qle; lia).
  pose proof (fmin_mono_l t t' 40.0 Ht).
  pose proof (div_100 c). pose proof (div_100 c').
  pose proof (div_100 (inject_Z (Z.of_nat k))).
  pose proof (div_100 (inject_Z (Z.of_nat k'))).
  assert (fmin (c / 100.0) 20.0 <= fmin (c' / 100.0) 20.0) by (apply fmin_mono_l; lra).
  assert (fmin (inject_Z (Z.of_nat k) / 100.0) 15.0
          <= fmin (inject_Z (Z.of_nat k') / 100.0) 15.0)
    by (apply fmin_mono_l; lra).
  lra.
Qed.

(** A proposal whose implementation time is entered as -50 hours. *)
Definition negative_time_proposal : Proposal :=
  {| proposal_id := "PROP-NEG"; agent_id := "ops-agent"; agent_tier := 3;
     proposal_type := COST_REDUCTION;
     title := ""; description := ""; current_state := ""; proposed_state := "";
     metrics := zero_metrics;
     affected_controls := [];
     implementation_cost_usd := 0.0;
     implementation_time_hours := -50.0;
     risk_assessment := "";
     submitted_at := 0;
     jira_cr_id := None |}.

(** C7.  [complexity_score] caps the sum at 100 but has no floor at 0: on a
    proposal with implementation time -50 (no controls, no cost, empty
    description) it returns -50, while the clamped sum of the
    specification is 0. *)
Theorem complexity_score_has_no_floor :
  complexity_score negative_time_proposal == -50
  /\ complexity_score_as_stated negative_time_proposal == 0
  /\ complexity_score negative_time_proposal < 0.
Proof.
  repeat split; vm_compute; reflexivity.
Qed.

(** *** validate_review_diligence *)

Lemma ReviewStatus_eqb_eq (s t : ReviewStatus) :
  ReviewStatus_eqb s t = true <-> s = t.
Proof.
  destruct s, t; simpl; split; intro H; try reflexivity; discriminate.
Qed.

Lemma truthy_false {A : Type} (l : list A) : truthy l = false <-> l = [].
Proof.
  destruct l; simpl; split; intro H; try reflexivity; discriminate.
Qed.

Lemma too_short_iff (p : Proposal) (r : HumanReview) :
  too_short p r = true <-> review_duration_minutes r < 0.5 * complexity_score p.
Proof.
  unfold too_short, MIN_REVIEW_MINUTES_PER_COMPLEXITY. rewrite Qltb_lt.
  split; intro H; lra.
Qed.

Lemma too_long_iff (p : Proposal) (r : HumanReview) :
  too_long p r = true <->
  2 * (3.0 * complexity_score p) < review_duration_minutes r.
Proof.
  unfold too_long, MAX_REVIEW_MINUTES_PER_COMPLEXITY. rewrite Qltb_lt.
  split; intro H; lra.
Qed.

Lemma thin_approval_iff (r : HumanReview) :
  thin_approval r = true <->
  status r = APPROVED /\ (String.length (comments r) < 50)%nat.
Proof.
  unfold thin_approval.
  now rewrite andb_true_iff, ReviewStatus_eqb_eq, Nat.ltb_lt.
Qed.

Lemma bare_rejection_iff (r : HumanReview) :
  bare_rejection r = true <-> status r = REJECTED /\ concerns_raised r = [].
Proof.
  unfold bare_rejection.
  now rewrite andb_true_iff, ReviewStatus_eqb_eq, negb_true_iff, truthy_false.
Qed.

(** The four engagement markers of a review. *)
Definition markers (r : HumanReview) : list bool :=
  [ (0 <? questions_asked r)%Z;
    (0 <? List.length (documents_reviewed r))%nat;
    (100 <? String.length (comments r))%nat;
    truthy (concerns_raised r) ].

(** *** validate_truthful_reporting *)

(** A proposal claiming 60000 of value for a cost of 550. *)
Definition costly_claim : Proposal :=
  {| proposal_id := "PROP-BIG"; agent_id := "ops-agent"; agent_tier := 3;
     proposal_type := COST_REDUCTION;
     title := ""; description := ""; current_state := ""; proposed_state := "";
     metrics := {| cost_savings_usd := 60000; time_savings_hours := 0;
                   quality_improvement_pct := 0; risk_reduction_pct := 0;
                   compliance_score_delta := 0 |};
     affected_controls := [];
     implementation_cost_usd := 550;
     implementation_time_hours := 10;
     risk_assessment := "";
     submitted_at := 0;
     jira_cr_id := None |}.

End CooperativeProps.

(** ** Reputation tracker *)

Module ReputationProps.
Import PyFacts Reputation.

Lemma update_score_defect (score quality : Q) :
  quality < 0.5 -> update_score score quality = Qmax 0.0 (score - 0.3).
Proof.
  intros H. unfold update_score.
  assert (E1 : Qle_bool 0.85 quality = false) by (apply Qle_bool_gt; lra).
  assert (E2 : Qltb quality 0.5 = true) by (apply Qltb_lt; exact H).
  rewrite E1, E2. reflexivity.
Qed.

Lemma update_score_cooperate (score quality : Q) :
  0.85 <= quality -> update_score score quality = Qmin 1.0 (score + 0.05).
Proof.
  intros H. unfold update_score.
  apply Qle_bool_iff in H. rewrite H. reflexivity.
Qed.

Lemma update_score_neutral (score quality : Q) :
  0.5 <= quality -> quality < 0.85 -> update_score score quality = score.
Proof.
  intros H1 H2. unfold update_score.
  assert (E1 : Qle_bool 0.85 quality = false) by (apply Qle_bool_gt; lra).
  assert (E2 : Qltb quality 0.5 = false) by (apply Qltb_ge; exact H1).
  now rewrite E1, E2.
Qed.

Lemma update_score_bounds (score quality : Q) :
  0 <= score <= 1 -> 0 <= update_score score quality <= 1.
Proof.
  intros H. unfold update_score.
  destruct (Qle_bool 0.85 quality).
  - destruct (Q.min_spec 1.0 (score + 0.05)) as [(? & ->) | (? & ->)]; lra.
  - destruct (Qltb quality 0.5); [| exact H].
    destruct (Q.max_spec 0.0 (score - 0.3)) as [(? & ->) | (? & ->)]; lra.
Qed.

#[local] Instance update_score_compat :
  Proper (Qeq ==> Qeq ==> Qeq) update_score.
Proof.
  intros s s' Hs q q' Hq. unfold update_score.
  rewrite Hq. destruct (Qle_bool 0.85 q').
  - now rewrite Hs.
  - unfold Qltb. rewrite Hq. destruct (negb (Qle_bool 0.5 q')); [| exact Hs].
    now rewrite Hs.
Qed.

(** Round 4 of test_tit_for_tat.py: 4000 of value predicted, the realised
    metrics (1500 saved, 10 hours and 5 quality points lost) are worth 250:
    a defection.  Round 1 (2625 predicted, 2620 realised) is a
    cooperation. *)
Example round_4_is_a_defection :
  outcome_quality 0.01 4000
    (Cooperative.total_value
       {| Cooperative.cost_savings_usd := 1500.0;
          Cooperative.time_savings_hours := -10.0;
          Cooperative.quality_improvement_pct := -5.0;
          Cooperative.risk_reduction_pct := 0.0;
          Cooperative.compliance_score_delta := 0.0 |}) < 0.5
  /\ 0.85 <= outcome_quality 0.01 2625 2620.
Proof.
  split; vm_compute; [reflexivity | discriminate].
Qed.

(** C9, as stated, fails: after one defection (quality 0.4) and three
    cooperative rounds (quality 0.9) the score is 0.85, which is below
    0.95. *)
Lemma three_rounds_do_not_restore :
  cooperation_score (record_outcomes (new_reputation "ops-agent") [0.4])
    == 0.7
  /\ cooperation_score
       (record_outcomes (new_reputation "ops-agent") [0.4; 0.9; 0.9; 0.9])
     == 0.85
  /\ ~ 0.95 <= cooperation_score
         (record_outcomes (new_reputation "ops-agent") [0.4; 0.9; 0.9; 0.9]).
Proof.
  repeat split; try (vm_compute; reflexivity).
  vm_compute. intros H. apply H. reflexivity.
Qed.

Lemma record_outcomes_score (rep : AgentReputation) (qualities : list Q) :
  cooperation_score (record_outcomes rep qualities)
  = fold_left update_score qualities (cooperation_score rep).
Proof.
  unfold record_outcomes. revert rep.
  induction qualities as [| q qs IH]; intros rep; cbn [fold_left]; [reflexivity |].
  now rewrite IH.
Qed.

(** The score after [n] cooperative rounds in a row. *)
Lemma cooperative_rounds (qs : list Q) (score : Q) :
  Forall (fun q => 0.85 <= q) qs -> score <= 1 ->
  fold_left update_score qs score
  == Qmin 1 (score + 0.05 * inject_Z (Z.of_nat (List.length qs))).
Proof.
  intros H. revert score.
  induction H as [| q qs Hq _ IH]; intros score Hs; cbn [fold_left List.length].
  - change (inject_Z (Z.of_nat 0)) with 0.
    destruct (Q.min_spec 1 (score + 0.05 * 0)) as [(? & ->) | (? & ->)]; lra.
  - rewrite (update_score_cooperate score q Hq).
    pose proof (Zle_0_nat (List.length qs)) as Hn.
    assert (Hlen : 0 <= inject_Z (Z.of_nat (List.length qs))).
    { change 0 with (inject_Z 0). now rewrite <- Zle_Qle. }
    assert (HS : inject_Z (Z.of_nat (S (List.length qs)))
                 == inject_Z (Z.of_nat (List.length qs)) + 1).
    { rewrite Nat2Z.inj_succ. unfold Z.succ. now rewrite inject_Z_plus. }
    rewrite IH.
    + rewrite HS. set (n := inject_Z (Z.of_nat (List.length qs))) in *.
      destruct (Q.min_spec 1.0 (score + 0.05)) as [(? & ->) | (? & ->)];
        destruct (Q.min_spec 1 (1.0 + 0.05 * n)) as [(? & E1) | (? & E1)];
        destruct (Q.min_spec 1 (score + 0.05 + 0.05 * n)) as [(? & E2) | (? & E2)];
        destruct (Q.min_spec 1 (score + 0.05 * (n + 1))) as [(? & E3) | (? & E3)];
        rewrite ?E1, ?E2, ?E3; lra.
    + destruct (Q.min_spec 1.0 (score + 0.05)) as [(? & ->) | (? & ->)]; lra.
Qed.

(** C9, amended.  From a score of 1.0, one resolved proposal of quality
    below 0.5 brings the score to 0.7.  After any number [n] of further
    resolved proposals of quality at least 0.85 the score is
    min(1, 0.7 + 0.05 n): 0.85 after three of them, and at least 0.95
    exactly when there are five or more, so five are needed. *)
Theorem tit_for_tat_recovery (agent : string) (d : Q) (qs : list Q) :
  d < 0.5 -> Forall (fun q => 0.85 <= q) qs ->
  let score := cooperation_score (record_outcomes (new_reputation agent) (d :: qs)) in
  let n := List.length qs in
  cooperation_score (new_reputation agent) = 1.0
  /\ cooperation_score (record_outcomes (new_reputation agent) [d]) == 0.7
  /\ score == Qmin 1 (0.7 + 0.05 * inject_Z (Z.of_nat n))
  /\ (n = 3%nat -> score == 0.85)
  /\ (n = 4%nat -> score == 0.9)
  /\ (n = 5%nat -> score == 0.95)
  /\ (0.95 <= score <-> (5 <= n)%nat).
Proof.
  intros Hd Hqs score n.
  assert (E0 : update_score 1.0 d == 0.7).
  { rewrite update_score_defect by exact Hd. vm_compute. reflexivity. }
  assert (Es : score == Qmin 1 (0.7 + 0.05 * inject_Z (Z.of_nat n))).
  { unfold score. rewrite record_outcomes_score.
    cbn [fold_left cooperation_score new_reputation].
    rewrite (cooperative_rounds qs (update_score 1.0 d) Hqs) by (rewrite E0; lra).
    fold n. now rewrite E0. }
  split; [reflexivity |].
  split; [rewrite record_outcomes_score; exact E0 |].
  split; [exact Es |].
  split; [intros E; rewrite Es, E; vm_compute; reflexivity |].
  split; [intros E; rewrite Es, E; vm_compute; reflexivity |].
  split; [intros E; rewrite Es, E; vm_compute; reflexivity |].
  rewrite Es.
  assert (Hn : (5 <= n)%nat <-> 5 <= inject_Z (Z.of_nat n)).
  { change 5 with (inject_Z 5). rewrite <- Zle_Qle. lia. }
  rewrite Hn. set (x := inject_Z (Z.of_nat n)).
  destruct (Q.min_spec 1 (0.7 + 0.05 * x)) as [(? & ->) | (? & ->)]; split; lra.
Qed.

Lemma tit_for_tat_recovery_witness :
  cooperation_score (new_reputation "ops-agent") = 1.0
  /\ cooperation_score (record_outcomes (new_reputation "ops-agent") [0.4]) == 0.7
  /\ cooperation_score
       (record_outcomes (new_reputation "ops-agent") [0.4; 0.9; 0.9; 0.9; 0.9])
     == 0.9
  /\ ~ 0.95 <= cooperation_score
         (record_outcomes (new_reputation "ops-agent") [0.4; 0.9; 0.9; 0.9; 0.9]).
Proof.
  assert (Hd : 0.4 < 0.5) by reflexivity.
  assert (Hqs : Forall (fun q => 0.85 <= q) [0.9; 0.9; 0.9; 0.9])
    by (repeat constructor; discriminate).
  destruct (tit_for_tat_recovery "ops-agent" 0.4 [0.9; 0.9; 0.9; 0.9] Hd Hqs)
    as (H0 & H1 & _ & _ & H4 & _ & Hiff).
  split; [exact H0 |]. split; [exact H1 |]. split; [exact (H4 eq_refl) |].
  intros H. apply Hiff in H. cbn in H. lia.
Defined.

End ReputationProps.

(** ** RACI game validator *)

Module RaciGameProps.
Import PyFacts RaciGame.

(** *** calculate_payoff *)

Definition Qsum (l : list Q) : Q := fold_right Qplus 0 l.

(** The bonus one assignment contributes. *)
Definition bonus_of (agent : Agent) (action : Action) (assignment : RACIAssignment) : Q :=
  if String.eqb (raci_control_id assignment) (control_id action) then
    if opt_Agent_eqb (Some agent) (responsible assignment) then 2.0
    else if existsb (fun c => Agent_eqb c agent) (consulted assignment) then 0.5
    else 0
  else 0.





Lemma bonus_step_add (agent : Agent) (action : Action) (b : Q) (a : RACIAssignment) :
  bonus_step agent action b a == b + bonus_of agent action a.
Proof.
  unfold bonus_step, bonus_of.
  destruct (String.eqb _ _); [| ring].
  destruct (opt_Agent_eqb _ _); [ring |].
  destruct (existsb _ _); ring.
Qed.

Lemma bonus_fold_sum (agent : Agent) (action : Action) (l : list RACIAssignment) (b : Q) :
  fold_left (bonus_step agent action) l b == b + Qsum (map (bonus_of agent action) l).
Proof.
  revert b. induction l as [| a l IH]; intros b; cbn [fold_left map Qsum fold_right].
  - ring.
  - rewrite IH, bonus_step_add. fold (Qsum (map (bonus_of agent action) l)). ring.
Qed.

Lemma cooperation_bonus_sum (self : RACIGameValidator) (agent : Agent) (action : Action) :
  cooperation_bonus self agent action ==
  Qsum (map (bonus_of agent action) (self_raci_assignments self)).
Proof.
  unfold cooperation_bonus. rewrite bonus_fold_sum. ring.
Qed.



(** The agents of [main]. *)
Definition architect_agent : Agent :=
  {| agent_id := "architect-agent"; tier := TIER4_ARCHITECT;
     controls := ["APP-001"; "G-02"]%string;
     cost_per_action := 2.0; risk_tolerance := 0.8 |}.

Definition security_agent : Agent :=
  {| agent_id := "security-agent"; tier := TIER3_OPERATIONS;
     controls := ["SEC-001"; "MI-003"]%string;
     cost_per_action := 1.5; risk_tolerance := 0.6 |}.

Definition ops_agent : Agent :=
  {| agent_id := "ops-agent"; tier := TIER3_OPERATIONS;
     controls := ["AU-002"; "MI-020"]%string;
     cost_per_action := 1.0; risk_tolerance := 0.5 |}.

Definition dev_agent : Agent :=
  {| agent_id := "dev-agent"; tier := TIER2_DEVELOPER;
     controls := ["MI-009"; "MI-021"]%string;
     cost_per_action := 0.8; risk_tolerance := 0.4 |}.

Definition demo_agents : list Agent :=
  [architect_agent; security_agent; ops_agent; dev_agent].

(** A matrix in which control APP-001 is assigned twice: once with the
    security agent responsible, once with the ops agent responsible and
    the security agent consulted. *)
Definition overlapping_validator : RACIGameValidator :=
  {| self_agents := demo_agents;
     self_raci_assignments :=
       [ {| raci_control_id := "APP-001";
            responsible := Some security_agent;
            accountable := Some architect_agent;
            consulted := [ops_agent]; informed := [dev_agent] |};
         {| raci_control_id := "APP-001";
            responsible := Some ops_agent;
            accountable := Some architect_agent;
            consulted := [security_agent]; informed := [] |} ] |}.




(** *** validate_raci_constraints *)

(** The rules of an assignment in the words of the specification: an
    accountable, a responsible, different agents, and the accountable's tier
    at least the responsible's. *)
Definition raci_rules_as_stated (a : RACIAssignment) : Prop :=
  exists r acc,
    responsible a = Some r /\ accountable a = Some acc
    /\ Agent_eqb r acc = false
    /\ (value (tier r) <= value (tier acc))%Z.

(** The rules as the validator tests them: the fourth asks for an
    accountable of tier 3 or more. *)
Definition raci_rules (a : RACIAssignment) : Prop :=
  exists r acc,
    responsible a = Some r /\ accountable a = Some acc
    /\ Agent_eqb r acc = false
    /\ (3 <= value (tier acc))%Z.

Definition both_missing (a : RACIAssignment) : bool :=
  match responsible a, accountable a with
  | None, None => true
  | _, _ => false
  end.

(** The messages one assignment adds, rule by rule. *)
Definition violations_of (a : RACIAssignment) : list string :=
  let control := raci_control_id a in
  match accountable a with
  | None => [msg_no_accountable control]
  | Some _ => []
  end
  ++ match responsible a with
     | None => [msg_no_responsible control]
     | Some _ => []
     end
  ++ match responsible a, accountable a with
     | Some r, Some acc => if Agent_eqb r acc then [msg_both control r] else []
     | _, _ => []
     end
  ++ match accountable a with
     | Some acc => if (value (tier acc) <? 3)%Z then [msg_tier control acc] else []
     | None => []
     end.

Lemma check_assignment_spec (vs : list string) (a : RACIAssignment) :
  check_assignment vs a =
  if both_missing a then Raise AttributeError else Ok (vs ++ violations_of a).
Proof.
  unfold check_assignment, both_missing, violations_of.
  destruct (responsible a) as [r |], (accountable a) as [acc |];
    cbn [opt_Agent_eqb bind].
  - destruct (Agent_eqb r acc), (value (tier acc) <? 3)%Z; cbn [bind app];
      rewrite <- ?app_assoc, ?app_nil_r; reflexivity.
  - cbn [app]. reflexivity.
  - destruct (value (tier acc) <? 3)%Z; cbn [app];
      rewrite <- ?app_assoc, ?app_nil_r; reflexivity.
  - reflexivity.
Qed.

Lemma check_assignments_spec (l : list RACIAssignment) (vs : list string) :
  check_assignments vs l =
  if existsb both_missing l then Raise AttributeError
  else Ok (vs ++ flat_map violations_of l).
Proof.
  revert vs. induction l as [| a l IH]; intros vs; cbn [check_assignments existsb flat_map].
  - now rewrite app_nil_r.
  - rewrite check_assignment_spec.
    destruct (both_missing a); cbn [bind orb]; [reflexivity |].
    rewrite IH. destruct (existsb both_missing l); [reflexivity |].
    now rewrite app_assoc.
Qed.

Lemma violations_of_nil (a : RACIAssignment) :
  violations_of a = [] <-> raci_rules a.
Proof.
  unfold violations_of, raci_rules.
  destruct (responsible a) as [r |], (accountable a) as [acc |]; cbn [app].
  - destruct (Agent_eqb r acc) eqn:E, (value (tier acc) <? 3)%Z eqn:T; cbn [app];
      split; try discriminate.
    + intros (r' & acc' & [= <-] & [= <-] & E' & _). congruence.
    + intros (r' & acc' & [= <-] & [= <-] & E' & _). congruence.
    + intros (r' & acc' & [= <-] & [= <-] & _ & T'). apply Z.ltb_lt in T. lia.
    + intros _. exists r, acc. apply Z.ltb_ge in T. auto.
    + reflexivity.
  - split; [discriminate | intros (r' & acc' & _ & [=] & _)].
  - split; [discriminate | intros (r' & acc' & [=] & _)].
  - split; [discriminate | intros (r' & acc' & [=] & _)].
Qed.

Lemma flat_map_nil {A B : Type} (f : A -> list B) (l : list A) :
  flat_map f l = [] <-> Forall (fun a => f a = []) l.
Proof.
  induction l as [| a l IH]; cbn [flat_map].
  - split; [constructor | reflexivity].
  - split.
    + intros H. apply app_eq_nil in H as (Ha & Hl). constructor; [exact Ha | now apply IH].
    + intros H. inversion H; subst. apply IH in H3. now rewrite H2, H3.
Qed.

Lemma both_missing_not_rules (a : RACIAssignment) :
  both_missing a = true -> ~ raci_rules a.
Proof.
  unfold both_missing. intros H (r & acc & Hr & _). rewrite Hr in H. discriminate.
Qed.

Lemma both_missing_false (a : RACIAssignment) :
  both_missing a = false <-> responsible a <> None \/ accountable a <> None.
Proof.
  unfold both_missing.
  destruct (responsible a), (accountable a); split; intro H;
    try reflexivity; try discriminate; try (left; discriminate);
    try (right; discriminate).
  destruct H as [H | H]; congruence.
Qed.

Lemma validate_raci_constraints_spec (self : RACIGameValidator) :
  validate_raci_constraints self =
  if existsb both_missing (self_raci_assignments self) then Raise AttributeError
  else Ok ((List.length (flat_map violations_of (self_raci_assignments self)) =? 0)%nat,
           flat_map violations_of (self_raci_assignments self)).
Proof.
  unfold validate_raci_constraints. rewrite check_assignments_spec.
  destruct (existsb both_missing _); reflexivity.
Qed.

Definition observer_agent : Agent :=
  {| agent_id := "audit-agent"; tier := TIER1_OBSERVER;
     controls := ["AU-001"]%string;
     cost_per_action := 1.0; risk_tolerance := 0.5 |}.

(** The architect (tier 4) responsible, the security agent (tier 3)
    accountable. *)
Definition inverted_assignment : RACIAssignment :=
  {| raci_control_id := "APP-001";
     responsible := Some architect_agent;
     accountable := Some security_agent;
     consulted := []; informed := [] |}.

(** The observer (tier 1) responsible, the developer (tier 2) accountable. *)
Definition low_tier_assignment : RACIAssignment :=
  {| raci_control_id := "MI-009";
     responsible := Some observer_agent;
     accountable := Some dev_agent;
     consulted := []; informed := [] |}.

Definition validator_of (l : list RACIAssignment) : RACIGameValidator :=
  {| self_agents := demo_agents; self_raci_assignments := l |}.

(** C1, as stated, fails in both directions: an accountable of tier 3 over
    a responsible of tier 4 passes, and an accountable of tier 2 over a
    responsible of tier 1 is reported. *)
Lemma tier_rule_is_not_relative :
  validate_raci_constraints (validator_of [inverted_assignment]) = Ok (true, [])
  /\ ~ raci_rules_as_stated inverted_assignment
  /\ validate_raci_constraints (validator_of [low_tier_assignment])
     = Ok (false,
           ["MI-009: Accountable agent dev-agent is Tier 2, requires Tier 3+"%string])
  /\ raci_rules_as_stated low_tier_assignment.
Proof.
  split; [vm_compute; reflexivity |].
  split.
  { intros (r & acc & [= <-] & [= <-] & _ & H). vm_compute in H. now apply H. }
  split; [vm_compute; reflexivity |].
  exists observer_agent, dev_agent.
  repeat split; try reflexivity. vm_compute. discriminate.
Qed.

(** C1, amended.  [validate_raci_constraints] returns ok = true exactly
    when every assignment has an accountable agent, a responsible agent,
    responsible different from accountable, and an accountable of tier 3 or
    more.  Whenever it returns, ok says that the list is empty and the list
    holds, for every assignment, the message of each rule the assignment
    breaks (nothing stops at the first); it returns whenever every
    assignment names at least one of the two agents. *)
Theorem validate_raci_constraints_rules (self : RACIGameValidator) :
  ((exists vs, validate_raci_constraints self = Ok (true, vs)) <->
     Forall raci_rules (self_raci_assignments self))
  /\ (forall ok vs,
        validate_raci_constraints self = Ok (ok, vs) ->
        (ok = true <-> vs = [])
        /\ forall a, In a (self_raci_assignments self) ->
             (accountable a = None ->
                In (msg_no_accountable (raci_control_id a)) vs)
             /\ (responsible a = None ->
                   In (msg_no_responsible (raci_control_id a)) vs)
             /\ (forall r acc,
                   responsible a = Some r -> accountable a = Some acc ->
                   Agent_eqb r acc = true ->
                   In (msg_both (raci_control_id a) r) vs)
             /\ (forall acc,
                   accountable a = Some acc -> (value (tier acc) < 3)%Z ->
                   In (msg_tier (raci_control_id a) acc) vs))
  /\ ((forall a, In a (self_raci_assignments self) ->
         responsible a <> None \/ accountable a <> None) ->
      returns (validate_raci_constraints self)).
Proof.
  rewrite validate_raci_constraints_spec.
  set (l := self_raci_assignments self).
  split; [| split].
  - split.
    + intros (vs & H). destruct (existsb both_missing l); [discriminate |].
      injection H as Hlen _. apply length_eqb_nil, flat_map_nil in Hlen.
      eapply Forall_impl; [| exact Hlen]. intros a. apply violations_of_nil.
    + intros H. destruct (existsb both_missing l) eqn:E.
      * apply existsb_exists in E as (a & Ha & Hb).
        rewrite Forall_forall in H. apply both_missing_not_rules in Hb.
        exfalso. apply Hb. now apply H.
      * assert (Hnil : flat_map violations_of l = []).
        { apply flat_map_nil. eapply Forall_impl; [| exact H].
          intros a. apply violations_of_nil. }
        rewrite Hnil. now exists [].
  - intros ok vs H. destruct (existsb both_missing l); [discriminate |].
    injection H as <- <-. split; [apply length_eqb_nil |].
    intros a Ha.
    assert (Hsub : forall m, In m (violations_of a) -> In m (flat_map violations_of l)).
    { intros m Hm. apply in_flat_map. now exists a. }
    unfold violations_of in Hsub. repeat split.
    + intros Hacc. apply Hsub. rewrite Hacc. now left.
    + intros Hr. apply Hsub. rewrite Hr. apply in_or_app. right. now left.
    + intros r acc Hr Hacc E. apply Hsub. rewrite Hr, Hacc, E. cbn [app]. now left.
    + intros acc Hacc T. apply Hsub. rewrite Hacc.
      apply Z.ltb_lt in T. rewrite T.
      apply in_or_app. right. apply in_or_app. right. apply in_or_app. right. now left.
  - intros H. destruct (existsb both_missing l) eqn:E.
    + apply existsb_exists in E as (a & Ha & Hb).
      apply H, both_missing_false in Ha. congruence.
    + eexists. reflexivity.
Qed.

(** *** check_nash_equilibrium *)

(** The deviations reported for one item of the action profile. *)
Definition deviations_of (self : RACIGameValidator) (game_state : GameState)
  (item : Agent * Action) : list string :=
  let (agent, current_action) := item in
  map (fun alt_action =>
         msg_deviation agent
           (calculate_payoff self agent current_action game_state)
           (calculate_payoff self agent alt_action game_state))
      (filter (improves self game_state agent current_action)
              (_get_agent_actions self agent)).

Lemma fold_append_filter {A B : Type} (f : A -> bool) (g : A -> B)
  (l : list A) (acc : list B) :
  fold_left (fun acc x => if f x then acc ++ [g x] else acc) l acc
  = acc ++ map g (filter f l).
Proof.
  revert acc. induction l as [| x l IH]; intros acc; cbn [fold_left filter map].
  - now rewrite app_nil_r.
  - rewrite IH. destruct (f x); [| reflexivity].
    cbn [map]. now rewrite <- app_assoc.
Qed.

Lemma check_agent_spec (self : RACIGameValidator) (game_state : GameState)
  (vs : list string) (item : Agent * Action) :
  check_agent self game_state vs item = vs ++ deviations_of self game_state item.
Proof.
  destruct item as (agent, cur). unfold check_agent, deviations_of.
  apply (fold_append_filter (improves self game_state agent cur)).
Qed.

Lemma check_agents_spec (self : RACIGameValidator) (game_state : GameState)
  (profile : list (Agent * Action)) (vs : list string) :
  fold_left (check_agent self game_state) profile vs
  = vs ++ flat_map (deviations_of self game_state) profile.
Proof.
  revert vs. induction profile as [| item profile IH]; intros vs;
    cbn [fold_left flat_map].
  - now rewrite app_nil_r.
  - now rewrite IH, check_agent_spec, app_assoc.
Qed.

Lemma improves_iff (self : RACIGameValidator) (game_state : GameState)
  (agent : Agent) (cur alt : Action) :
  improves self game_state agent cur alt = true <->
  Action_eqb alt cur = false
  /\ payoff (calculate_payoff self agent cur game_state) + 0.01
     < payoff (calculate_payoff self agent alt game_state).
Proof.
  unfold improves. now rewrite andb_true_iff, negb_true_iff, Qltb_lt.
Qed.

(** *** Sorting by tier *)

Section SortedDesc.
Context {A : Type} (key : A -> Z).

Lemma insert_desc_perm (x : A) (l : list A) :
  Permutation (x :: l) (insert_desc key x l).
Proof.
  induction l as [| y ys IH]; cbn [insert_desc].
  - apply Permutation_refl.
  - destruct (key x <? key y)%Z.
    + eapply perm_trans; [apply perm_swap |]. now apply perm_skip.
    + apply Permutation_refl.
Qed.

Lemma sorted_desc_perm (l : list A) : Permutation l (sorted_desc key l).
Proof.
  induction l as [| x xs IH]; cbn [sorted_desc].
  - apply perm_nil.
  - eapply perm_trans; [| apply insert_desc_perm]. now apply perm_skip.
Qed.

Definition descending : list A -> Prop :=
  StronglySorted (fun a b => (key b <= key a)%Z).

Lemma insert_desc_descending (x : A) (l : list A) :
  descending l -> descending (insert_desc key x l).
Proof.
  unfold descending. induction l as [| y ys IH]; intros Hs; cbn [insert_desc].
  - constructor; constructor.
  - apply StronglySorted_inv in Hs as (Hys & Hall).
    destruct (key x <? key y)%Z eqn:E.
    + apply Z.ltb_lt in E. constructor; [now apply IH |].
      eapply Permutation_Forall; [apply insert_desc_perm |].
      constructor; [lia | exact Hall].
    + apply Z.ltb_ge in E. constructor.
      * constructor; assumption.
      * constructor; [exact E |].
        eapply Forall_impl; [| exact Hall]. cbn. intros b Hb. lia.
Qed.

Lemma sorted_desc_descending (l : list A) : descending (sorted_desc key l).
Proof.
  induction l as [| x xs IH]; cbn [sorted_desc].
  - constructor.
  - now apply insert_desc_descending.
Qed.

Lemma insert_desc_stable (t : Z) (x : A) (l : list A) :
  filter (fun a => (key a =? t)%Z) (insert_desc key x l)
  = filter (fun a => (key a =? t)%Z) (x :: l).
Proof.
  induction l as [| y ys IH]; cbn [insert_desc]; [reflexivity |].
  destruct (key x <? key y)%Z eqn:E; [| reflexivity].
  apply Z.ltb_lt in E. cbn [filter] in *. rewrite IH.
  destruct (key x =? t)%Z eqn:Ex, (key y =? t)%Z eqn:Ey; try reflexivity.
  apply Z.eqb_eq in Ex, Ey. lia.
Qed.

Lemma sorted_desc_stable (t : Z) (l : list A) :
  filter (fun a => (key a =? t)%Z) (sorted_desc key l)
  = filter (fun a => (key a =? t)%Z) l.
Proof.
  induction l as [| x xs IH]; cbn [sorted_desc]; [reflexivity |].
  rewrite insert_desc_stable. cbn [filter]. now rewrite IH.
Qed.

End SortedDesc.

(** *** max with a key *)

Lemma max_by_first {A : Type} (key : A -> Q) (xs : list A) (x : A) :
  exists l1 l2,
    x :: xs = l1 ++ max_by key x xs :: l2
    /\ (forall q, In q l1 -> key q < key (max_by key x xs))
    /\ (forall q, In q l2 -> key q <= key (max_by key x xs)).
Proof.
  unfold max_by. induction xs as [| y xs IH] using rev_ind.
  - exists [], []. cbn. repeat split; intros q [].
  - destruct IH as (l1 & l2 & Heq & H1 & H2).
    rewrite fold_left_app. cbn [fold_left].
    set (best := fold_left _ xs x) in *.
    destruct (Qltb (key best) (key y)) eqn:E.
    + apply Qltb_lt in E. exists (l1 ++ best :: l2), [].
      split; [now rewrite app_comm_cons, Heq |].
      split; [| intros q []].
      intros q Hq. apply in_app_or in Hq as [Hq | [<- | Hq]].
      * specialize (H1 q Hq). lra.
      * exact E.
      * specialize (H2 q Hq). lra.
    + apply Qltb_ge in E. exists l1, (l2 ++ [y]).
      split; [now rewrite app_comm_cons, Heq, <- app_assoc |].
      split; [exact H1 |].
      intros q Hq. apply in_app_or in Hq as [Hq | [<- | []]]; auto.
Qed.

(** *** The dataclass equality is an equivalence *)

Lemma list_eqb_string_eq (xs ys : list string) :
  list_eqb String.eqb xs ys = true <-> xs = ys.
Proof.
  revert ys. induction xs as [| x xs IH]; intros [| y ys]; cbn [list_eqb];
    try (split; [discriminate | congruence]); [tauto |].
  rewrite andb_true_iff, String.eqb_eq, IH. split.
  - now intros (-> & ->).
  - intros [= -> ->]. now split.
Qed.

Lemma Agent_eqb_iff (a b : Agent) :
  Agent_eqb a b = true <->
  agent_id a = agent_id b /\ value (tier a) = value (tier b)
  /\ controls a = controls b
  /\ cost_per_action a == cost_per_action b
  /\ risk_tolerance a == risk_tolerance b.
Proof.
  unfold Agent_eqb, AgentTier_eqb.
  rewrite !andb_true_iff, String.eqb_eq, Z.eqb_eq, list_eqb_string_eq, !Qeq_bool_iff.
  tauto.
Qed.

Lemma Agent_eqb_refl (a : Agent) : Agent_eqb a a = true.
Proof.
  apply Agent_eqb_iff. repeat split; reflexivity.
Qed.

Lemma Agent_eqb_sym (a b : Agent) : Agent_eqb a b = true -> Agent_eqb b a = true.
Proof.
  rewrite !Agent_eqb_iff. intros (H1 & H2 & H3 & H4 & H5).
  repeat split; now symmetry.
Qed.

Lemma Agent_eqb_trans (a b c : Agent) :
  Agent_eqb a b = true -> Agent_eqb b c = true -> Agent_eqb a c = true.
Proof.
  rewrite !Agent_eqb_iff.
  intros (H1 & H2 & H3 & H4 & H5) (K1 & K2 & K3 & K4 & K5).
  repeat split; try congruence.
  - now rewrite H4.
  - now rewrite H5.
Qed.

(** Equal agents compare alike with a third one. *)
Lemma Agent_eqb_compat_l (a a' b : Agent) :
  Agent_eqb a a' = true -> Agent_eqb a b = Agent_eqb a' b.
Proof.
  intros H. destruct (Agent_eqb a b) eqn:E1, (Agent_eqb a' b) eqn:E2;
    try reflexivity.
  - apply Agent_eqb_sym in H. pose proof (Agent_eqb_trans _ _ _ H E1). congruence.
  - pose proof (Agent_eqb_trans _ _ _ H E2). congruence.
Qed.

Lemma Agent_eqb_compat_r (a a' b : Agent) :
  Agent_eqb a a' = true -> Agent_eqb b a = Agent_eqb b a'.
Proof.
  intros H. destruct (Agent_eqb b a) eqn:E1, (Agent_eqb b a') eqn:E2;
    try reflexivity.
  - pose proof (Agent_eqb_trans _ _ _ E1 H). congruence.
  - apply Agent_eqb_sym in H. pose proof (Agent_eqb_trans _ _ _ E2 H). congruence.
Qed.

(** *** Dictionaries keyed by agents *)

Lemma dict_get_compat {V : Type} (d : list (Agent * V)) (a a' : Agent) :
  Agent_eqb a a' = true -> dict_get Agent_eqb d a = dict_get Agent_eqb d a'.
Proof.
  intros H. induction d as [| (k, v) d IH]; cbn [dict_get]; [reflexivity |].
  now rewrite (Agent_eqb_compat_r a a' k H), IH.
Qed.

Lemma dict_get_set {V : Type} (d : list (Agent * V)) (k q : Agent) (v : V) :
  dict_get Agent_eqb (dict_set Agent_eqb d k v) q
  = if Agent_eqb k q then Some v else dict_get Agent_eqb d q.
Proof.
  induction d as [| (k0, v0) d IH]; cbn [dict_set dict_get]; [reflexivity |].
  destruct (Agent_eqb k0 k) eqn:E0; cbn [dict_get].
  - rewrite (Agent_eqb_compat_l k0 k q E0). now destruct (Agent_eqb k q).
  - rewrite IH. destruct (Agent_eqb k q) eqn:Ekq; [| reflexivity].
    rewrite <- (Agent_eqb_compat_r k q k0 Ekq), E0. reflexivity.
Qed.

(** *** find_best_response *)

Lemma cooperation_bonus_compat (self : RACIGameValidator) (a a' : Agent)
  (action : Action) :
  Agent_eqb a a' = true ->
  cooperation_bonus self a action = cooperation_bonus self a' action.
Proof.
  intros H. unfold cooperation_bonus.
  assert (E : forall b asg, bonus_step a action b asg = bonus_step a' action b asg).
  { intros b asg. unfold bonus_step.
    replace (opt_Agent_eqb (Some a) (responsible asg))
      with (opt_Agent_eqb (Some a') (responsible asg))
      by (destruct (responsible asg); cbn; [now rewrite (Agent_eqb_compat_l a a') | reflexivity]).
    replace (existsb (fun c => Agent_eqb c a) (consulted asg))
      with (existsb (fun c => Agent_eqb c a') (consulted asg)); [reflexivity |].
    induction (consulted asg) as [| c cs IH]; cbn [existsb]; [reflexivity |].
    now rewrite IH, (Agent_eqb_compat_r a a' c H). }
  assert (F : forall l b, fold_left (bonus_step a action) l b
                          = fold_left (bonus_step a' action) l b).
  { induction l as [| asg l IH]; intros b; cbn [fold_left]; [reflexivity |].
    now rewrite E, IH. }
  apply F.
Qed.

Lemma payoff_compat (self : RACIGameValidator) (a a' : Agent) (action : Action)
  (g g' : GameState) :
  Agent_eqb a a' = true ->
  payoff (calculate_payoff self a action g) == payoff (calculate_payoff self a' action g').
Proof.
  intros H. cbn [calculate_payoff payoff].
  rewrite (cooperation_bonus_compat self a a' action H).
  apply Agent_eqb_iff in H as (_ & _ & _ & Hc & Hr). now rewrite Hc, Hr.
Qed.

Lemma Qltb_compat (x x' y y' : Q) : x == x' -> y == y' -> Qltb x y = Qltb x' y'.
Proof.
  intros Hx Hy. unfold Qltb. now rewrite Hx, Hy.
Qed.

Lemma max_by_compat (self : RACIGameValidator) (a a' : Agent) (g g' : GameState)
  (xs : list Action) (x : Action) :
  Agent_eqb a a' = true ->
  exists act,
    max_by payoff (calculate_payoff self a x g)
      (map (fun action => calculate_payoff self a action g) xs)
    = calculate_payoff self a act g
    /\ max_by payoff (calculate_payoff self a' x g')
         (map (fun action => calculate_payoff self a' action g') xs)
       = calculate_payoff self a' act g'.
Proof.
  intros H. unfold max_by. revert x.
  induction xs as [| y xs IH]; intros x; cbn [map fold_left].
  - now exists x.
  - rewrite (Qltb_compat _ _ _ _ (payoff_compat self a a' x g g' H)
               (payoff_compat self a a' y g g' H)).
    destruct (Qltb _ _); apply IH.
Qed.

Lemma find_best_response_compat (self : RACIGameValidator) (a a' : Agent)
  (actions : list Action) (g g' : GameState) :
  Agent_eqb a a' = true ->
  find_best_response self a actions g = find_best_response self a' actions g'.
Proof.
  intros H. unfold find_best_response.
  destruct actions as [| x xs]; cbn [map]; [reflexivity |].
  destruct (max_by_compat self a a' g g' xs x H) as (act & -> & ->).
  rewrite (Qltb_compat _ _ _ _ (Qeq_refl 0) (payoff_compat self a a' act g g' H)).
  reflexivity.
Qed.

(** The choice made by [find_best_response]: the first action of maximal
    payoff when that payoff is positive, none otherwise. *)
Lemma find_best_response_spec (self : RACIGameValidator) (agent : Agent)
  (actions : list Action) (g : GameState) :
  let pay action := payoff (calculate_payoff self agent action g) in
  match find_best_response self agent actions g with
  | Some act =>
      exists a1 a2,
        actions = a1 ++ act :: a2
        /\ 0 < pay act
        /\ (forall x, In x a1 -> pay x < pay act)
        /\ (forall x, In x a2 -> pay x <= pay act)
  | None => forall x, In x actions -> pay x <= 0
  end.
Proof.
  intros pay. unfold find_best_response.
  destruct actions as [| x xs]; cbn [map]; [intros y [] |].
  cbv zeta.
  set (f := fun action => calculate_payoff self agent action g).
  change (calculate_payoff self agent x g) with (f x).
  destruct (max_by_first payoff (map f xs) (f x)) as (l1 & l2 & Heq & H1 & H2).
  set (best := max_by payoff (f x) (map f xs)) in *.
  change (f x :: map f xs) with (map f (x :: xs)) in Heq.
  apply map_eq_app in Heq as (a1 & rest & Hact & Hl1 & Hrest).
  apply map_eq_cons in Hrest as (act & a2 & -> & Hbest & Hl2).
  assert (Hpay : payoff best = pay act) by (now rewrite <- Hbest).
  assert (Hbact : pm_action best = act) by (now rewrite <- Hbest).
  assert (K1 : forall y, In y a1 -> pay y < pay act).
  { intros y Hy. rewrite <- Hpay. apply (H1 (f y)). rewrite <- Hl1. now apply in_map. }
  assert (K2 : forall y, In y a2 -> pay y <= pay act).
  { intros y Hy. rewrite <- Hpay. apply (H2 (f y)). rewrite <- Hl2. now apply in_map. }
  destruct (Qltb 0 (payoff best)) eqn:E.
  - apply Qltb_lt in E. rewrite Hbact. exists a1, a2.
    rewrite <- Hpay. repeat split; try assumption.
    + intros y Hy. rewrite Hpay. now apply K1.
    + intros y Hy. rewrite Hpay. now apply K2.
  - apply Qltb_ge in E. rewrite Hpay in E. intros y Hy. rewrite Hact in Hy.
    apply in_app_or in Hy as [Hy | [<- | Hy]].
    + specialize (K1 y Hy). lra.
    + exact E.
    + specialize (K2 y Hy). lra.
Qed.

(** *** stackelberg_equilibrium *)

Section Stackelberg.
Variable self : RACIGameValidator.
Variable actions_by_agent : list (Agent * list Action).

(** [actions_by_agent.get(agent, [])] *)
Definition available (agent : Agent) : list Action :=
  match dict_get Agent_eqb actions_by_agent agent with
  | Some l => l
  | None => []
  end.

(** The best response of an agent to its candidate actions. *)
Definition choice (agent : Agent) : option Action :=
  find_best_response self agent (available agent)
    (new_GameState (self_agents self) (self_raci_assignments self)).

Let step := stackelberg_step self actions_by_agent.

Lemma stackelberg_step_choice (d : list (Agent * Action)) (g : GameState) (a : Agent) :
  step (d, g) a =
  match choice a with
  | Some b => (dict_set Agent_eqb d a b, record_action g a b)
  | None => (d, g)
  end.
Proof.
  reflexivity.
Qed.

Lemma choice_compat (a a' : Agent) :
  Agent_eqb a a' = true -> choice a = choice a'.
Proof.
  intros H. unfold choice, available.
  rewrite (dict_get_compat actions_by_agent a a' H).
  now apply find_best_response_compat.
Qed.

(** Every entry of the profile built so far is the choice of its agent. *)
Definition consistent (d : list (Agent * Action)) : Prop :=
  forall q, dict_get Agent_eqb d q = None \/ dict_get Agent_eqb d q = choice q.

Lemma step_consistent (d : list (Agent * Action)) (g : GameState) (a : Agent) :
  consistent d -> consistent (fst (step (d, g) a)).
Proof.
  intros Hd q. rewrite stackelberg_step_choice.
  destruct (choice a) as [b |] eqn:E; cbn [fst]; [| apply Hd].
  rewrite dict_get_set. destruct (Agent_eqb a q) eqn:Eq; [| apply Hd].
  right. now rewrite <- (choice_compat a q Eq).
Qed.

Lemma step_other (d : list (Agent * Action)) (g : GameState) (a q : Agent) :
  Agent_eqb a q = false ->
  dict_get Agent_eqb (fst (step (d, g) a)) q = dict_get Agent_eqb d q.
Proof.
  intros H. rewrite stackelberg_step_choice.
  destruct (choice a) as [b |]; cbn [fst]; [| reflexivity].
  now rewrite dict_get_set, H.
Qed.

Lemma step_same (d : list (Agent * Action)) (g : GameState) (a q : Agent) :
  Agent_eqb a q = true -> consistent d ->
  dict_get Agent_eqb (fst (step (d, g) a)) q = choice q.
Proof.
  intros H Hd. rewrite stackelberg_step_choice.
  rewrite <- (choice_compat a q H).
  destruct (choice a) as [b |] eqn:E; cbn [fst].
  - now rewrite dict_get_set, H.
  - destruct (Hd q) as [Hq | Hq]; [exact Hq |].
    now rewrite Hq, <- (choice_compat a q H).
Qed.

Lemma fold_other (l : list Agent) (st : list (Agent * Action) * GameState) (q : Agent) :
  existsb (fun a => Agent_eqb a q) l = false ->
  dict_get Agent_eqb (fst (fold_left step l st)) q = dict_get Agent_eqb (fst st) q.
Proof.
  revert st. induction l as [| a l IH]; intros (d, g) H; cbn [fold_left];
    [reflexivity |].
  cbn [existsb] in H. apply orb_false_iff in H as (Ha & Hl).
  rewrite (IH _ Hl). now apply step_other.
Qed.

Lemma fold_visited (l : list Agent) (d : list (Agent * Action)) (g : GameState)
  (q : Agent) :
  consistent d ->
  existsb (fun a => Agent_eqb a q) l = true ->
  dict_get Agent_eqb (fst (fold_left step l (d, g))) q = choice q.
Proof.
  revert d g. induction l as [| a l IH]; intros d g Hd H; [discriminate |].
  cbn [fold_left]. cbn [existsb] in H.
  pose proof (step_consistent d g a Hd) as Hd1.
  destruct (step (d, g) a) as (d1, g1) eqn:Est. cbn [fst] in Hd1.
  destruct (existsb (fun a0 => Agent_eqb a0 q) l) eqn:El.
  - now apply IH.
  - rewrite orb_false_r in H. rewrite (fold_other l (d1, g1) q El). cbn [fst].
    change d1 with (fst (d1, g1)). rewrite <- Est. now apply step_same.
Qed.

Lemma stackelberg_profile (a : Agent) :
  In a (self_agents self) ->
  dict_get Agent_eqb (stackelberg_equilibrium self actions_by_agent) a = choice a.
Proof.
  intros Hin. unfold stackelberg_equilibrium, stackelberg_run.
  apply fold_visited.
  - intros q. now left.
  - apply existsb_exists. exists a. split; [| apply Agent_eqb_refl].
    unfold sorted_agents. eapply Permutation_in; [apply sorted_desc_perm | exact Hin].
Qed.

End Stackelberg.

(** The run of [main]: every agent is offered one sample action per
    control. *)
Definition demo_validator : RACIGameValidator :=
  {| self_agents := demo_agents;
     self_raci_assignments :=
       [ {| raci_control_id := "APP-001";
            responsible := Some security_agent;
            accountable := Some architect_agent;
            consulted := [ops_agent]; informed := [dev_agent] |};
         {| raci_control_id := "SEC-001";
            responsible := Some security_agent;
            accountable := Some architect_agent;
            consulted := []; informed := [ops_agent; dev_agent] |};
         {| raci_control_id := "AU-002";
            responsible := Some ops_agent;
            accountable := Some architect_agent;
            consulted := [security_agent]; informed := [dev_agent] |} ] |}.

Definition demo_actions : list (Agent * list Action) :=
  map (fun agent => (agent, _get_agent_actions demo_validator agent)) demo_agents.

Example demo_validator_ok :
  validate_raci_constraints demo_validator = Ok (true, []).
Proof. vm_compute. reflexivity. Qed.

Example demo_equilibrium :
  map (fun item => (agent_id (fst item), action_id (snd item)))
      (stackelberg_equilibrium demo_validator demo_actions)
  = [ ("architect-agent", "architect-agent_APP-001_execute");
      ("security-agent", "security-agent_SEC-001_execute");
      ("ops-agent", "ops-agent_AU-002_execute");
      ("dev-agent", "dev-agent_MI-009_execute") ]%string.
Proof. vm_compute. reflexivity. Qed.

Example demo_is_nash :
  check_nash_equilibrium demo_validator (new_GameState demo_agents [])
    (stackelberg_equilibrium demo_validator demo_actions) = (true, []).
Proof. vm_compute. reflexivity. Qed.

End RaciGameProps.

(** ** Further properties of the RACI game validator *)

Module RaciGameMore.
Import PyFacts RaciGame RaciGameProps Conflicts.

(** *** _organize_by_tier *)

Lemma filter_key_above {A : Type} (key : A -> Z) (k j : Z) (l : list A) :
  Forall (fun b => (key b <= k)%Z) l -> (k < j)%Z ->
  filter (fun a => (key a =? j)%Z) l = [].
Proof.
  intros H Hkj. induction H as [| x l Hx _ IH]; cbn [filter]; [reflexivity |].
  destruct (key x =? j)%Z eqn:E; [apply Z.eqb_eq in E; lia | exact IH].
Qed.

Lemma descending_buckets {A : Type} (key : A -> Z) (l : list A) :
  descending key l ->
  (forall x, In x l -> (1 <= key x <= 4)%Z) ->
  l = filter (fun a => (key a =? 4)%Z) l ++ filter (fun a => (key a =? 3)%Z) l
      ++ filter (fun a => (key a =? 2)%Z) l ++ filter (fun a => (key a =? 1)%Z) l.
Proof.
  unfold descending. intros Hs. induction Hs as [| x l Hs IH Hall]; intros Hr.
  - reflexivity.
  - assert (Hx : (1 <= key x <= 4)%Z) by (apply Hr; now left).
    specialize (IH (fun y Hy => Hr y (or_intror Hy))).
    assert (Habove : forall j, (key x < j)%Z ->
                               filter (fun a => (key a =? j)%Z) l = []).
    { intros j Hj. now apply (filter_key_above key (key x)). }
    cbn [filter].
    assert (K : (key x = 4 \/ key x = 3 \/ key x = 2 \/ key x = 1)%Z) by lia.
    destruct K as [K | [K | [K | K]]].
    + rewrite K. cbn [Z.eqb Pos.eqb app]. now rewrite <- IH.
    + rewrite (Habove 4%Z) in * by lia.
      rewrite K. cbn [Z.eqb Pos.eqb app] in *. now rewrite <- IH.
    + rewrite (Habove 4%Z), (Habove 3%Z) in * by lia.
      rewrite K. cbn [Z.eqb Pos.eqb app] in *. now rewrite <- IH.
    + rewrite (Habove 4%Z), (Habove 3%Z), (Habove 2%Z) in * by lia.
      rewrite K. cbn [Z.eqb Pos.eqb app] in *. now rewrite <- IH.
Qed.

Lemma value_range (t : AgentTier) : (1 <= value t <= 4)%Z.
Proof.
  destruct t; cbn; lia.
Qed.

Lemma value_inj (s t : AgentTier) : value s = value t -> s = t.
Proof.
  destruct s, t; cbn; intros H; try reflexivity; discriminate.
Qed.

(** X1.  The order in which [stackelberg_equilibrium] plays the agents is
    the tier-4 bucket of [_organize_by_tier] followed by the tier-3, tier-2
    and tier-1 buckets; the buckets partition the agents, each holding
    exactly the agents of its tier. *)
Theorem organize_by_tier_play_order (self : RACIGameValidator) :
  sorted_agents self = List.concat (map snd (rev (_organize_by_tier self)))
  /\ Permutation (List.concat (map snd (_organize_by_tier self))) (self_agents self)
  /\ (forall t bucket, In (t, bucket) (_organize_by_tier self) ->
        forall a, In a bucket <-> In a (self_agents self) /\ tier a = t).
Proof.
  assert (E : sorted_agents self = List.concat (map snd (rev (_organize_by_tier self)))).
  { unfold sorted_agents, _organize_by_tier, AgentTier_eqb.
    cbn [map rev app List.concat snd value]. rewrite app_nil_r.
    set (key := fun a : Agent => value (tier a)).
    change (sorted_desc key (self_agents self)
            = filter (fun a => (key a =? 4)%Z) (self_agents self)
              ++ filter (fun a => (key a =? 3)%Z) (self_agents self)
              ++ filter (fun a => (key a =? 2)%Z) (self_agents self)
              ++ filter (fun a => (key a =? 1)%Z) (self_agents self)).
    rewrite <- (sorted_desc_stable key 4 (self_agents self)),
      <- (sorted_desc_stable key 3 (self_agents self)),
      <- (sorted_desc_stable key 2 (self_agents self)),
      <- (sorted_desc_stable key 1 (self_agents self)).
    apply descending_buckets; [apply sorted_desc_descending |].
    intros x _. apply value_range. }
  split; [exact E |]. split.
  - eapply perm_trans; [| apply Permutation_sym, (sorted_desc_perm (fun a => value (tier a)))].
    fold (sorted_agents self). rewrite E, <- !flat_map_concat_map.
    apply Permutation_flat_map, Permutation_rev.
  - intros t bucket Hin a. unfold _organize_by_tier in Hin.
    apply in_map_iff in Hin as (t' & [= <- <-] & _).
    rewrite filter_In. unfold AgentTier_eqb. rewrite Z.eqb_eq.
    split; intros (H1 & H2); split; auto using value_inj. now rewrite H2.
Qed.

(** *** stackelberg_equilibrium: what the profile holds *)

Lemma dict_set_In {V : Type} (d : list (Agent * V)) (a k : Agent) (v b : V) :
  In (k, b) (dict_set Agent_eqb d a v) ->
  In (k, b) d
  \/ (b = v /\ Agent_eqb k a = true /\ (k = a \/ In k (map fst d))).
Proof.
  induction d as [| (k0, v0) d IH]; cbn [dict_set].
  - intros [[= <- <-] | []]. right. repeat split; [apply Agent_eqb_refl | now left].
  - destruct (Agent_eqb k0 a) eqn:E.
    + intros [[= <- <-] | H].
      * right. repeat split; [exact E | right; now left].
      * left. now right.
    + intros [H | H]; [left; now left |].
      destruct (IH H) as [H' | (Hb & Hk & [Hka | Hin])].
      * left. now right.
      * right. repeat split; auto.
      * right. repeat split; auto. right. now right.
Qed.

Section Profile.
Variable self : RACIGameValidator.
Variable actions_by_agent : list (Agent * list Action).

Let state0 := new_GameState (self_agents self) (self_raci_assignments self).
Let pay (a : Agent) (action : Action) : Q :=
  payoff (calculate_payoff self a action state0).

(** Every entry of a profile is the best response of its key, and its key
    is one of the agents [universe]. *)
Definition sound (universe : list Agent) (d : list (Agent * Action)) : Prop :=
  forall k b, In (k, b) d ->
    In k universe /\ choice self actions_by_agent k = Some b.

Lemma sound_keys (universe : list Agent) (d : list (Agent * Action)) (k : Agent) :
  sound universe d -> In k (map fst d) -> In k universe.
Proof.
  intros Hd Hk. apply in_map_iff in Hk as ((k', b) & <- & Hin).
  now apply (Hd k' b).
Qed.

Lemma step_sound (universe : list Agent) (d : list (Agent * Action))
  (g : GameState) (a : Agent) :
  In a universe -> sound universe d ->
  sound universe (fst (stackelberg_step self actions_by_agent (d, g) a)).
Proof.
  intros Ha Hd. rewrite stackelberg_step_choice.
  destruct (choice self actions_by_agent a) as [best |] eqn:E; cbn [fst];
    [| exact Hd].
  intros k b Hin. apply dict_set_In in Hin as [Hin | (-> & Hk & Hor)].
  - now apply Hd.
  - split.
    + destruct Hor as [-> | Hkeys]; [exact Ha | now apply (sound_keys universe d)].
    + now rewrite (choice_compat self actions_by_agent k a Hk).
Qed.

Lemma fold_sound (universe l : list Agent) (st : list (Agent * Action) * GameState) :
  incl l universe -> sound universe (fst st) ->
  sound universe (fst (fold_left (stackelberg_step self actions_by_agent) l st)).
Proof.
  revert st. induction l as [| a l IH]; intros (d, g) Hl Hd; cbn [fold_left];
    [exact Hd |].
  apply IH; [intros x Hx; apply Hl; now right |].
  destruct (stackelberg_step self actions_by_agent (d, g) a) as (d1, g1) eqn:Est.
  change d1 with (fst (d1, g1)). rewrite <- Est.
  apply step_sound; [apply Hl; now left | exact Hd].
Qed.

Lemma stackelberg_sound :
  sound (self_agents self) (stackelberg_equilibrium self actions_by_agent).
Proof.
  unfold stackelberg_equilibrium, stackelberg_run.
  intros k b Hin.
  assert (H : sound (sorted_agents self)
                (fst (fold_left (stackelberg_step self actions_by_agent)
                        (sorted_agents self) ([], state0)))).
  { apply fold_sound; [apply incl_refl | intros k' b' []]. }
  destruct (H k b Hin) as (Hk & Hc). split; [| exact Hc].
  eapply Permutation_in; [apply Permutation_sym, sorted_desc_perm | exact Hk].
Qed.

Lemma choice_best (k : Agent) (b : Action) :
  choice self actions_by_agent k = Some b ->
  In b (available actions_by_agent k)
  /\ 0 < pay k b
  /\ forall x, In x (available actions_by_agent k) -> pay k x <= pay k b.
Proof.
  intros Hc. unfold choice in Hc.
  pose proof (find_best_response_spec self k (available actions_by_agent k) state0)
    as Hs.
  cbv zeta in Hs. fold state0 in Hc. rewrite Hc in Hs.
  destruct Hs as (a1 & a2 & Heq & Hpos & H1 & H2).
  split; [rewrite Heq; apply in_or_app; right; now left |].
  split; [exact Hpos |].
  intros x Hx. rewrite Heq in Hx. apply in_app_or in Hx as [Hx | [<- | Hx]].
  - apply Qlt_le_weak. now apply H1.
  - apply Qle_refl.
  - now apply H2.
Qed.

End Profile.

(** *** The driver: solving over the sample actions, then checking *)

Lemma _get_agent_actions_compat (self : RACIGameValidator) (a a' : Agent) :
  Agent_eqb a a' = true ->
  _get_agent_actions self a = _get_agent_actions self a'.
Proof.
  intros H. apply Agent_eqb_iff in H as (Hid & Ht & Hc & _).
  unfold _get_agent_actions. rewrite Hc. apply map_ext. intros c.
  unfold sample_action. now rewrite Hid, Ht.
Qed.

Lemma sample_actions_lookup (self : RACIGameValidator) (l : list Agent) (q : Agent) :
  existsb (fun a => Agent_eqb a q) l = true ->
  dict_get Agent_eqb
    (fold_left (fun d agent => dict_set Agent_eqb d agent (_get_agent_actions self agent))
       l []) q
  = Some (_get_agent_actions self q).
Proof.
  induction l as [| a l IH] using rev_ind; [discriminate |].
  rewrite existsb_app, fold_left_app. cbn [fold_left existsb].
  rewrite orb_false_r, dict_get_set. intros H.
  destruct (Agent_eqb a q) eqn:E.
  - now rewrite (_get_agent_actions_compat self a q E).
  - rewrite orb_false_r in H. now apply IH.
Qed.

Lemma sample_actions_available (self : RACIGameValidator) (k : Agent) :
  In k (self_agents self) ->
  available (sample_actions_by_agent self) k = _get_agent_actions self k.
Proof.
  intros Hk. unfold available, sample_actions_by_agent.
  rewrite sample_actions_lookup; [reflexivity |].
  apply existsb_exists. exists k. split; [exact Hk | apply Agent_eqb_refl].
Qed.

Lemma filter_none {A : Type} (f : A -> bool) (l : list A) :
  (forall x, In x l -> f x = false) -> filter f l = [].
Proof.
  induction l as [| x l IH]; intros H; cbn [filter]; [reflexivity |].
  rewrite (H x (or_introl eq_refl)). apply IH. intros y Hy. apply H. now right.
Qed.

(** X3.  When every agent is offered its sample actions, as [main] does,
    the profile computed by [stackelberg_equilibrium] always passes
    [check_nash_equilibrium], whatever game state the check is given: no
    deviation is reported. *)
Theorem stackelberg_on_samples_is_nash (self : RACIGameValidator)
  (game_state : GameState) :
  check_nash_equilibrium self game_state
    (stackelberg_equilibrium self (sample_actions_by_agent self))
  = (true, []).
Proof.
  unfold check_nash_equilibrium. rewrite check_agents_spec. cbn [app].
  assert (Hnil : flat_map (deviations_of self game_state)
                   (stackelberg_equilibrium self (sample_actions_by_agent self)) = []).
  { apply flat_map_nil, Forall_forall. intros (k, b) Hin.
    destruct (stackelberg_sound self _ k b Hin) as (Hk & Hc).
    apply choice_best in Hc as (_ & _ & Hmax).
    rewrite (sample_actions_available self k Hk) in Hmax.
    unfold deviations_of.
    rewrite filter_none; [reflexivity |]. intros alt Halt.
    destruct (improves self game_state k b alt) eqn:E; [| reflexivity].
    apply improves_iff in E as (_ & Hlt). specialize (Hmax alt Halt).
    cbn [calculate_payoff payoff] in Hlt, Hmax. lra. }
  rewrite Hnil. reflexivity.
Qed.

(** *** stackelberg_equilibrium: the running totals *)

(** *** detect_raci_conflicts *)

Section StringDict.
Context {V : Type}.

Lemma sdict_get_set (d : list (string * V)) (k q : string) (v : V) :
  dict_get String.eqb (dict_set String.eqb d k v) q
  = if String.eqb k q then Some v else dict_get String.eqb d q.
Proof.
  induction d as [| (k0, v0) d IH]; cbn [dict_set dict_get]; [reflexivity |].
  destruct (String.eqb k0 k) eqn:E0; cbn [dict_get].
  - apply String.eqb_eq in E0. subst k0. now destruct (String.eqb k q).
  - rewrite IH. destruct (String.eqb k q) eqn:Ekq; [| reflexivity].
    apply String.eqb_eq in Ekq. subst q. now rewrite E0.
Qed.

Lemma sdict_set_keys (d : list (string * V)) (k : string) (v : V) :
  map fst (dict_set String.eqb d k v)
  = if existsb (fun k0 => String.eqb k0 k) (map fst d) then map fst d
    else map fst d ++ [k].
Proof.
  induction d as [| (k0, v0) d IH]; cbn [dict_set map fst existsb app];
    [reflexivity |].
  destruct (String.eqb k0 k); cbn [map fst orb]; [reflexivity |].
  rewrite IH. now destruct (existsb _ _).
Qed.

Lemma sdict_set_NoDup (d : list (string * V)) (k : string) (v : V) :
  NoDup (map fst d) -> NoDup (map fst (dict_set String.eqb d k v)).
Proof.
  intros H. rewrite sdict_set_keys.
  destruct (existsb (fun k0 => String.eqb k0 k) (map fst d)) eqn:E; [exact H |].
  apply NoDup_app; [exact H | repeat constructor; intros [] |].
  intros x Hx [Hk | []]. subst x.
  assert (Hex : existsb (fun k0 => String.eqb k0 k) (map fst d) = true).
  { apply existsb_exists. exists k. split; [exact Hx | apply String.eqb_refl]. }
  congruence.
Qed.

Lemma sdict_get_In (d : list (string * V)) (k : string) (v : V) :
  NoDup (map fst d) -> (In (k, v) d <-> dict_get String.eqb d k = Some v).
Proof.
  induction d as [| (k0, v0) d IH]; cbn [map fst dict_get]; intros Hnd.
  - split; [intros [] | discriminate].
  - apply NoDup_cons_iff in Hnd as (Hnotin & Hnd).
    destruct (String.eqb k0 k) eqn:E.
    + apply String.eqb_eq in E. subst k0. split.
      * intros [[= ->] | Hin]; [reflexivity |].
        exfalso. apply Hnotin. apply in_map_iff. now exists (k, v).
      * intros [= ->]. now left.
    + apply String.eqb_neq in E. rewrite <- (IH Hnd). split.
      * intros [[= -> ->] | Hin]; [congruence | exact Hin].
      * intros Hin. now right.
Qed.

End StringDict.

(** The responsibles of the assignments of one control, in order. *)
Definition assigned_to (l : list RACIAssignment) (control : string)
  : list RACIAssignment :=
  filter (fun a => String.eqb (raci_control_id a) control) l.

Definition group_of (l : list RACIAssignment) (control : string)
  : list (option Agent) :=
  map responsible (assigned_to l control).

Lemma group_responsibles_spec (l : list RACIAssignment) :
  NoDup (map fst (group_responsibles l))
  /\ forall control,
       dict_get String.eqb (group_responsibles l) control
       = match assigned_to l control with
         | [] => None
         | _ :: _ => Some (group_of l control)
         end.
Proof.
  unfold group_responsibles. induction l as [| a l (Hnd & IH)] using rev_ind.
  - split; [constructor | reflexivity].
  - rewrite fold_left_app. cbn [fold_left]. unfold add_responsible at 1 3.
    split; [now apply sdict_set_NoDup |].
    intros control. rewrite sdict_get_set, !IH.
    unfold group_of, assigned_to. rewrite !filter_app. cbn [filter].
    destruct (String.eqb (raci_control_id a) control) eqn:E.
    + apply String.eqb_eq in E. subst control.
      destruct (filter _ l) as [| x xs] eqn:F; cbn [app map]; [reflexivity |].
      now rewrite map_app.
    + now rewrite app_nil_r.
Qed.

Lemma group_items (l : list RACIAssignment) (control : string)
  (responsibles : list (option Agent)) :
  In (control, responsibles) (group_responsibles l) <->
  assigned_to l control <> [] /\ responsibles = group_of l control.
Proof.
  destruct (group_responsibles_spec l) as (Hnd & Hget).
  rewrite (sdict_get_In _ _ _ Hnd), Hget.
  destruct (assigned_to l control) eqn:E; split.
  - discriminate.
  - intros (H & _). now contradiction H.
  - intros [= <-]. split; [discriminate | reflexivity].
  - intros (_ & ->). reflexivity.
Qed.

Lemma agent_ids_present (rs : list Agent) :
  agent_ids (map Some rs) = Ok (map agent_id rs).
Proof.
  induction rs as [| r rs IH]; cbn [map agent_ids]; [reflexivity |].
  now rewrite IH.
Qed.

Lemma map_Some_inj {A : Type} (xs ys : list A) :
  map Some xs = map Some ys -> xs = ys.
Proof.
  revert ys. induction xs as [| x xs IH]; intros [| y ys]; cbn [map];
    try discriminate; [reflexivity |].
  intros [= -> H]. now rewrite (IH ys H).
Qed.

Lemma all_present (l : list (option Agent)) :
  Forall (fun r => r <> None) l -> exists rs, l = map Some rs.
Proof.
  induction 1 as [| r l Hr _ (rs & ->)]; [now exists [] |].
  destruct r as [r |]; [| now contradiction Hr]. now exists (r :: rs).
Qed.

(** The second loop: what it adds, and that it returns when no entry
    holds a missing agent. *)
Lemma check_overlaps_spec (items : list (string * list (option Agent)))
  (conflicts : list conflict) :
  Forall (fun item => Forall (fun r => r <> None) (snd item)) items ->
  exists extra,
    check_overlaps items conflicts = Ok (conflicts ++ extra)
    /\ forall x, In x extra <->
         exists control rs,
           In (control, map Some rs) items
           /\ (1 < List.length rs)%nat
           /\ x = overlapping_conflict control (map agent_id rs).
Proof.
  intros H. revert conflicts.
  induction H as [| (control, responsibles) items Hr _ IH]; intros conflicts.
  - exists []. rewrite app_nil_r. split; [reflexivity |].
    intros x. split; [intros [] | intros (c & rs & [] & _)].
  - cbn [snd] in Hr. apply all_present in Hr as (rs & ->).
    cbn [check_overlaps]. rewrite length_map.
    destruct (1 <? List.length rs)%nat eqn:E.
    + rewrite agent_ids_present. cbn [bind].
      destruct (IH (conflicts ++ [overlapping_conflict control (map agent_id rs)]))
        as (extra & Hok & Hin).
      exists (overlapping_conflict control (map agent_id rs) :: extra).
      split; [now rewrite Hok, <- app_assoc |].
      intros x. cbn [In]. rewrite Hin. split.
      * intros [<- | (c & rs' & Hi & Hl & Hx)].
        -- exists control, rs. apply Nat.ltb_lt in E.
           split; [now left | split; [exact E | reflexivity]].
        -- exists c, rs'. split; [now right | split; assumption].
      * intros (c & rs' & [[= <- Hrs] | Hi] & Hl & Hx).
        -- left. apply map_Some_inj in Hrs. now subst.
        -- right. now exists c, rs'.
    + cbn [bind]. destruct (IH conflicts) as (extra & Hok & Hin).
      exists extra. split; [exact Hok |].
      intros x. rewrite Hin. split.
      * intros (c & rs' & Hi & Hl & Hx). exists c, rs'.
        split; [now right | split; assumption].
      * intros (c & rs' & [[= <- Hrs] | Hi] & Hl & Hx).
        -- apply (f_equal (@List.length _)) in Hrs. rewrite !length_map in Hrs.
           apply Nat.ltb_ge in E. lia.
        -- now exists c, rs'.
Qed.

Lemma check_overlaps_count (items : list (string * list (option Agent)))
  (conflicts conflicts' : list conflict) :
  check_overlaps items conflicts = Ok conflicts' ->
  List.length conflicts'
  = (List.length conflicts
     + List.length (filter (fun item => (1 <? List.length (snd item))%nat) items))%nat.
Proof.
  revert conflicts. induction items as [| (control, rs) items IH]; intros conflicts;
    cbn [check_overlaps filter snd].
  - intros [= <-]. cbn. lia.
  - destruct (1 <? List.length rs)%nat.
    + destruct (agent_ids rs) as [ids | e]; cbn [bind]; [| discriminate].
      intros H. apply IH in H. rewrite H, length_app. cbn [List.length]. lia.
    + cbn [bind]. apply IH.
Qed.

Lemma check_overlaps_short (items : list (string * list (option Agent)))
  (conflicts : list conflict) :
  (forall item, In item items -> (List.length (snd item) <= 1)%nat) ->
  check_overlaps items conflicts = Ok conflicts.
Proof.
  induction items as [| (control, rs) items IH]; intros H; cbn [check_overlaps];
    [reflexivity |].
  assert (E : (1 <? List.length rs)%nat = false).
  { apply Nat.ltb_ge. apply (H (control, rs)). now left. }
  rewrite E. cbn [bind]. apply IH. intros item Hi. apply H. now right.
Qed.

Lemma NoDup_controls (l : list RACIAssignment) :
  NoDup (map raci_control_id l) <->
  forall control, (List.length (assigned_to l control) <= 1)%nat.
Proof.
  unfold assigned_to. induction l as [| a l IH]; cbn [map filter].
  - split; [intros _ c; cbn; lia | constructor].
  - rewrite NoDup_cons_iff, IH. split.
    + intros (Hnotin & H) c.
      destruct (String.eqb (raci_control_id a) c) eqn:E; [| apply H].
      apply String.eqb_eq in E. subst c. cbn [List.length].
      rewrite filter_none; [cbn; lia |].
      intros x Hx. apply String.eqb_neq. intros Heq. apply Hnotin.
      rewrite <- Heq. now apply in_map.
    + intros H. split.
      * intros Hin. apply in_map_iff in Hin as (x & Hx & Hin).
        specialize (H (raci_control_id a)). rewrite String.eqb_refl in H.
        cbn [List.length] in H.
        assert (Hf : In x (filter (fun a0 => String.eqb (raci_control_id a0)
                                               (raci_control_id a)) l)).
        { apply filter_In. split; [exact Hin | now apply String.eqb_eq]. }
        destruct (filter _ l); [destruct Hf | cbn [List.length] in H; lia].
      * intros c. specialize (H c).
        destruct (String.eqb (raci_control_id a) c); cbn [List.length] in H; lia.
Qed.

(** The conflicts the third loop adds for one assignment. *)
Definition tier_conflicts_of (a : RACIAssignment) : list conflict :=
  match accountable a, responsible a with
  | Some acc, Some r =>
      if (value (tier acc) <? value (tier r))%Z then [tier_conflict a acc r] else []
  | _, _ => []
  end.

Lemma check_tier_spec (l : list RACIAssignment) (conflicts : list conflict) :
  fold_left check_tier l conflicts = conflicts ++ flat_map tier_conflicts_of l.
Proof.
  revert conflicts. induction l as [| a l IH]; intros conflicts;
    cbn [fold_left flat_map]; [now rewrite app_nil_r |].
  rewrite IH. unfold check_tier, tier_conflicts_of.
  destruct (accountable a) as [acc |], (responsible a) as [r |];
    try reflexivity.
  destruct (value (tier acc) <? value (tier r))%Z; [| reflexivity].
  now rewrite <- app_assoc.
Qed.

Lemma tier_conflicts_of_In (a : RACIAssignment) (x : conflict) :
  In x (tier_conflicts_of a) <->
  exists acc r,
    accountable a = Some acc /\ responsible a = Some r
    /\ (value (tier acc) < value (tier r))%Z
    /\ x = tier_conflict a acc r.
Proof.
  unfold tier_conflicts_of.
  destruct (accountable a) as [acc |], (responsible a) as [r |];
    try (split; [intros [] | intros (acc' & r' & H1 & H2 & _); discriminate]).
  destruct (value (tier acc) <? value (tier r))%Z eqn:E; split.
  - intros [<- | []]. exists acc, r. apply Z.ltb_lt in E. auto.
  - intros (acc' & r' & [= <-] & [= <-] & _ & ->). now left.
  - intros [].
  - intros (acc' & r' & [= <-] & [= <-] & Hlt & _). apply Z.ltb_ge in E. lia.
Qed.

(** X5.  [detect_raci_conflicts] returns the empty list exactly when no
    control is assigned twice and no assignment has an accountable of lower
    tier than its responsible. *)
Theorem detect_raci_conflicts_none (self : RACIGameValidator) :
  detect_raci_conflicts self = Ok [] <->
  NoDup (map raci_control_id (self_raci_assignments self))
  /\ forall a acc r,
       In a (self_raci_assignments self) ->
       accountable a = Some acc -> responsible a = Some r ->
       (value (tier r) <= value (tier acc))%Z.
Proof.
  unfold detect_raci_conflicts. set (l := self_raci_assignments self).
  split.
  - intros H.
    destruct (check_overlaps (group_responsibles l) []) as [cs |] eqn:E;
      cbn [bind] in H; [| discriminate].
    injection H as H. rewrite check_tier_spec in H.
    apply app_eq_nil in H as (-> & Hflat).
    apply check_overlaps_count in E. cbn [List.length Nat.add] in E.
    symmetry in E. apply length_zero_iff_nil in E.
    split.
    + apply NoDup_controls. intros c.
      destruct (assigned_to l c) as [| a0 rest] eqn:Ea; [cbn; lia |].
      assert (Hin : In (c, group_of l c) (group_responsibles l)).
      { apply group_items. split; [congruence | reflexivity]. }
      assert (Hshort : (1 <? List.length (group_of l c))%nat = false).
      { destruct (1 <? List.length (group_of l c))%nat eqn:Eb; [| reflexivity].
        assert (Hf : In (c, group_of l c)
                       (filter (fun item => (1 <? List.length (snd item))%nat)
                          (group_responsibles l)))
          by (apply filter_In; split; [exact Hin | exact Eb]).
        rewrite E in Hf. destruct Hf. }
      apply Nat.ltb_ge in Hshort. unfold group_of in Hshort.
      rewrite length_map, Ea in Hshort. exact Hshort.
    + intros a acc r Ha Hacc Hr. apply Z.nlt_ge. intros Hlt.
      assert (Hx : In (tier_conflict a acc r) (flat_map tier_conflicts_of l)).
      { apply in_flat_map. exists a. split; [exact Ha |].
        apply tier_conflicts_of_In. now exists acc, r. }
      rewrite Hflat in Hx. destruct Hx.
  - intros (Hnd & Htier).
    rewrite check_overlaps_short.
    + cbn [bind]. rewrite check_tier_spec. cbn [app]. f_equal.
      apply flat_map_nil, Forall_forall. intros a Ha.
      destruct (tier_conflicts_of a) as [| x rest] eqn:E; [reflexivity |].
      assert (Hx : In x (tier_conflicts_of a)) by (rewrite E; now left).
      apply tier_conflicts_of_In in Hx as (acc & r & Hacc & Hr & Hlt & _).
      specialize (Htier a acc r Ha Hacc Hr). lia.
    + intros (c, rs) Hin. cbn [snd]. apply group_items in Hin as (_ & ->).
      unfold group_of. rewrite length_map. now apply NoDup_controls.
Qed.

Lemma detect_reports (self : RACIGameValidator) :
  (forall a, In a (self_raci_assignments self) -> responsible a <> None) ->
  exists conflicts,
    detect_raci_conflicts self = Ok conflicts
    /\ forall x, In x conflicts <->
         (exists control rs,
            map responsible (assigned_to (self_raci_assignments self) control)
            = map Some rs
            /\ (1 < List.length rs)%nat
            /\ x = overlapping_conflict control (map agent_id rs))
         \/ (exists a acc r,
               In a (self_raci_assignments self)
               /\ accountable a = Some acc /\ responsible a = Some r
               /\ (value (tier acc) < value (tier r))%Z
               /\ x = tier_conflict a acc r).
Proof.
  intros Hresp. unfold detect_raci_conflicts. set (l := self_raci_assignments self) in *.
  destruct (check_overlaps_spec (group_responsibles l) []) as (extra & Hok & Hin).
  { apply Forall_forall. intros (c, rs) Hi. cbn [snd].
    apply group_items in Hi as (_ & ->). unfold group_of, assigned_to.
    apply Forall_forall. intros r Hr. apply in_map_iff in Hr as (a & <- & Ha).
    apply filter_In in Ha as (Ha & _). now apply Hresp. }
  rewrite Hok. cbn [bind app]. rewrite check_tier_spec.
  eexists. split; [reflexivity |].
  intros x. rewrite in_app_iff, Hin, in_flat_map. split.
  - intros [(c & rs & Hi & Hl & ->) | (a & Ha & Hx)].
    + left. exists c, rs. apply group_items in Hi as (_ & Hg).
      split; [now rewrite Hg | split; [exact Hl | reflexivity]].
    + right. apply tier_conflicts_of_In in Hx as (acc & r & H1 & H2 & H3 & ->).
      exists a, acc, r. auto.
  - intros [(c & rs & Hg & Hl & ->) | (a & acc & r & Ha & H1 & H2 & H3 & ->)].
    + left. exists c, rs. split; [| split; [exact Hl | reflexivity]].
      apply group_items. split; [| now rewrite <- Hg].
      intros Hnil. rewrite Hnil in Hg. destruct rs; [cbn in Hl; lia | discriminate].
    + right. exists a. split; [exact Ha |].
      apply tier_conflicts_of_In. exists acc, r. auto.
Qed.

(** The distinct elements of a list, in the order of their first
    occurrence: the keys of a [dict] filled in that order. *)
Fixpoint first_seen (l : list string) : list string :=
  match l with
  | [] => []
  | c :: l' => c :: filter (fun c' => negb (String.eqb c' c)) (first_seen l')
  end.

(** [[a.agent_id for a in responsibles]], when no agent is missing. *)
Definition responsible_ids (responsibles : list (option Agent)) : list string :=
  flat_map (fun r => match r with
                     | Some agent => [agent_id agent]
                     | None => []
                     end) responsibles.

(** The conflict the second loop reports for one control. *)
Definition overlap_of (l : list RACIAssignment) (control : string) : list conflict :=
  if (1 <? List.length (group_of l control))%nat
  then [overlapping_conflict control (responsible_ids (group_of l control))]
  else [].

Lemma filter_filter {A : Type} (f g : A -> bool) (l : list A) :
  filter f (filter g l) = filter (fun x => g x && f x) l.
Proof.
  induction l as [| x l IH]; cbn [filter]; [reflexivity |].
  destruct (g x); cbn [filter andb]; [| exact IH].
  destruct (f x); now rewrite IH.
Qed.

Lemma keys_first_seen (l seen : list string) :
  fold_left (fun seen c => if existsb (fun k0 => String.eqb k0 c) seen
                           then seen else seen ++ [c]) l seen
  = seen ++ filter (fun c => negb (existsb (fun k0 => String.eqb k0 c) seen))
                   (first_seen l).
Proof.
  revert seen. induction l as [| c l IH]; intros seen;
    cbn [fold_left first_seen filter]; [now rewrite app_nil_r |].
  rewrite IH. destruct (existsb (fun k0 => String.eqb k0 c) seen) eqn:E;
    cbn [negb].
  - f_equal. rewrite filter_filter. apply filter_ext_in. intros x _.
    destruct (String.eqb x c) eqn:Ex; cbn [negb andb]; [| reflexivity].
    apply String.eqb_eq in Ex. subst x. now rewrite E.
  - rewrite <- app_assoc. cbn [app]. do 2 f_equal.
    rewrite filter_filter. apply filter_ext. intros x.
    rewrite existsb_app. cbn [existsb]. rewrite orb_false_r, negb_orb.
    rewrite (String.eqb_sym c x). apply andb_comm.
Qed.

Lemma group_keys (l : list RACIAssignment) :
  map fst (group_responsibles l) = first_seen (map raci_control_id l).
Proof.
  assert (H : forall d,
             map fst (fold_left add_responsible l d)
             = fold_left (fun seen c => if existsb (fun k0 => String.eqb k0 c) seen
                                        then seen else seen ++ [c])
                 (map raci_control_id l) (map fst d)).
  { induction l as [| a l IH]; intros d; cbn [fold_left map]; [reflexivity |].
    rewrite IH. unfold add_responsible. now rewrite sdict_set_keys. }
  unfold group_responsibles. rewrite H, keys_first_seen. cbn [map app existsb negb].
  clear H. induction (first_seen (map raci_control_id l)) as [| c cs IH];
    cbn [filter]; [reflexivity | now rewrite IH].
Qed.

(** The grouping dict, item by item. *)
Lemma group_responsibles_items (l : list RACIAssignment) :
  group_responsibles l
  = map (fun control => (control, group_of l control))
        (first_seen (map raci_control_id l)).
Proof.
  rewrite <- group_keys, map_map.
  rewrite <- (map_id (group_responsibles l)) at 1.
  apply map_ext_in. intros (control, rs) Hin. cbn [fst].
  apply group_items in Hin as (_ & ->). reflexivity.
Qed.

Lemma agent_ids_all (rs : list (option Agent)) :
  Forall (fun r => r <> None) rs -> agent_ids rs = Ok (responsible_ids rs).
Proof.
  induction 1 as [| r rs Hr _ IH]; cbn [agent_ids responsible_ids flat_map];
    [reflexivity |].
  destruct r as [agent |]; [| now contradiction Hr].
  fold (responsible_ids rs). now rewrite IH.
Qed.

Lemma check_overlaps_items (l : list RACIAssignment) (controls : list string)
  (conflicts : list conflict) :
  (forall a, In a l -> responsible a <> None) ->
  check_overlaps (map (fun control => (control, group_of l control)) controls)
    conflicts
  = Ok (conflicts ++ flat_map (overlap_of l) controls).
Proof.
  intros Hresp. revert conflicts.
  induction controls as [| c cs IH]; intros conflicts;
    cbn [map check_overlaps flat_map]; [now rewrite app_nil_r |].
  unfold overlap_of at 1.
  destruct (1 <? List.length (group_of l c))%nat.
  - rewrite agent_ids_all.
    + cbn [bind]. now rewrite IH, <- app_assoc.
    + unfold group_of, assigned_to. apply Forall_forall. intros r Hr.
      apply in_map_iff in Hr as (a & <- & Ha).
      apply filter_In in Ha as (Ha & _). now apply Hresp.
  - cbn [bind app]. apply IH.
Qed.

(** X6.  When every assignment names a responsible agent,
    [detect_raci_conflicts] returns, and its list is: for each control
    assigned more than once, in the order the controls first appear, one
    overlapping_responsible conflict listing the ids of the responsible
    agents in assignment order; then, for each assignment whose accountable
    has a lower tier than its responsible, in assignment order, one
    tier_hierarchy_violation conflict; and nothing else. *)
Theorem detect_raci_conflicts_reports (self : RACIGameValidator) :
  (forall a, In a (self_raci_assignments self) -> responsible a <> None) ->
  let l := self_raci_assignments self in
  detect_raci_conflicts self
  = Ok (flat_map
          (fun control =>
             if (1 <? List.length (assigned_to l control))%nat
             then [overlapping_conflict control
                     (responsible_ids (map responsible (assigned_to l control)))]
             else [])
          (first_seen (map raci_control_id l))
        ++ flat_map
             (fun a =>
                match accountable a, responsible a with
                | Some acc, Some r =>
                    if (value (tier acc) <? value (tier r))%Z
                    then [tier_conflict a acc r] else []
                | _, _ => []
                end) l).
Proof.
  intros Hresp l. unfold detect_raci_conflicts. fold l.
  rewrite group_responsibles_items, (check_overlaps_items l _ [] Hresp).
  cbn [bind app]. rewrite check_tier_spec. do 2 f_equal.
  apply flat_map_ext. intros control. unfold overlap_of, group_of.
  now rewrite length_map.
Qed.

Lemma detect_raci_conflicts_reports_witness :
  (forall a, In a (self_raci_assignments overlapping_validator) ->
             responsible a <> None)
  /\ detect_raci_conflicts overlapping_validator
     = Ok [overlapping_conflict "APP-001" ["security-agent"; "ops-agent"]%string].
Proof.
  assert (H : forall a, In a (self_raci_assignments overlapping_validator) ->
                        responsible a <> None)
    by (intros a [<- | [<- | []]]; discriminate).
  split; [exact H |].
  rewrite (detect_raci_conflicts_reports overlapping_validator H).
  vm_compute. reflexivity.
Defined.

Example overlapping_validator_conflicts :
  detect_raci_conflicts overlapping_validator
  = Ok [overlapping_conflict "APP-001" ["security-agent"; "ops-agent"]%string].
Proof. vm_compute. reflexivity. Qed.

(** [conflict['type']] *)
Definition conflict_type (x : conflict) : option pyval :=
  dict_get String.eqb x "type"%string.

(** X7.  On a matrix that [validate_raci_constraints] accepts,
    [detect_raci_conflicts] returns, and every tier_hierarchy_violation it
    reports is a tier-3 accountable over a tier-4 responsible: the two
    checks together leave no other inversion. *)
Theorem validated_matrix_tier_conflicts (self : RACIGameValidator)
  (violations : list string) :
  validate_raci_constraints self = Ok (true, violations) ->
  exists conflicts,
    detect_raci_conflicts self = Ok conflicts
    /\ forall x,
         In x conflicts ->
         conflict_type x = Some (PStr "tier_hierarchy_violation"%string) ->
         exists a acc r,
           In a (self_raci_assignments self)
           /\ accountable a = Some acc /\ responsible a = Some r
           /\ tier acc = TIER3_OPERATIONS /\ tier r = TIER4_ARCHITECT
           /\ x = tier_conflict a acc r.
Proof.
  intros Hv. rewrite validate_raci_constraints_spec in Hv.
  destruct (existsb both_missing (self_raci_assignments self)); [discriminate |].
  injection Hv as Hlen _. apply length_eqb_nil, flat_map_nil in Hlen.
  rewrite Forall_forall in Hlen.
  assert (Hrules : forall a, In a (self_raci_assignments self) -> raci_rules a).
  { intros a Ha. apply violations_of_nil. now apply Hlen. }
  destruct (detect_reports self) as (cs & Hok & Hin).
  { intros a Ha. destruct (Hrules a Ha) as (r & _ & Hr & _). congruence. }
  exists cs. split; [exact Hok |].
  intros x Hx Hty. apply Hin in Hx as [(c & rs & _ & _ & ->) | Hx].
  - cbn in Hty. discriminate.
  - destruct Hx as (a & acc & r & Ha & Hacc & Hr & Hlt & ->).
    exists a, acc, r.
    destruct (Hrules a Ha) as (r' & acc' & Hr' & Hacc' & _ & H3).
    rewrite Hacc in Hacc'. injection Hacc' as <-.
    pose proof (value_range (tier r)) as Rr.
    repeat split; try assumption; apply value_inj; cbn [value]; lia.
Qed.

Lemma validated_matrix_tier_conflicts_witness :
  exists conflicts,
    detect_raci_conflicts (validator_of [inverted_assignment]) = Ok conflicts
    /\ forall x,
         In x conflicts ->
         conflict_type x = Some (PStr "tier_hierarchy_violation"%string) ->
         exists a acc r,
           In a (self_raci_assignments (validator_of [inverted_assignment]))
           /\ accountable a = Some acc /\ responsible a = Some r
           /\ tier acc = TIER3_OPERATIONS /\ tier r = TIER4_ARCHITECT
           /\ x = tier_conflict a acc r.
Proof.
  apply (validated_matrix_tier_conflicts (validator_of [inverted_assignment]) []).
  vm_compute. reflexivity.
Defined.

(** *** Sample actions are profitable *)

Lemma bonus_of_nonneg (agent : Agent) (action : Action) (a : RACIAssignment) :
  0 <= bonus_of agent action a.
Proof.
  unfold bonus_of.
  destruct (String.eqb _ _); [| lra].
  destruct (opt_Agent_eqb _ _); [lra |].
  destruct (existsb _ _); lra.
Qed.

Lemma cooperation_bonus_nonneg (self : RACIGameValidator) (agent : Agent)
  (action : Action) :
  0 <= cooperation_bonus self agent action.
Proof.
  rewrite cooperation_bonus_sum. unfold Qsum.
  induction (self_raci_assignments self) as [| a l IH]; cbn [map fold_right];
    [lra |].
  pose proof (bonus_of_nonneg agent action a). lra.
Qed.

Lemma sample_action_payoff (self : RACIGameValidator) (agent : Agent)
  (control : string) (g : GameState) :
  payoff (calculate_payoff self agent (sample_action agent control) g)
  == 5 - cost_per_action agent - 0.3 * (1 - risk_tolerance agent)
     + cooperation_bonus self agent (sample_action agent control).
Proof.
  cbn [calculate_payoff payoff sample_action compliance_value cost risk]. ring.
Qed.

(** X21.  When every agent is offered its sample actions, an agent of the
    validator that has at least one control, a cost per action below 4.7
    and a risk tolerance of at least 0 always gets an action in the profile
    of [stackelberg_equilibrium]: one of its sample actions. *)
Theorem sample_actions_always_taken (self : RACIGameValidator) (agent : Agent) :
  In agent (self_agents self) ->
  controls agent <> [] ->
  cost_per_action agent < 4.7 ->
  0 <= risk_tolerance agent ->
  exists action,
    dict_get Agent_eqb
      (stackelberg_equilibrium self (sample_actions_by_agent self)) agent
    = Some action
    /\ In action (_get_agent_actions self agent).
Proof.
  intros Hin Hc Hcost Hrisk.
  rewrite (stackelberg_profile self (sample_actions_by_agent self) agent Hin).
  pose proof (sample_actions_available self agent Hin) as Hav.
  set (state0 := new_GameState (self_agents self) (self_raci_assignments self)).
  fold (choice self (sample_actions_by_agent self) agent).
  destruct (choice self (sample_actions_by_agent self) agent) as [b |] eqn:E.
  - exists b. split; [reflexivity |].
    apply choice_best in E as (Hb & _). now rewrite Hav in Hb.
  - exfalso. unfold choice in E.
    pose proof (find_best_response_spec self agent
                  (available (sample_actions_by_agent self) agent) state0) as Hs.
    cbv zeta in Hs. fold state0 in E. rewrite E, Hav in Hs.
    destruct (controls agent) as [| c cs] eqn:Ec; [now contradiction Hc |].
    specialize (Hs (sample_action agent c)).
    unfold _get_agent_actions in Hs. rewrite Ec in Hs.
    specialize (Hs (or_introl eq_refl)).
    rewrite sample_action_payoff in Hs.
    pose proof (cooperation_bonus_nonneg self agent (sample_action agent c)). lra.
Qed.

Lemma sample_actions_always_taken_witness :
  exists action,
    dict_get Agent_eqb
      (stackelberg_equilibrium demo_validator (sample_actions_by_agent demo_validator))
      dev_agent
    = Some action
    /\ In action (_get_agent_actions demo_validator dev_agent).
Proof.
  apply (sample_actions_always_taken demo_validator dev_agent).
  - right. right. right. left. reflexivity.
  - discriminate.
  - vm_compute. reflexivity.
  - vm_compute. discriminate.
Defined.

End RaciGameMore.

(** ** Further properties of the cooperative improvement validator *)

Module CooperativeMore.
Import PyFacts Cooperative CooperativeProps ParetoSet.

(** *** validate_pareto_improvement and the derived quantities *)






(** A proposal that saves 10 for a cost of 50. *)
Definition loss_proposal : Proposal :=
  {| proposal_id := "PROP-LOSS"; agent_id := "dev-agent"; agent_tier := 2;
     proposal_type := COST_REDUCTION;
     title := ""; description := ""; current_state := ""; proposed_state := "";
     metrics := {| cost_savings_usd := 10.0; time_savings_hours := 0.0;
                   quality_improvement_pct := 0.0; risk_reduction_pct := 0.0;
                   compliance_score_delta := 0.0 |};
     affected_controls := [];
     implementation_cost_usd := 50.0;
     implementation_time_hours := 1.0;
     risk_assessment := "";
     submitted_at := 0;
     jira_cr_id := None |}.


(** *** validate_truthful_reporting *)

Lemma filter_length_perm {A : Type} (f : A -> bool) (l l' : list A) :
  Permutation l l' -> List.length (filter f l) = List.length (filter f l').
Proof.
  induction 1 as [| x l l' _ IH | x y l | l l' l'' _ IH1 _ IH2]; cbn [filter].
  - reflexivity.
  - destruct (f x); cbn [List.length]; now rewrite IH.
  - destruct (f x), (f y); reflexivity.
  - now rewrite IH1.
Qed.

Lemma truthful_counts (proposal q q' : Proposal) (hs hs' : list Proposal) :
  List.length (q :: hs) = List.length (q' :: hs') ->
  List.length (filter is_cost_error (q :: hs))
  = List.length (filter is_cost_error (q' :: hs')) ->
  List.length (filter is_time_error (q :: hs))
  = List.length (filter is_time_error (q' :: hs')) ->
  validate_truthful_reporting proposal (q :: hs)
  = validate_truthful_reporting proposal (q' :: hs').
Proof.
  intros H1 H2 H3. unfold validate_truthful_reporting, flen.
  rewrite !length_map, H1, H2, H3. reflexivity.
Qed.

(** X10.  [validate_truthful_reporting] does not depend on the order of
    the history: a permutation of it gives the same score and the same
    warnings. *)
Theorem truthful_reporting_order_free (proposal : Proposal)
  (history history' : list Proposal) :
  Permutation history history' ->
  validate_truthful_reporting proposal history
  = validate_truthful_reporting proposal history'.
Proof.
  intros H.
  destruct history as [| q hs], history' as [| q' hs'].
  - reflexivity.
  - apply Permutation_length in H. discriminate.
  - apply Permutation_length in H. discriminate.
  - apply truthful_counts.
    + now apply Permutation_length.
    + now apply filter_length_perm.
    + now apply filter_length_perm.
Qed.

Lemma truthful_reporting_order_free_witness :
  validate_truthful_reporting costly_claim [demo_proposal; loss_proposal]
  = validate_truthful_reporting costly_claim [loss_proposal; demo_proposal].
Proof.
  apply (truthful_reporting_order_free costly_claim
           [demo_proposal; loss_proposal] [loss_proposal; demo_proposal]).
  apply perm_swap.
Defined.

(** X11.  [validate_truthful_reporting] returns the full score 1.0
    exactly when it returns no warning; in particular an agent without
    history never gets the full score. *)
Theorem truthful_full_score_iff_no_warning (proposal : Proposal)
  (history : list Proposal) :
  fst (validate_truthful_reporting proposal history) == 1
  <-> snd (validate_truthful_reporting proposal history) = [].
Proof.
  destruct history as [| q hs].
  - cbn. split; [intros H; vm_compute in H; discriminate | discriminate].
  - unfold validate_truthful_reporting.
    destruct (Qltb (flen (q :: hs) * 0.3)
                (flen (map proposal_id (filter is_cost_error (q :: hs))))),
             (Qltb (flen (q :: hs) * 0.3)
                (flen (map proposal_id (filter is_time_error (q :: hs))))),
             (is_red_flag proposal); cbn [fst snd app];
      (split; [intros H; vm_compute in H; try discriminate; reflexivity
              | intros H; try discriminate; vm_compute; reflexivity]).
Qed.

(** *** complexity_score and the review bounds *)

(** X12.  For a proposal with non-negative implementation time and cost,
    [complexity_score] lies between 0 and 100. *)
Theorem complexity_score_range (p : Proposal) :
  0 <= implementation_time_hours p ->
  0 <= implementation_cost_usd p ->
  0 <= complexity_score p <= 100.
Proof.
  intros Ht Hc. now destruct (complexity_score_nonneg_inputs p Ht Hc).
Qed.

Lemma complexity_score_range_witness :
  0 <= complexity_score demo_proposal <= 100.
Proof.
  apply (complexity_score_range demo_proposal); vm_compute; discriminate.
Defined.

(** X13.  [complexity_score] does not decrease when the number of
    affected controls, the implementation time, the implementation cost and
    the length of the description do not decrease; it never exceeds 100. *)
Theorem complexity_score_monotone (p p' : Proposal) :
  (List.length (affected_controls p) <= List.length (affected_controls p'))%nat ->
  implementation_time_hours p <= implementation_time_hours p' ->
  implementation_cost_usd p <= implementation_cost_usd p' ->
  (String.length (description p) <= String.length (description p'))%nat ->
  complexity_score p <= complexity_score p' /\ complexity_score p' <= 100.
Proof.
  intros Hn Ht Hc Hk. split; [| apply complexity_score_le_100].
  rewrite (complexity_score_sum p), (complexity_score_sum p').
  now apply complexity_sum_monotone.
Qed.

Lemma complexity_score_monotone_witness :
  complexity_score loss_proposal <= complexity_score demo_proposal
  /\ complexity_score demo_proposal <= 100.
Proof.
  apply (complexity_score_monotone loss_proposal demo_proposal);
    vm_compute; solve [discriminate | lia].
Defined.

(** X14.  For a proposal with non-negative implementation time and cost,
    the two duration tests of [validate_review_diligence] exclude each
    other: a review is never both too short and excessively long, so at most
    three issues are reported. *)
Theorem duration_flags_exclusive (p : Proposal) (r : HumanReview) :
  0 <= implementation_time_hours p ->
  0 <= implementation_cost_usd p ->
  ~ (too_short p r = true /\ too_long p r = true)
  /\ (List.length (snd (validate_review_diligence p r)) <= 3)%nat.
Proof.
  intros Ht Hc. destruct (complexity_score_nonneg_inputs p Ht Hc) as (_ & H0 & _).
  assert (Hex : ~ (too_short p r = true /\ too_long p r = true)).
  { intros (Hs & Hl). apply too_short_iff in Hs. apply too_long_iff in Hl. lra. }
  split; [exact Hex |].
  assert (Hst : ~ (thin_approval r = true /\ bare_rejection r = true)).
  { intros (Ha & Hb). apply thin_approval_iff in Ha as (Ha & _).
    apply bare_rejection_iff in Hb as (Hb & _). congruence. }
  unfold validate_review_diligence. cbn [snd].
  destruct (too_short p r), (too_long p r), (thin_approval r), (bare_rejection r),
    (low_engagement r); cbn [app List.length]; try lia;
    first [exfalso; apply Hex; now split | exfalso; apply Hst; now split].
Qed.

(** The review of [main]: an approval after 25 minutes, with three
    questions, two documents and a substantive comment. *)
Definition demo_review : HumanReview :=
  {| review_id := "REV-2025-001";
     reviewer_id := "change-manager@company.com";
     reviewer_role := "Change Manager";
     review_proposal_id := "PROP-2025-001";
     status := APPROVED;
     review_start_time := 0;
     review_end_time := Some 1500;
     review_duration_minutes := 25.0;
     comments := "Reviewed proposal thoroughly. Verified test results in dev environment. Cost savings projection validated against CloudWatch metrics.";
     approval_signature := Some "sha256:abc123..."%string;
     concerns_raised := [];
     questions_asked := 3;
     documents_reviewed := ["cloudwatch-metrics.pdf"; "test-results.json"]%string |}.

Example demo_review_is_diligent :
  validate_review_diligence demo_proposal demo_review = (true, []).
Proof. vm_compute. reflexivity. Qed.

Lemma duration_flags_exclusive_witness :
  ~ (too_short demo_proposal demo_review = true
     /\ too_long demo_proposal demo_review = true)
  /\ (List.length (snd (validate_review_diligence demo_proposal demo_review)) <= 3)%nat.
Proof.
  apply (duration_flags_exclusive demo_proposal demo_review);
    vm_compute; discriminate.
Defined.

(** *** find_pareto_optimal_set *)




(** The proposals [validate_pareto_improvement] accepts. *)
Definition accepted (p : Proposal) : bool :=
  match validate_pareto_improvement p with
  | Ok (ok, _) => ok
  | Raise _ => false
  end.

















Example selection_demo :
  find_pareto_optimal_set [loss_proposal; demo_proposal] 100 = Ok [demo_proposal]
  /\ find_pareto_optimal_set [loss_proposal; demo_proposal] 49 = Ok [].
Proof. split; vm_compute; reflexivity. Qed.


End CooperativeMore.

(* ================================================================= *)
(** * Properties in double precision *)

(** ** The order of binary64 numbers *)

Module F64.
Local Open Scope float_scope.

(** A key on which the comparison of two numbers is the lexicographic
    order: the sign class, then the exponent, then the mantissa (both
    counted downwards for negative numbers). *)
Definition rank (x : spec_float) : Z * Z * Z :=
  match x with
  | S754_zero _ => (0, 0, 0)
  | S754_infinity false => (2, 0, 0)
  | S754_infinity true => (-2, 0, 0)
  | S754_nan => (3, 0, 0)
  | S754_finite false m e => (1, e, Zpos m)
  | S754_finite true m e => (-1, - e, Zneg m)
  end%Z.

Definition lex_lt (p q : Z * Z * Z) : Prop :=
  let '(a, b, c) := p in
  let '(a', b', c') := q in
  (a < a' \/ (a = a' /\ (b < b' \/ (b = b' /\ c < c'))))%Z.

Definition nan_free (x : spec_float) : Prop := x <> S754_nan.

(** [x] is not NaN: [x == x] holds.  The comparisons [<] and [<=] are
    false as soon as one side is NaN; on the other numbers they are a
    total order. *)
Definition ordered (x : float) : Prop := (x =? x) = true.

Lemma compare_cont_Eq (m1 m2 : positive) :
  PosDef.Pos.compare_cont Eq m1 m2 = Pos.compare m1 m2.
Proof. reflexivity. Qed.

Lemma SFltb_rank (x y : spec_float) :
  SFltb x y = true <-> nan_free x /\ nan_free y /\ lex_lt (rank x) (rank y).
Proof.
  unfold SFltb, nan_free.
  destruct x as [s1 | s1 | | s1 m1 e1], y as [s2 | s2 | | s2 m2 e2]; cbn;
    try destruct s1; try destruct s2; cbn;
    try (split; [discriminate | intros (H1 & H2 & H3); try congruence; lia]);
    try (split; [intros _; repeat split; try discriminate; lia | reflexivity]).
  all: rewrite ?compare_cont_Eq.
  all: destruct (Z.compare_spec e1 e2) as [He | He | He];
       destruct (Pos.compare_spec m1 m2) as [Hm | Hm | Hm]; cbn;
       split; try discriminate; try reflexivity;
       try (intros _; repeat split; try discriminate; lia);
       try (intros (_ & _ & H); exfalso; subst; lia).
Qed.

Lemma SFleb_rank (x y : spec_float) :
  SFleb x y = true <->
  nan_free x /\ nan_free y /\ (lex_lt (rank x) (rank y) \/ rank x = rank y).
Proof.
  unfold SFleb, nan_free.
  destruct x as [s1 | s1 | | s1 m1 e1], y as [s2 | s2 | | s2 m2 e2]; cbn;
    try destruct s1; try destruct s2; cbn;
    try (split; [discriminate | intros (H1 & H2 & [H3 | H3]); try congruence; try lia; discriminate]);
    try (split; [intros _; repeat split; try discriminate; (left; lia) || (right; reflexivity) | reflexivity]).
  all: rewrite ?compare_cont_Eq.
  all: destruct (Z.compare_spec e1 e2) as [He | He | He];
       destruct (Pos.compare_spec m1 m2) as [Hm | Hm | Hm]; cbn;
       split; try discriminate; try reflexivity;
       try (intros _; repeat split; try discriminate; subst; ((left; lia) || (right; reflexivity)));
       try (intros (_ & _ & [H | H]); exfalso; subst; try lia; injection H; intros; lia).
Qed.

Lemma SFeqb_refl (x : spec_float) : SFeqb x x = true <-> nan_free x.
Proof.
  unfold SFeqb, nan_free.
  destruct x as [s | s | | s m e]; cbn; try destruct s; cbn;
    rewrite ?compare_cont_Eq, ?Z.compare_refl, ?Pos.compare_refl; cbn;
    split; congruence.
Qed.

Lemma lex_lt_trans (p q r : Z * Z * Z) : lex_lt p q -> lex_lt q r -> lex_lt p r.
Proof.
  destruct p as [[a b] c], q as [[a' b'] c'], r as [[a'' b''] c'']; cbn; lia.
Qed.

Lemma lex_lt_irrefl (p : Z * Z * Z) : ~ lex_lt p p.
Proof. destruct p as [[a b] c]; cbn; lia. Qed.

Lemma lex_total (p q : Z * Z * Z) : lex_lt p q \/ p = q \/ lex_lt q p.
Proof.
  destruct p as [[a b] c], q as [[a' b'] c']; cbn.
  destruct (Z.lt_total a a') as [H | [H | H]]; [lia | | lia].
  destruct (Z.lt_total b b') as [H1 | [H1 | H1]]; [lia | | lia].
  destruct (Z.lt_total c c') as [H2 | [H2 | H2]]; [lia | | lia].
  right; left; congruence.
Qed.

Lemma ltb_rank (x y : float) :
  (x <? y) = true <->
  nan_free (Prim2SF x) /\ nan_free (Prim2SF y)
  /\ lex_lt (rank (Prim2SF x)) (rank (Prim2SF y)).
Proof. rewrite ltb_spec. apply SFltb_rank. Qed.

Lemma leb_rank (x y : float) :
  (x <=? y) = true <->
  nan_free (Prim2SF x) /\ nan_free (Prim2SF y)
  /\ (lex_lt (rank (Prim2SF x)) (rank (Prim2SF y))
      \/ rank (Prim2SF x) = rank (Prim2SF y)).
Proof. rewrite leb_spec. apply SFleb_rank. Qed.

Lemma ordered_nan_free (x : float) : ordered x <-> nan_free (Prim2SF x).
Proof. unfold ordered. rewrite FloatAxioms.eqb_spec. apply SFeqb_refl. Qed.

Lemma ltb_ordered (x y : float) : (x <? y) = true -> ordered x /\ ordered y.
Proof. rewrite ltb_rank, !ordered_nan_free. tauto. Qed.

Lemma leb_ordered (x y : float) : (x <=? y) = true -> ordered x /\ ordered y.
Proof. rewrite leb_rank, !ordered_nan_free. tauto. Qed.

Lemma ltb_trans (x y z : float) :
  (x <? y) = true -> (y <? z) = true -> (x <? z) = true.
Proof.
  rewrite !ltb_rank. intros (Hx & Hy & H) (_ & Hz & H').
  eauto using lex_lt_trans.
Qed.

Lemma leb_ltb_trans (x y z : float) :
  (x <=? y) = true -> (y <? z) = true -> (x <? z) = true.
Proof.
  rewrite leb_rank, !ltb_rank. intros (Hx & Hy & [H | H]) (_ & Hz & H').
  - eauto using lex_lt_trans.
  - rewrite H. auto.
Qed.

Lemma ltb_leb_trans (x y z : float) :
  (x <? y) = true -> (y <=? z) = true -> (x <? z) = true.
Proof.
  rewrite leb_rank, !ltb_rank. intros (Hx & Hy & H) (_ & Hz & [H' | H']).
  - eauto using lex_lt_trans.
  - rewrite <- H'. auto.
Qed.

Lemma leb_trans (x y z : float) :
  (x <=? y) = true -> (y <=? z) = true -> (x <=? z) = true.
Proof.
  rewrite !leb_rank. intros (Hx & Hy & [H | H]) (_ & Hz & [H' | H']);
    (split; [assumption | split; [assumption |]]).
  - left. eauto using lex_lt_trans.
  - left. rewrite <- H'. assumption.
  - left. rewrite H. assumption.
  - right. congruence.
Qed.

Lemma ltb_leb (x y : float) : (x <? y) = true -> (x <=? y) = true.
Proof. rewrite leb_rank, ltb_rank. tauto. Qed.

Lemma ltb_not_leb (x y : float) : (x <? y) = true -> (y <=? x) = false.
Proof.
  rewrite ltb_rank. intros (Hx & Hy & H).
  apply not_true_is_false. rewrite leb_rank. intros (_ & _ & [H' | H']).
  - exact (lex_lt_irrefl _ (lex_lt_trans _ _ _ H H')).
  - rewrite H' in H. exact (lex_lt_irrefl _ H).
Qed.

Lemma leb_not_ltb (x y : float) : (x <=? y) = true -> (y <? x) = false.
Proof.
  intros H. apply not_true_is_false. intros H'.
  apply ltb_not_leb in H'. congruence.
Qed.

Lemma ltb_irrefl (x : float) : (x <? x) = false.
Proof.
  apply not_true_is_false. rewrite ltb_rank. intros (_ & _ & H).
  exact (lex_lt_irrefl _ H).
Qed.

Lemma not_ltb_leb (x y : float) :
  ordered x -> ordered y -> (x <? y) = false -> (y <=? x) = true.
Proof.
  rewrite !ordered_nan_free. intros Hx Hy H. rewrite leb_rank.
  split; [assumption | split; [assumption |]].
  destruct (lex_total (rank (Prim2SF x)) (rank (Prim2SF y))) as [L | [L | L]].
  - exfalso. apply not_true_iff_false in H. apply H. rewrite ltb_rank. auto.
  - right. symmetry. assumption.
  - left. assumption.
Qed.

Lemma not_leb_ltb (x y : float) :
  ordered x -> ordered y -> (x <=? y) = false -> (y <? x) = true.
Proof.
  rewrite !ordered_nan_free. intros Hx Hy H. rewrite ltb_rank.
  split; [assumption | split; [assumption |]].
  destruct (lex_total (rank (Prim2SF x)) (rank (Prim2SF y))) as [L | [L | L]].
  - exfalso. apply not_true_iff_false in H. apply H. rewrite leb_rank. auto.
  - exfalso. apply not_true_iff_false in H. apply H. rewrite leb_rank. auto.
  - assumption.
Qed.

Lemma leb_refl (x : float) : ordered x -> (x <=? x) = true.
Proof. intros H. apply not_ltb_leb; auto using ltb_irrefl. Qed.



Lemma unordered_leb_l (x y : float) : (x =? x) = false -> (x <=? y) = false.
Proof.
  intros H. apply not_true_is_false. intros H'. apply leb_ordered in H'.
  unfold ordered in H'. destruct H'. congruence.
Qed.

Lemma unordered_leb_r (x y : float) : (y =? y) = false -> (x <=? y) = false.
Proof.
  intros H. apply not_true_is_false. intros H'. apply leb_ordered in H'.
  unfold ordered in H'. destruct H'. congruence.
Qed.

End F64.

(** ** RACI game validator, binary64 *)

Module RaciGame64Props.
Import Py PyFacts F64 Py64 RaciGame64.
Local Open Scope float_scope.

(** *** check_nash_equilibrium *)

(** The deviations reported for one item of the action profile. *)
Definition reported_deviations (self : RACIGameValidator) (game_state : GameState)
  (item : Agent * Action) : list string :=
  let (agent, current_action) := item in
  map (fun alt_action =>
         msg_deviation agent
           (calculate_payoff self agent current_action game_state)
           (calculate_payoff self agent alt_action game_state))
      (filter (improves self game_state agent current_action)
              (_get_agent_actions self agent)).

Lemma check_agent_reports (self : RACIGameValidator) (game_state : GameState)
  (vs : list string) (item : Agent * Action) :
  check_agent self game_state vs item
  = vs ++ reported_deviations self game_state item.
Proof.
  destruct item as (agent, cur). unfold check_agent, reported_deviations.
  apply (RaciGameProps.fold_append_filter (improves self game_state agent cur)).
Qed.

Lemma check_agents_report (self : RACIGameValidator) (game_state : GameState)
  (profile : list (Agent * Action)) (vs : list string) :
  fold_left (check_agent self game_state) profile vs
  = vs ++ flat_map (reported_deviations self game_state) profile.
Proof.
  revert vs. induction profile as [| item profile IH]; intros vs;
    cbn [fold_left flat_map].
  - now rewrite app_nil_r.
  - now rewrite IH, check_agent_reports, app_assoc.
Qed.

Lemma improves_test (self : RACIGameValidator) (game_state : GameState)
  (agent : Agent) (cur alt : Action) :
  improves self game_state agent cur alt = true <->
  Action_eqb alt cur = false
  /\ (payoff (calculate_payoff self agent cur game_state) + 0.01
      <? payoff (calculate_payoff self agent alt game_state)) = true.
Proof.
  unfold improves. now rewrite andb_true_iff, negb_true_iff.
Qed.

(** An agent whose only sample action pays exactly the double 2.97, playing
    an action that pays the double 2.96. *)
Definition boundary_agent : Agent :=
  {| agent_id := "a"; tier := RaciGame.TIER1_OBSERVER; controls := ["C"]%string;
     cost_per_action := 5.0 - 2.97; risk_tolerance := 1.0 |}.

Definition boundary_action : Action :=
  {| action_id := "cur"; control_id := "D"; description := "";
     cost := 0.0; risk := 0.0; compliance_value := 2.96;
     requires_approval := false |}.

Definition boundary_validator : RACIGameValidator :=
  {| self_agents := [boundary_agent]; self_raci_assignments := [] |}.

(** The sum [2.96 + 0.01] is the double 2.9699999999999998, below the double
    2.97: the sample action is reported. *)
Example boundary_deviation :
  check_nash_equilibrium boundary_validator (new_GameState [boundary_agent] [])
    [(boundary_agent, boundary_action)]
  = (false,
     ["Agent a can improve from cur (payoff=2.96) to a_C_execute (payoff=2.97)"%string]).
Proof. vm_compute. reflexivity. Qed.

(** C3.  [check_nash_equilibrium] visits every item of the profile and every
    candidate action of its agent: the list it returns is, item after item,
    one message per candidate that differs from the current action and
    whose payoff is greater than the sum, computed in double precision, of
    the current payoff and 0.01.  So an agent gets a deviation exactly when
    such a candidate exists, a candidate whose payoff is at most that sum is
    never reported, and is_equilibrium is true exactly when the list is
    empty. *)
Theorem check_nash_equilibrium_complete (self : RACIGameValidator)
  (game_state : GameState) (profile : list (Agent * Action)) :
  let pay agent action := payoff (calculate_payoff self agent action game_state) in
  let result := check_nash_equilibrium self game_state profile in
  snd result = flat_map (reported_deviations self game_state) profile
  /\ (fst result = true <-> snd result = [])
  /\ (forall agent cur,
        reported_deviations self game_state (agent, cur) <> [] <->
        exists alt, In alt (_get_agent_actions self agent)
                    /\ Action_eqb alt cur = false
                    /\ (pay agent cur + 0.01 <? pay agent alt) = true)
  /\ (forall msg,
        In msg (snd result) <->
        exists agent cur alt,
          In (agent, cur) profile
          /\ In alt (_get_agent_actions self agent)
          /\ Action_eqb alt cur = false
          /\ (pay agent cur + 0.01 <? pay agent alt) = true
          /\ msg = msg_deviation agent
                     (calculate_payoff self agent cur game_state)
                     (calculate_payoff self agent alt game_state))
  /\ (forall agent cur alt,
        (pay agent alt <=? pay agent cur + 0.01) = true ->
        improves self game_state agent cur alt = false)
  /\ (fst result = true <->
        forall agent cur alt,
          In (agent, cur) profile ->
          In alt (_get_agent_actions self agent) ->
          Action_eqb alt cur = false ->
          (pay agent cur + 0.01 <? pay agent alt) = false).
Proof.
  intros pay result.
  assert (Hsnd : snd result = flat_map (reported_deviations self game_state) profile).
  { unfold result, check_nash_equilibrium. cbn [snd].
    now rewrite check_agents_report. }
  assert (Hfst : fst result = true <-> snd result = []).
  { unfold result, check_nash_equilibrium. cbn [fst snd]. apply length_eqb_nil. }
  assert (Hdev : forall agent cur,
             reported_deviations self game_state (agent, cur) <> [] <->
             exists alt, In alt (_get_agent_actions self agent)
                         /\ Action_eqb alt cur = false
                         /\ (pay agent cur + 0.01 <? pay agent alt) = true).
  { intros agent cur. unfold reported_deviations. split.
    - intros H.
      destruct (filter (improves self game_state agent cur)
                  (_get_agent_actions self agent)) as [| alt rest] eqn:E;
        [now contradiction H |].
      assert (Hin : In alt (filter (improves self game_state agent cur)
                              (_get_agent_actions self agent)))
        by (rewrite E; now left).
      apply filter_In in Hin as (Hin & Himp). apply improves_test in Himp.
      exists alt. tauto.
    - intros (alt & Hin & Hne & Hlt) H.
      apply map_eq_nil in H.
      assert (Hf : In alt (filter (improves self game_state agent cur)
                             (_get_agent_actions self agent))).
      { apply filter_In. split; [exact Hin |]. apply improves_test. now split. }
      rewrite H in Hf. exact Hf. }
  assert (Hmsg : forall msg,
             In msg (snd result) <->
             exists agent cur alt,
               In (agent, cur) profile
               /\ In alt (_get_agent_actions self agent)
               /\ Action_eqb alt cur = false
               /\ (pay agent cur + 0.01 <? pay agent alt) = true
               /\ msg = msg_deviation agent
                          (calculate_payoff self agent cur game_state)
                          (calculate_payoff self agent alt game_state)).
  { intros msg. rewrite Hsnd, in_flat_map. split.
    - intros ((agent, cur) & Hitem & Hm). unfold reported_deviations in Hm.
      apply in_map_iff in Hm as (alt & <- & Hf).
      apply filter_In in Hf as (Hin & Himp). apply improves_test in Himp.
      exists agent, cur, alt. tauto.
    - intros (agent & cur & alt & Hitem & Hin & Hne & Hlt & ->).
      exists (agent, cur). split; [exact Hitem |]. unfold reported_deviations.
      apply in_map_iff. exists alt. split; [reflexivity |].
      apply filter_In. split; [exact Hin |]. apply improves_test. now split. }
  split; [exact Hsnd |]. split; [exact Hfst |]. split; [exact Hdev |].
  split; [exact Hmsg |]. split; [| split].
  - intros agent cur alt Hle. unfold improves.
    fold (pay agent cur). fold (pay agent alt).
    rewrite (leb_not_ltb _ _ Hle). apply andb_false_r.
  - intros Heq agent cur alt Hitem Hin Hne.
    apply Hfst in Heq. apply not_true_is_false. intros Hlt.
    assert (Hm : In (msg_deviation agent
                       (calculate_payoff self agent cur game_state)
                       (calculate_payoff self agent alt game_state)) (snd result)).
    { apply Hmsg. exists agent, cur, alt. tauto. }
    rewrite Heq in Hm. exact Hm.
  - intros H. apply Hfst.
    destruct (snd result) as [| msg rest] eqn:E; [reflexivity |].
    assert (Hm : In msg (msg :: rest)) by now left.
    apply Hmsg in Hm as (agent & cur & alt & Hitem & Hin & Hne & Hlt & _).
    specialize (H agent cur alt Hitem Hin Hne). congruence.
Qed.


(** *** max with a key *)

(** [max] keeps the first element no later element beats.  Unless that is
    the head of the list, the head lies strictly below it, no earlier
    element reaches it, and its key is not NaN. *)
Lemma max_by_float {A : Type} (key : A -> float) (xs : list A) (x : A) :
  exists l1 l2,
    x :: xs = l1 ++ max_by key x xs :: l2
    /\ (l1 = [] \/ (key x <? key (max_by key x xs)) = true)
    /\ (forall q, In q l1 -> (key (max_by key x xs) <=? key q) = false)
    /\ (forall q, In q l2 -> (key (max_by key x xs) <? key q) = false).
Proof.
  unfold max_by. revert x. induction xs as [| y xs IH]; intros x.
  - exists [], []. cbn. repeat split; auto; intros q [].
  - cbn [fold_left]. destruct (key x <? key y) eqn:E.
    + destruct (IH y) as (l1 & l2 & Heq & Hhd & H1 & H2).
      set (best := fold_left _ xs y) in *.
      assert (Hxb : (key x <? key best) = true).
      { destruct Hhd as [-> | Hhd].
        - cbn [app] in Heq. injection Heq as Hy _. now rewrite <- Hy.
        - exact (ltb_trans _ _ _ E Hhd). }
      exists (x :: l1), l2. cbn [app]. rewrite Heq.
      split; [reflexivity |]. split; [now right |]. split; [| exact H2].
      intros q [<- | Hq]; [now apply ltb_not_leb | now apply H1].
    + destruct (IH x) as (l1 & l2 & Heq & Hhd & H1 & H2).
      set (best := fold_left _ xs x) in *.
      destruct l1 as [| x' l1].
      * cbn [app] in Heq. injection Heq as Hx Hxs.
        exists [], (y :: l2). cbn [app]. rewrite <- Hx, Hxs.
        split; [reflexivity |]. split; [now left |].
        split; [intros q [] |].
        intros q [<- | Hq]; [exact E | rewrite Hx; now apply H2].
      * cbn [app] in Heq. injection Heq as Hx Hxs. subst x'.
        destruct Hhd as [Hhd | Hhd]; [discriminate |].
        exists (x :: y :: l1), l2. cbn [app]. rewrite Hxs.
        split; [reflexivity |]. split; [now right |]. split; [| exact H2].
        intros q [<- | [<- | Hq]].
        -- now apply ltb_not_leb.
        -- destruct (key y =? key y) eqn:Eq; [| now apply unordered_leb_r].
           apply ltb_not_leb. apply leb_ltb_trans with (y := key x); [| exact Hhd].
           apply not_ltb_leb; [| exact Eq | exact E].
           now apply ltb_ordered in Hhd.
        -- apply H1. now right.
Qed.


(** *** find_best_response *)

(** The choice made by [find_best_response]: a candidate of positive payoff
    that no earlier candidate reaches and no later candidate exceeds; none
    when no candidate has a positive payoff. *)
Lemma find_best_response_choice (self : RACIGameValidator) (agent : Agent)
  (actions : list Action) (g : GameState) :
  let pay action := payoff (calculate_payoff self agent action g) in
  match find_best_response self agent actions g with
  | Some act =>
      exists a1 a2,
        actions = a1 ++ act :: a2
        /\ (0 <? pay act) = true
        /\ (forall x, In x a1 -> (pay act <=? pay x) = false)
        /\ (forall x, In x a2 -> (pay act <? pay x) = false)
  | None =>
      actions = []
      \/ (exists x rest, actions = x :: rest /\ (pay x =? pay x) = false)
      \/ (forall x, In x actions -> (0 <? pay x) = false)
  end.
Proof.
  intros pay. unfold find_best_response.
  destruct actions as [| x xs]; cbn [map]; [now left |].
  cbv zeta.
  set (f := fun action => calculate_payoff self agent action g).
  change (calculate_payoff self agent x g) with (f x).
  destruct (max_by_float payoff (map f xs) (f x)) as (l1 & l2 & Heq & Hhd & H1 & H2).
  set (best := max_by payoff (f x) (map f xs)) in *.
  change (f x :: map f xs) with (map f (x :: xs)) in Heq.
  pose proof Heq as Heq0.
  apply map_eq_app in Heq as (a1 & rest & Hact & Hl1 & Hrest).
  apply map_eq_cons in Hrest as (act & a2 & -> & Hbest & Hl2).
  assert (Hpay : payoff best = pay act) by (now rewrite <- Hbest).
  assert (Hbact : pm_action best = act) by (now rewrite <- Hbest).
  assert (K1 : forall y, In y a1 -> (pay act <=? pay y) = false).
  { intros y Hy. rewrite <- Hpay. apply (H1 (f y)). rewrite <- Hl1. now apply in_map. }
  assert (K2 : forall y, In y a2 -> (pay act <? pay y) = false).
  { intros y Hy. rewrite <- Hpay. apply (H2 (f y)). rewrite <- Hl2. now apply in_map. }
  destruct (0 <? payoff best) eqn:E.
  - rewrite Hbact. exists a1, a2. rewrite <- Hpay. repeat split; try assumption.
    + intros y Hy. rewrite Hpay. now apply K1.
    + intros y Hy. rewrite Hpay. now apply K2.
  - right. destruct (pay x =? pay x) eqn:Ex; [right | left; now exists x, xs].
    assert (Hord : ordered (payoff best)).
    { destruct Hhd as [-> | Hhd].
      - cbn [app map] in Heq0. injection Heq0 as Hx _. rewrite <- Hx. exact Ex.
      - now apply ltb_ordered in Hhd. }
    assert (Hle : (payoff best <=? 0) = true)
      by (apply not_ltb_leb; [reflexivity | exact Hord | exact E]).
    rewrite Hpay in Hle.
    intros y Hy. apply not_true_is_false. intros Hpos.
    pose proof (leb_ltb_trans _ _ _ Hle Hpos) as Hlt.
    rewrite Hact in Hy. apply in_app_or in Hy as [Hy | [<- | Hy]].
    + apply ltb_leb in Hlt. rewrite (K1 y Hy) in Hlt. discriminate.
    + rewrite ltb_irrefl in Hlt. discriminate.
    + rewrite (K2 y Hy) in Hlt. discriminate.
Qed.



(** *** stackelberg_equilibrium *)

(** The agents of a list compare equal, by [==], exactly to themselves. *)
Definition distinct_keys (l : list Agent) : Prop :=
  forall a a', In a l -> In a' l -> (Agent_eqb a a' = true <-> a = a').


(** [s += f(x)] for each [x] in turn, from [0.0]. *)
Definition running_sum {A : Type} (f : A -> float) (l : list A) : float :=
  fold_left (fun s x => s + f x) l 0.0.

Section Stackelberg64.
Variable self : RACIGameValidator.
Variable actions_by_agent : list (Agent * list Action).

(** [actions_by_agent.get(agent, [])] *)
Definition available (agent : Agent) : list Action :=
  match dict_get Agent_eqb actions_by_agent agent with
  | Some l => l
  | None => []
  end.

(** The best response of an agent to its candidate actions. *)
Definition choice (agent : Agent) : option Action :=
  find_best_response self agent (available agent)
    (new_GameState (self_agents self) (self_raci_assignments self)).

Definition plays (agent : Agent) : bool :=
  match choice agent with Some _ => true | None => false end.

(** The moves made when the agents of [l] play in turn. *)
Definition moves (l : list Agent) : list (Agent * Action) :=
  flat_map (fun agent => match choice agent with
                         | Some best_action => [(agent, best_action)]
                         | None => []
                         end) l.

Let step := stackelberg_step self actions_by_agent.

Lemma step_choice (d : list (Agent * Action)) (g : GameState) (a : Agent) :
  step (d, g) a =
  match choice a with
  | Some b => (dict_set Agent_eqb d a b, record_action g a b)
  | None => (d, g)
  end.
Proof.
  reflexivity.
Qed.

Lemma moves_agents (l : list Agent) : map fst (moves l) = filter plays l.
Proof.
  unfold moves, plays. induction l as [| a l IH]; cbn [flat_map filter];
    [reflexivity |].
  destruct (choice a); cbn [app map fst]; now rewrite IH.
Qed.

(** The state after the agents of [l] have played. *)
Lemma run_state (l : list Agent) (d : list (Agent * Action)) (g : GameState) :
  let st := fold_left step l (d, g) in
  fst st = fold_left (fun d item => dict_set Agent_eqb d (fst item) (snd item))
             (moves l) d
  /\ actions_taken (snd st) = actions_taken g ++ moves l
  /\ compliance_score (snd st)
     = fold_left (fun s x => s + compliance_value (snd x)) (moves l)
         (compliance_score g)
  /\ total_cost (snd st)
     = fold_left (fun s x => s + cost (snd x)) (moves l) (total_cost g)
  /\ total_risk (snd st)
     = fold_left (fun s x => s + risk (snd x)) (moves l) (total_risk g)
  /\ agents (snd st) = agents g
  /\ raci_assignments (snd st) = raci_assignments g.
Proof.
  revert d g. induction l as [| a l IH]; intros d g; cbv zeta.
  - cbn. now rewrite app_nil_r.
  - cbn [fold_left]. rewrite step_choice. unfold moves. cbn [flat_map].
    destruct (choice a) as [b |].
    + specialize (IH (dict_set Agent_eqb d a b) (record_action g a b)).
      cbv zeta in IH. destruct IH as (I0 & I1 & I2 & I3 & I4 & I5 & I6).
      rewrite I0, I1, I2, I3, I4, I5, I6.
      cbn [record_action actions_taken compliance_score total_cost total_risk
           agents raci_assignments app fold_left fst snd].
      now rewrite <- app_assoc.
    + apply IH.
Qed.

(** Lookups in a profile whose keys compare equal only to themselves. *)
Lemma dict_set_lookup (universe : list Agent) (d : list (Agent * Action))
  (k q : Agent) (v : Action) :
  distinct_keys universe ->
  incl (map fst d) universe -> In k universe -> In q universe ->
  dict_get Agent_eqb (dict_set Agent_eqb d k v) q
  = if Agent_eqb k q then Some v else dict_get Agent_eqb d q.
Proof.
  intros Hu Hd Hk Hq.
  induction d as [| (k0, v0) d IH]; cbn [dict_set dict_get]; [reflexivity |].
  assert (Hk0 : In k0 universe) by (apply Hd; now left).
  assert (Hd' : incl (map fst d) universe) by (intros x Hx; apply Hd; now right).
  destruct (Agent_eqb k0 k) eqn:E0; cbn [dict_get].
  - apply (Hu k0 k Hk0 Hk) in E0. subst k0. now destruct (Agent_eqb k q).
  - rewrite (IH Hd'). destruct (Agent_eqb k q) eqn:Ekq; [| reflexivity].
    apply (Hu k q Hk Hq) in Ekq. subst q. now rewrite E0.
Qed.

Lemma dict_set_keys (d : list (Agent * Action)) (k : Agent) (v : Action) :
  incl (map fst (dict_set Agent_eqb d k v)) (k :: map fst d).
Proof.
  induction d as [| (k0, v0) d IH]; cbn [dict_set map fst].
  - apply incl_refl.
  - destruct (Agent_eqb k0 k); cbn [map fst].
    + intros x Hx. now right.
    + intros x [<- | Hx]; [right; now left |].
      destruct (IH x Hx) as [<- | Hx']; [now left | right; now right].
Qed.

Lemma dict_set_entries (d : list (Agent * Action)) (a k : Agent) (v b : Action) :
  In (k, b) (dict_set Agent_eqb d a v) ->
  In (k, b) d
  \/ (b = v /\ (k = a \/ (Agent_eqb k a = true /\ In k (map fst d)))).
Proof.
  induction d as [| (k0, v0) d IH]; cbn [dict_set].
  - intros [[= <- <-] | []]. right. split; [reflexivity | now left].
  - destruct (Agent_eqb k0 a) eqn:E.
    + intros [[= <- <-] | H].
      * right. split; [reflexivity |]. right. split; [exact E | now left].
      * left. now right.
    + intros [H | H]; [left; now left |].
      destruct (IH H) as [H' | (Hb & [Hka | (Hk & Hin)])].
      * left. now right.
      * right. split; [exact Hb | now left].
      * right. split; [exact Hb |]. right. split; [exact Hk | now right].
Qed.


(** The profile after the agents of [l] have played, all from a universe
    of agents that compare equal only to themselves. *)
Lemma run_profile (universe l : list Agent) :
  distinct_keys universe -> incl l universe ->
  forall g,
    let d := fst (fold_left step l ([], g)) in
    incl (map fst d) l
    /\ (forall q, In q universe ->
          dict_get Agent_eqb d q = if existsb (fun a => Agent_eqb a q) l
                                   then choice q else None)
    /\ (forall k b, In (k, b) d -> In k l /\ choice k = Some b).
Proof.
  intros Hu. induction l as [| a l IH] using rev_ind; intros Hl g; cbv zeta.
  - cbn. split; [intros x [] | split; [reflexivity | intros k b []]].
  - assert (Hl' : incl l universe)
      by (intros x Hx; apply Hl, in_or_app; now left).
    assert (Ha : In a universe)
      by (apply Hl, in_or_app; right; now left).
    specialize (IH Hl' g). cbv zeta in IH. destruct IH as (Ik & Ig & Ie).
    rewrite fold_left_app. cbn [fold_left].
    destruct (fold_left step l ([], g)) as (d, g1). cbn [fst] in Ik, Ig, Ie.
    rewrite step_choice.
    destruct (choice a) as [b |] eqn:Ec; cbn [fst].
    + split; [| split].
      * intros x Hx. apply dict_set_keys in Hx as [<- | Hx];
          apply in_or_app; [right; now left | left; now apply Ik].
      * intros q Hq.
        rewrite (dict_set_lookup universe); auto;
          [| intros x Hx; apply Hl'; now apply Ik].
        rewrite existsb_app. cbn [existsb]. rewrite orb_false_r.
        destruct (Agent_eqb a q) eqn:E.
        -- apply (Hu a q Ha Hq) in E. subst q. now rewrite orb_true_r.
        -- rewrite orb_false_r. now apply Ig.
      * intros k v Hin. apply dict_set_entries in Hin as [Hin | (-> & Hor)].
        -- destruct (Ie k v Hin) as (Hk & Hc). split; [| exact Hc].
           apply in_or_app. now left.
        -- assert (Hka : k = a).
           { destruct Hor as [Hka | (Hk & Hin)]; [exact Hka |].
             apply (Hu k a); [apply Hl'; now apply Ik | exact Ha | exact Hk]. }
           subst k. split; [apply in_or_app; right; now left | exact Ec].
    + split; [| split].
      * intros x Hx. apply in_or_app. left. now apply Ik.
      * intros q Hq. rewrite existsb_app. cbn [existsb]. rewrite orb_false_r.
        destruct (Agent_eqb a q) eqn:E.
        -- apply (Hu a q Ha Hq) in E. subst q. rewrite orb_true_r, Ig by exact Hq.
           rewrite Ec. now destruct (existsb _ l).
        -- rewrite orb_false_r. now apply Ig.
      * intros k v Hin. destruct (Ie k v Hin) as (Hk & Hc). split; [| exact Hc].
        apply in_or_app. now left.
Qed.

End Stackelberg64.

Lemma fold_left_snd {A B : Type} (f : B -> float) (l : list (A * B)) (s : float) :
  fold_left (fun s x => s + f (snd x)) l s
  = fold_left (fun s x => s + f x) (map snd l) s.
Proof.
  revert s. induction l as [| x l IH]; intros s; cbn [fold_left map];
    [reflexivity | apply IH].
Qed.

(** The agents and assignments of [main]. *)
Definition architect_agent : Agent :=
  {| agent_id := "architect-agent"; tier := RaciGame.TIER4_ARCHITECT;
     controls := ["APP-001"; "G-02"]%string;
     cost_per_action := 2.0; risk_tolerance := 0.8 |}.

Definition security_agent : Agent :=
  {| agent_id := "security-agent"; tier := RaciGame.TIER3_OPERATIONS;
     controls := ["SEC-001"; "MI-003"]%string;
     cost_per_action := 1.5; risk_tolerance := 0.6 |}.

Definition ops_agent : Agent :=
  {| agent_id := "ops-agent"; tier := RaciGame.TIER3_OPERATIONS;
     controls := ["AU-002"; "MI-020"]%string;
     cost_per_action := 1.0; risk_tolerance := 0.5 |}.

Definition dev_agent : Agent :=
  {| agent_id := "dev-agent"; tier := RaciGame.TIER2_DEVELOPER;
     controls := ["MI-009"; "MI-021"]%string;
     cost_per_action := 0.8; risk_tolerance := 0.4 |}.

Definition demo_agents : list Agent :=
  [architect_agent; security_agent; ops_agent; dev_agent].

Definition demo_validator : RACIGameValidator :=
  {| self_agents := demo_agents;
     self_raci_assignments :=
       [ {| raci_control_id := "APP-001";
            responsible := Some security_agent;
            accountable := Some architect_agent;
            consulted := [ops_agent]; informed := [dev_agent] |};
         {| raci_control_id := "SEC-001";
            responsible := Some security_agent;
            accountable := Some architect_agent;
            consulted := []; informed := [ops_agent; dev_agent] |};
         {| raci_control_id := "AU-002";
            responsible := Some ops_agent;
            accountable := Some architect_agent;
            consulted := [security_agent]; informed := [dev_agent] |} ] |}.

(** [{agent: validator._get_agent_actions(agent) for agent in agents}] *)
Definition demo_actions : list (Agent * list Action) :=
  map (fun agent => (agent, _get_agent_actions demo_validator agent)) demo_agents.

Lemma demo_agents_distinct : distinct_keys demo_agents.
Proof.
  intros a a' Ha Ha'. cbn in Ha, Ha'.
  repeat (destruct Ha as [<- | Ha]; [| try contradiction]);
    repeat (destruct Ha' as [<- | Ha']; [| try contradiction]);
    (split; [vm_compute; intros H; (reflexivity || discriminate H)
            | intros H; (vm_compute; reflexivity) || discriminate H]).
Qed.

Example demo_equilibrium_64 :
  map (fun item => (agent_id (fst item), action_id (snd item)))
      (stackelberg_equilibrium demo_validator demo_actions)
  = [ ("architect-agent", "architect-agent_APP-001_execute");
      ("security-agent", "security-agent_SEC-001_execute");
      ("ops-agent", "ops-agent_AU-002_execute");
      ("dev-agent", "dev-agent_MI-009_execute") ]%string.
Proof. vm_compute. reflexivity. Qed.

(** An action whose payoff [1.1 - 1.0 - 0.1] is the double 8.3e-17, above
    0: it is played.  The agents offered nothing get no entry. *)
Definition edge_action : Action :=
  {| action_id := "edge"; control_id := "X"; description := "";
     cost := 1.0; risk := 0.2; compliance_value := 1.1;
     requires_approval := false |}.

Example edge_action_played :
  map (fun item => (agent_id (fst item), action_id (snd item)))
      (stackelberg_equilibrium demo_validator [(ops_agent, [edge_action])])
  = [("ops-agent", "edge")]%string.
Proof. vm_compute. reflexivity. Qed.




(** X2.  When the validator's agents compare equal only to themselves,
    every entry of the profile returned by [stackelberg_equilibrium] belongs
    to one of the agents, holds one of the candidate actions offered to that
    agent, and that action has a positive computed payoff that no candidate
    of the agent exceeds. *)
Theorem stackelberg_profile_sound (self : RACIGameValidator)
  (actions_by_agent : list (Agent * list Action)) :
  distinct_keys (self_agents self) ->
  let state0 := new_GameState (self_agents self) (self_raci_assignments self) in
  let pay a action := payoff (calculate_payoff self a action state0) in
  Forall (fun item : Agent * Action =>
            In (fst item) (self_agents self)
            /\ In (snd item) (available actions_by_agent (fst item))
            /\ (0 <? pay (fst item) (snd item)) = true
            /\ forall x, In x (available actions_by_agent (fst item)) ->
                         (pay (fst item) (snd item) <? pay (fst item) x) = false)
         (stackelberg_equilibrium self actions_by_agent).
Proof.
  intros Hu state0 pay. apply Forall_forall. intros (k, b) Hin. cbn [fst snd].
  destruct (run_profile self actions_by_agent (self_agents self)
              (sorted_agents self) Hu) with (g := state0) as (_ & _ & He).
  { intros x Hx. eapply Permutation_in;
      [apply Permutation_sym, RaciGameProps.sorted_desc_perm | exact Hx]. }
  destruct (He k b Hin) as (Hk & Hc).
  split; [eapply Permutation_in;
            [apply Permutation_sym, RaciGameProps.sorted_desc_perm | exact Hk] |].
  pose proof (find_best_response_choice self k (available actions_by_agent k) state0)
    as Hs.
  cbv zeta in Hs. unfold choice in Hc. fold state0 in Hc. rewrite Hc in Hs.
  destruct Hs as (a1 & a2 & Heq & Hpos & H1 & H2).
  split; [rewrite Heq; apply in_or_app; right; now left |].
  split; [exact Hpos |].
  intros x Hx. rewrite Heq in Hx. apply in_app_or in Hx as [Hx | [<- | Hx]].
  - apply not_true_is_false. intros Hlt. apply ltb_leb in Hlt.
    pose proof (H1 x Hx) as Hx1. unfold pay in Hlt. congruence.
  - apply ltb_irrefl.
  - now apply H2.
Qed.

Lemma stackelberg_profile_sound_witness :
  distinct_keys (self_agents demo_validator)
  /\ Forall (fun item : Agent * Action =>
               In (fst item) demo_agents
               /\ In (snd item) (available demo_actions (fst item)))
            (stackelberg_equilibrium demo_validator demo_actions).
Proof.
  split; [exact demo_agents_distinct |].
  pose proof (stackelberg_profile_sound demo_validator demo_actions
                demo_agents_distinct) as H.
  cbv zeta in H. eapply Forall_impl; [| exact H].
  intros item (H1 & H2 & _). split; assumption.
Defined.

(** X4.  In the game state [stackelberg_equilibrium] has built when it
    returns, the compliance score, the total cost and the total risk are
    the running sums (from 0.0, in play order, in double precision) of those
    of the actions taken; the agents of the actions taken are, in play
    order, the agents for which a best response was found, so that an agent
    listed once takes at most one action. *)
Theorem stackelberg_totals (self : RACIGameValidator)
  (actions_by_agent : list (Agent * list Action)) :
  let g := snd (stackelberg_run self actions_by_agent) in
  let taken := map snd (actions_taken g) in
  compliance_score g = running_sum compliance_value taken
  /\ total_cost g = running_sum cost taken
  /\ total_risk g = running_sum risk taken
  /\ map fst (actions_taken g)
     = filter (plays self actions_by_agent) (sorted_agents self)
  /\ (NoDup (self_agents self) -> NoDup (map fst (actions_taken g))).
Proof.
  intros g taken.
  pose proof (run_state self actions_by_agent (sorted_agents self) []
                (new_GameState (self_agents self) (self_raci_assignments self)))
    as Hrun.
  cbv zeta in Hrun. destruct Hrun as (_ & Ht & H1 & H2 & H3 & _).
  cbn [actions_taken compliance_score total_cost total_risk new_GameState app]
    in Ht, H1, H2, H3.
  assert (Hm : map fst (actions_taken g)
               = filter (plays self actions_by_agent) (sorted_agents self)).
  { unfold g, stackelberg_run. rewrite Ht. apply moves_agents. }
  split; [| split; [| split; [| split]]].
  - unfold taken, g, stackelberg_run, running_sum.
    rewrite Ht, <- fold_left_snd. exact H1.
  - unfold taken, g, stackelberg_run, running_sum.
    rewrite Ht, <- fold_left_snd. exact H2.
  - unfold taken, g, stackelberg_run, running_sum.
    rewrite Ht, <- fold_left_snd. exact H3.
  - exact Hm.
  - intros Hnd. rewrite Hm. apply NoDup_filter.
    eapply Permutation_NoDup; [apply RaciGameProps.sorted_desc_perm | exact Hnd].
Qed.

Example demo_totals :
  let g := snd (stackelberg_run demo_validator demo_actions) in
  (compliance_score g, total_cost g, total_risk g) = (20.0, 4.0, 1.2).
Proof. vm_compute. reflexivity. Qed.

End RaciGame64Props.

(** ** Cooperative improvement validator, binary64 *)

Module Cooperative64Props.
Import Py PyFacts F64 Py64 Cooperative64.
Local Open Scope float_scope.

(** The message list a test contributes: its message when it fires. *)
Definition issue (b : bool) (msg : string) : list string :=
  if b then [msg] else [].

(** *** validate_pareto_improvement *)

Lemma is_pareto_improvement_tests (m : ImprovementMetrics) :
  is_pareto_improvement m = true <->
  ((0 <=? cost_savings_usd m) = true /\ (0 <=? time_savings_hours m) = true
   /\ (0 <=? quality_improvement_pct m) = true
   /\ (0 <=? risk_reduction_pct m) = true
   /\ (0 <=? compliance_score_delta m) = true)
  /\ ((0 <? cost_savings_usd m) = true \/ (0 <? time_savings_hours m) = true
      \/ (0 <? quality_improvement_pct m) = true
      \/ (0 <? risk_reduction_pct m) = true
      \/ (0 <? compliance_score_delta m) = true).
Proof.
  unfold is_pareto_improvement. cbn [forallb existsb].
  rewrite andb_true_iff, !andb_true_iff, !orb_true_iff.
  intuition discriminate.
Qed.

(** The value [roi] returns: it never raises. *)
Definition roi_value (p : Proposal) : float :=
  if implementation_cost_usd p =? 0 then
    if 0 <? total_value (metrics p) then infinity else 0.0
  else total_value (metrics p) / implementation_cost_usd p.

Lemma roi_is_roi_value (p : Proposal) : roi p = Ok (roi_value p).
Proof.
  unfold roi, roi_value, truediv.
  destruct (implementation_cost_usd p =? 0); reflexivity.
Qed.

Definition zero_metrics : ImprovementMetrics :=
  {| cost_savings_usd := 0.0; time_savings_hours := 0.0;
     quality_improvement_pct := 0.0; risk_reduction_pct := 0.0;
     compliance_score_delta := 0.0 |}.

(** A proposal with the given cost savings and implementation cost. *)
Definition savings_proposal (savings cost : float) : Proposal :=
  {| proposal_id := "P-1"; agent_id := "ops-agent"; agent_tier := 3;
     proposal_type := Cooperative.COST_REDUCTION;
     title := ""; description := ""; current_state := ""; proposed_state := "";
     metrics := {| cost_savings_usd := savings; time_savings_hours := 0.0;
                   quality_improvement_pct := 0.0; risk_reduction_pct := 0.0;
                   compliance_score_delta := 0.0 |};
     affected_controls := [];
     implementation_cost_usd := cost;
     implementation_time_hours := 1.0;
     risk_assessment := "";
     submitted_at := 0;
     jira_cr_id := None |}.

(** The quotient [4.02 / 3.35] is the double 1.1999999999999997, below the
    double 1.2: the proposal is turned down, and the message shows the
    quotient rounded to two places. *)
Example roi_just_below :
  validate_pareto_improvement (savings_proposal 4.02 3.35)
  = Ok (false,
        ["ROI too low: 1.20x. Minimum required: 1.2x (20% return). Proposal must demonstrate clear value."%string]).
Proof. vm_compute. reflexivity. Qed.

(** The quotient [1.2 / 1.0] is the double 1.2: accepted. *)
Example roi_at_threshold :
  validate_pareto_improvement (savings_proposal 1.2 1.0) = Ok (true, []).
Proof. vm_compute. reflexivity. Qed.

(** C5.  [is_pareto_improvement] holds exactly when the five deltas all
    pass [>= 0] and one of them passes [> 0], so the all-zero vector is not
    a Pareto improvement; [validate_pareto_improvement] returns, its verdict
    is [false] exactly when the metrics are not a Pareto improvement, or the
    net benefit passes [<= 0], or the ROI passes [< 1.2], and its issue list
    holds one message for each of the three tests that failed, in order.
    Net benefit, ROI and the comparisons are those the code computes in
    double precision. *)
Theorem pareto_validation_complete (m : ImprovementMetrics) (p : Proposal) :
  (is_pareto_improvement m = true <->
     ((0 <=? cost_savings_usd m) = true /\ (0 <=? time_savings_hours m) = true
      /\ (0 <=? quality_improvement_pct m) = true
      /\ (0 <=? risk_reduction_pct m) = true
      /\ (0 <=? compliance_score_delta m) = true)
     /\ ((0 <? cost_savings_usd m) = true \/ (0 <? time_savings_hours m) = true
         \/ (0 <? quality_improvement_pct m) = true
         \/ (0 <? risk_reduction_pct m) = true
         \/ (0 <? compliance_score_delta m) = true))
  /\ is_pareto_improvement zero_metrics = false
  /\ exists ok issues r,
       validate_pareto_improvement p = Ok (ok, issues)
       /\ roi p = Ok r
       /\ r = (if implementation_cost_usd p =? 0
               then if 0 <? total_value (metrics p) then infinity else 0.0
               else total_value (metrics p) / implementation_cost_usd p)
       /\ net_benefit p = total_value (metrics p) - implementation_cost_usd p
       /\ (ok = false <->
             is_pareto_improvement (metrics p) = false
             \/ (net_benefit p <=? 0) = true
             \/ (r <? 1.2) = true)
       /\ issues =
            issue (negb (is_pareto_improvement (metrics p))) msg_not_pareto
            ++ issue (net_benefit p <=? 0) (msg_net_benefit p (net_benefit p))
            ++ issue (r <? 1.2) (msg_roi r)
       /\ (is_pareto_improvement (metrics p) = false <-> In msg_not_pareto issues)
       /\ ((net_benefit p <=? 0) = true
           <-> In (msg_net_benefit p (net_benefit p)) issues)
       /\ ((r <? 1.2) = true <-> In (msg_roi r) issues).
Proof.
  split; [apply is_pareto_improvement_tests |].
  split; [reflexivity |].
  unfold validate_pareto_improvement. rewrite (roi_is_roi_value p). cbn [bind].
  do 3 eexists. split; [reflexivity |]. split; [reflexivity |].
  split; [reflexivity |]. split; [reflexivity |].
  destruct (is_pareto_improvement (metrics p)) eqn:Hp;
    destruct (net_benefit p <=? 0) eqn:Hn;
    destruct (roi_value p <? 1.2) eqn:Hx; cbn [issue app negb List.length Nat.eqb In];
    repeat split; try tauto; try discriminate; auto; intros H.
  all: unfold msg_not_pareto, Cooperative.msg_not_pareto, msg_net_benefit,
         msg_roi, fstr in H.
  all: cbn [String.concat String.append] in H.
  all: repeat (destruct H as [H | H]; [discriminate H |]).
  all: try contradiction; discriminate H.
Qed.

(** *** validate_review_diligence *)

(** The four engagement markers of a review. *)
Definition markers (r : HumanReview) : list bool :=
  [ (0 <? questions_asked r)%Z;
    (0 <? List.length (documents_reviewed r))%nat;
    (100 <? String.length (comments r))%nat;
    Cooperative.truthy (concerns_raised r) ].

Lemma engagement_is_marker_count (r : HumanReview) :
  engagement r = Z.of_nat (List.length (filter (fun b => b) (markers r))).
Proof.
  unfold engagement, markers. cbn [filter].
  destruct (0 <? questions_asked r)%Z,
           (0 <? List.length (documents_reviewed r))%nat,
           (100 <? String.length (comments r))%nat,
           (Cooperative.truthy (concerns_raised r)); reflexivity.
Qed.

Lemma thin_approval_test (r : HumanReview) :
  thin_approval r = true <->
  status r = Cooperative.APPROVED /\ (String.length (comments r) < 50)%nat.
Proof.
  unfold thin_approval.
  now rewrite andb_true_iff, CooperativeProps.ReviewStatus_eqb_eq, Nat.ltb_lt.
Qed.

Lemma bare_rejection_test (r : HumanReview) :
  bare_rejection r = true <->
  status r = Cooperative.REJECTED /\ concerns_raised r = [].
Proof.
  unfold bare_rejection.
  now rewrite andb_true_iff, CooperativeProps.ReviewStatus_eqb_eq, negb_true_iff,
    CooperativeProps.truthy_false.
Qed.

(** A proposal of complexity 0.7 (0.7 hours, nothing else) and a review of
    the given duration that would otherwise pass. *)
Definition small_proposal : Proposal :=
  {| proposal_id := "P-2"; agent_id := "ops-agent"; agent_tier := 3;
     proposal_type := Cooperative.COST_REDUCTION;
     title := ""; description := ""; current_state := ""; proposed_state := "";
     metrics := zero_metrics;
     affected_controls := [];
     implementation_cost_usd := 0.0;
     implementation_time_hours := 0.7;
     risk_assessment := "";
     submitted_at := 0;
     jira_cr_id := None |}.

Definition timed_review (minutes : float) : HumanReview :=
  {| review_id := "R-1"; reviewer_id := "alice"; reviewer_role := "security";
     review_proposal_id := "P-2";
     status := Cooperative.IN_REVIEW;
     review_start_time := 0; review_end_time := None;
     review_duration_minutes := minutes;
     comments := "";
     approval_signature := None;
     concerns_raised := ["scope"]%string;
     questions_asked := 1;
     documents_reviewed := [] |}.

(** [0.7 * 3.0 * 2] is the double 4.199999999999999, below the double 4.2: a
    review of 4.2 minutes is reported as excessively long. *)
Example review_just_above :
  complexity_score small_proposal = 0.7
  /\ validate_review_diligence small_proposal (timed_review 4.2)
     = (false,
        ["Review time excessively long: 4.2 minutes for complexity 1. Expected maximum: 2.1 minutes. Possible review abandonment or lack of focus."%string]).
Proof. split; vm_compute; reflexivity. Qed.

(** C8.  [validate_review_diligence] reports a review as diligent exactly
    when none of its five tests fires: duration below complexity x 0.5,
    duration above complexity x 3.0 x 2 (both products as computed in double
    precision), approval with fewer than 50 characters of comments,
    rejection without concerns, fewer than 2 of the four engagement markers.
    Every test is evaluated, and the issue list holds the message of each
    test that fired, in that order. *)
Theorem review_diligence_flags (p : Proposal) (r : HumanReview) :
  let c := complexity_score p in
  let d := review_duration_minutes r in
  let n := Z.of_nat (List.length (filter (fun b => b) (markers r))) in
  (fst (validate_review_diligence p r) = true <->
     (d <? c * 0.5) = false
     /\ (c * 3.0 * 2 <? d) = false
     /\ ~ (status r = Cooperative.APPROVED /\ (String.length (comments r) < 50)%nat)
     /\ ~ (status r = Cooperative.REJECTED /\ concerns_raised r = [])
     /\ ~ (n < 2)%Z)
  /\ snd (validate_review_diligence p r) =
       issue (too_short p r) (msg_too_short d c (c * 0.5))
       ++ issue (too_long p r) (msg_too_long d c (c * 3.0))
       ++ issue (thin_approval r) (msg_comments r)
       ++ issue (bare_rejection r) Cooperative.msg_no_concerns
       ++ issue (low_engagement r) (Cooperative.msg_engagement n)
  /\ too_short p r = (d <? c * 0.5)
  /\ too_long p r = (c * 3.0 * 2 <? d)
  /\ (thin_approval r = true <->
        status r = Cooperative.APPROVED /\ (String.length (comments r) < 50)%nat)
  /\ (bare_rejection r = true <->
        status r = Cooperative.REJECTED /\ concerns_raised r = [])
  /\ (low_engagement r = true <-> (n < 2)%Z).
Proof.
  intros c d n.
  assert (Hlow : low_engagement r = true <-> (n < 2)%Z).
  { unfold low_engagement, n. rewrite <- engagement_is_marker_count.
    apply Z.ltb_lt. }
  split; [| split; [| split; [reflexivity |];
    split; [reflexivity |]; split; [apply thin_approval_test |];
    split; [apply bare_rejection_test | apply Hlow]]].
  - rewrite <- thin_approval_test, <- bare_rejection_test, <- Hlow.
    change (d <? c * 0.5) with (too_short p r).
    change (c * 3.0 * 2 <? d) with (too_long p r).
    unfold validate_review_diligence.
    destruct (too_short p r), (too_long p r), (thin_approval r),
      (bare_rejection r), (low_engagement r);
      cbn [fst app List.length Nat.eqb]; intuition discriminate.
  - unfold validate_review_diligence, n.
    rewrite <- engagement_is_marker_count.
    destruct (too_short p r), (too_long p r), (thin_approval r),
      (bare_rejection r), (low_engagement r); reflexivity.
Qed.

(** *** validate_truthful_reporting *)

(** A bad pattern is frequent when more than 30% of the history shows it:
    [len(errors) > len(agent_history) * 0.3]. *)
Definition frequent (bad : Proposal -> bool) (history : list Proposal) : bool :=
  over_30_pct (List.length (filter bad history)) (List.length history).

(** [score -= x] when the test [b] fires. *)
Definition less (b : bool) (x score : float) : float :=
  if b then score - x else score.

(** The score in the words of the specification: the current proposal is
    penalised when its claimed total value exceeds 100 times its
    implementation cost. *)
Definition truthfulness_score_as_stated (proposal : Proposal)
  (history : list Proposal) : float :=
  match history with
  | [] => 0.9
  | _ :: _ =>
      fmax (less (100 * implementation_cost_usd proposal
                  <? total_value (metrics proposal)) 0.1
              (less (frequent is_time_error history) 0.2
                 (less (frequent is_cost_error history) 0.2 1.0)))
           0.0
  end.

Lemma truthful_score_value (proposal q : Proposal) (history : list Proposal) :
  fst (validate_truthful_reporting proposal (q :: history))
  = fmax (less (is_red_flag proposal) 0.1
            (less (frequent is_time_error (q :: history)) 0.2
               (less (frequent is_cost_error (q :: history)) 0.2 1.0)))
         0.0.
Proof.
  unfold validate_truthful_reporting, frequent. rewrite !length_map.
  destruct (over_30_pct (List.length (filter is_cost_error (q :: history))) _),
           (over_30_pct (List.length (filter is_time_error (q :: history))) _),
           (is_red_flag proposal); reflexivity.
Qed.

(** A proposal claiming 60000 of value for a cost of 550, by an agent with
    one earlier, unremarkable proposal. *)
Definition costly_claim : Proposal := savings_proposal 60000 550.

Definition earlier_proposal : Proposal := savings_proposal 125.0 50.0.

(** C6, as stated, fails: a claimed value of 60000 exceeds 100 times the
    cost of 550, yet the code subtracts nothing, because the cost is not
    below 500. *)
Lemma truthful_score_differs_from_stated :
  fst (validate_truthful_reporting costly_claim [earlier_proposal]) = 1.0
  /\ truthfulness_score_as_stated costly_claim [earlier_proposal] = 0.9
  /\ (100 * implementation_cost_usd costly_claim
      <? total_value (metrics costly_claim)) = true
  /\ (fst (validate_truthful_reporting costly_claim [earlier_proposal])
      =? truthfulness_score_as_stated costly_claim [earlier_proposal]) = false.
Proof.
  repeat split; vm_compute; reflexivity.
Qed.

(** The penalties are subtracted in double precision. *)
Example truthful_score_rounding :
  (1.0 - 0.1 = 0.9 /\ 1.0 - 0.2 = 0.8
   /\ 1.0 - 0.2 - 0.1 = 0.7000000000000001
   /\ 1.0 - 0.2 - 0.2 = 0.6000000000000001
   /\ 1.0 - 0.2 - 0.2 - 0.1 = 0.5000000000000001)%float.
Proof. repeat split; vm_compute; reflexivity. Qed.

(** C6, amended.  With an empty history the score is 0.9.  Otherwise it is
    1.0, less 0.2 for each of the two bad patterns (underestimated cost:
    value above 10000 for a cost below 100; overestimated benefit: time
    savings above 100 for an implementation time below 1) that more than
    30% of the history shows, less 0.1 when the current proposal's total
    value is above 50000 and its cost below 500, floored at 0.0; the
    subtractions are those of double precision, in that order.  The score
    lies in [0, 1]. *)
Theorem truthful_reporting_score (proposal : Proposal) (history : list Proposal) :
  let score := fst (validate_truthful_reporting proposal history) in
  (history = [] -> score = 0.9)
  /\ (history <> [] ->
        score = fmax (less (is_red_flag proposal) 0.1
                        (less (frequent is_time_error history) 0.2
                           (less (frequent is_cost_error history) 0.2 1.0)))
                     0.0)
  /\ ((0 <=? score) = true /\ (score <=? 1) = true)
  /\ In score [1.0; 0.9; 0.8; 0.7000000000000001; 0.6000000000000001;
               0.5000000000000001]
  /\ (forall bad,
        frequent bad history
        = (float_of_nat (List.length history) * 0.3
           <? float_of_nat (List.length (filter bad history))))
  /\ (forall q, is_cost_error q
                = (10000 <? total_value (metrics q))
                  && (implementation_cost_usd q <? 100))
  /\ (forall q, is_time_error q
                = (implementation_time_hours q <? 1)
                  && (100 <? time_savings_hours (metrics q)))
  /\ is_red_flag proposal
     = (50000 <? total_value (metrics proposal))
       && (implementation_cost_usd proposal <? 500).
Proof.
  intros score. subst score.
  split; [intros ->; reflexivity |].
  split.
  { destruct history as [| q history]; [congruence |]. intros _.
    apply truthful_score_value. }
  split.
  { destruct history as [| q history]; [vm_compute; split; reflexivity |].
    rewrite truthful_score_value.
    destruct (frequent is_cost_error (q :: history)),
             (frequent is_time_error (q :: history)),
             (is_red_flag proposal); vm_compute; split; reflexivity. }
  split.
  { destruct history as [| q history]; [right; now left |].
    rewrite truthful_score_value.
    destruct (frequent is_cost_error (q :: history)),
             (frequent is_time_error (q :: history)),
             (is_red_flag proposal); vm_compute; tauto. }
  repeat split; reflexivity.
Qed.

(** *** find_pareto_optimal_set *)

(** The verdict of [validate_pareto_improvement]. *)
Definition accepted (p : Proposal) : bool :=
  is_pareto_improvement (metrics p)
  && negb (net_benefit p <=? 0)
  && negb (roi_value p <? 1.2).







(** The demonstration proposal of [main]: savings 125, risk reduction 5,
    implementation cost 50. *)
Definition demo_proposal : Proposal :=
  {| proposal_id := "PROP-2025-001"; agent_id := "ops-agent"; agent_tier := 3;
     proposal_type := Cooperative.COST_REDUCTION;
     title := "Optimize Lambda memory configuration";
     description := "Reduce Lambda memory from 3GB to 1GB";
     current_state := "Lambda functions: 3GB memory, $250/month";
     proposed_state := "Lambda functions: 1GB memory, $125/month";
     metrics := {| cost_savings_usd := 125.0; time_savings_hours := 0.0;
                   quality_improvement_pct := 0.0; risk_reduction_pct := 5.0;
                   compliance_score_delta := 0.0 |};
     affected_controls := ["MI-009"; "MI-021"]%string;
     implementation_cost_usd := 50.0;
     implementation_time_hours := 2.0;
     risk_assessment := "Low - tested in dev, gradual rollout planned";
     submitted_at := 0;
     jira_cr_id := None |}.

Example demo_proposal_accepted :
  validate_pareto_improvement demo_proposal = Ok (true, [])
  /\ find_pareto_optimal_set [demo_proposal] 1000.0 = Ok [demo_proposal].
Proof. split; vm_compute; reflexivity. Qed.

(** With a budget of 1.0 and costs 0.9 and 0.1 only the first proposal is
    selected: [1.0 - 0.9] is the double 0.09999999999999998, below 0.1. *)
Example selection_rounding :
  option_map (map implementation_cost_usd)
    (match find_pareto_optimal_set
             [savings_proposal 9.0 0.9; savings_proposal 0.5 0.1] 1.0 with
     | Ok l => Some l
     | Raise _ => None
     end)
  = Some [0.9].
Proof. vm_compute. reflexivity. Qed.


End Cooperative64Props.
